(** * Casino-chip notebooks: the model formulations, embedded and verified

    The two notebooks build mixed-integer linear models through the
    gurobipy modelling API and hand them to the solver.  This development
    embeds what the notebook cells do -- the linear expressions they build,
    the variables and constraints they add to or remove from the model, the
    objective they set, the lines they print -- and proves the properties
    of those formulations.  The solver itself is a black box: it appears
    only as a function from a model to an optional solution.

    Numbers.  Coefficients, bounds and right-hand sides are rationals
    ([Q]); every Python literal of the notebooks is carried with the value
    the interpreter gives it (a binary64 number is a rational).  The one
    floating-point product whose rounding matters, [0.9*z], is computed
    with the IEEE-754 binary64 multiplication of [SpecFloat]. *)

From Stdlib Require Import ZArith QArith Qround Lqa Lia List String Ascii Bool.
From Stdlib Require Import DecimalString.
From Stdlib Require Import Permutation SpecFloat.
Import ListNotations.

Local Open Scope string_scope.
Local Open Scope Q_scope.

(* ================================================================== *)
(** * Python-level results: exceptions and dictionaries                *)
(* ================================================================== *)

(** The exceptions a cell of the notebooks can meet: a missing key on
    [d[k]]; an attribute that the object does not have, or that gurobipy
    refuses to return because it has no value yet ([v.X] or [model.ObjVal]
    without a solution); a file that is not there; a file that cannot be
    read as asked (no column at all, or not the index column that is
    named). *)
Inductive PyError : Type :=
| KeyError (key : string)
| AttributeError (attr : string)
| FileNotFoundError (path : string)
| ValueError (what : string).

Definition Py (A : Type) : Type := (PyError + A)%type.

Definition ret {A} (a : A) : Py A := inr a.
Definition raise {A} (e : PyError) : Py A := inl e.
Definition bind {A B} (c : Py A) (k : A -> Py B) : Py B :=
  match c with
  | inl e => inl e
  | inr a => k a
  end.

Declare Scope py_scope.
Delimit Scope py_scope with py.
Notation "x <- c ;; k" := (bind c (fun x => k))
  (at level 61, c at next level, right associativity) : py_scope.
Local Open Scope py_scope.

(** A generator expression [(body k for k in ks)], consumed from left to
    right; the first exception ends it. *)
Fixpoint for_in {K A} (ks : list K) (body : K -> Py A) : Py (list A) :=
  match ks with
  | [] => ret []
  | k :: ks' =>
      a <- body k ;;
      rest <- for_in ks' body ;;
      ret (a :: rest)
  end.

(** A dict with string keys, in insertion order (a Python dict, and
    gurobipy's [tupledict], iterate in that order). *)
Definition dict (V : Type) : Type := list (string * V).

Fixpoint getitem {V} (d : dict V) (k : string) : Py V :=
  match d with
  | [] => raise (KeyError k)
  | (k', v) :: d' => if String.eqb k k' then ret v else getitem d' k
  end.

Notation "d .[ k ]" := (getitem d k) (at level 1, left associativity,
  format "d .[ k ]") : py_scope.

Definition keys {V} (d : dict V) : list string := map fst d.
Definition values {V} (d : dict V) : list V := map snd d.

Definition contains (l : list string) (k : string) : bool :=
  existsb (String.eqb k) l.

(** [gp.multidict(d)] for a dict with scalar values: the list of the keys
    and a dict from each key to its value. *)
Definition multidict {V} (d : dict V) : list string * dict V :=
  (keys d, d).

(** What [print] shows of a list of strings, of an integer, and of a dict
    from strings to integers: [['a', 'b']], [5], [{'a': 5}]. *)
Definition repr_str (s : string) : string := "'" ++ s ++ "'".

Fixpoint join (sep : string) (l : list string) : string :=
  match l with
  | [] => EmptyString
  | [s] => s
  | s :: l' => s ++ sep ++ join sep l'
  end.

Definition repr_list (l : list string) : string :=
  "[" ++ join ", " (map repr_str l) ++ "]".

Definition repr_int (q : Q) : string :=
  NilZero.string_of_int (Z.to_int (Qnum q)).

Definition repr_dict (d : dict Q) : string :=
  "{" ++ join ", " (map (fun kv => repr_str (fst kv) ++ ": "
                                   ++ repr_int (snd kv)) d) ++ "}".

(* ================================================================== *)
(** * Linear expressions ([gurobipy.LinExpr])                          *)
(* ================================================================== *)

(** A variable handle is the index of its column in the model. *)
Definition Var : Type := nat.
Bind Scope nat_scope with Var.

(** A linear expression keeps the terms in the order they were added,
    repeated variables included, and a constant. *)
Record LinExpr : Type := mkLinExpr {
  terms : list (Q * Var);
  constant : Q
}.

Definition number (q : Q) : LinExpr := mkLinExpr [] q.
Definition of_var (v : Var) : LinExpr := mkLinExpr [(1, v)] 0.

(** [v * c] and [c * v] *)
Definition times (v : Var) (c : Q) : LinExpr := mkLinExpr [(c, v)] 0.

(** [e1 + e2] *)
Definition plus (e1 e2 : LinExpr) : LinExpr :=
  mkLinExpr (terms e1 ++ terms e2) (constant e1 + constant e2).

(** [c * e] *)
Definition scale (c : Q) (e : LinExpr) : LinExpr :=
  mkLinExpr (map (fun t => (c * fst t, snd t)) (terms e)) (c * constant e).

(** [gp.quicksum(es)] and the builtin [sum(es)]: both start from zero and
    add the items from left to right. *)
Definition quicksum (es : list LinExpr) : LinExpr :=
  fold_left plus es (number 0).

Definition py_sum (es : list LinExpr) : LinExpr :=
  fold_left plus es (number 0).

(** [x.sum()] on a tupledict of variables. *)
Definition tupledict_sum (x : dict Var) : LinExpr :=
  quicksum (map of_var (values x)).

(** [x.prod(coeff)]: the sum of [coeff[k] * x[k]] over the keys that [x] and
    [coeff] both have; a key that [coeff] does not have contributes
    nothing.  The terms are listed as the keys of [x] come, which for the
    dicts of the notebook, with the same keys in the same order, is also
    the order of [coeff]. *)
Definition prod (x : dict Var) (coeff : dict Q) : LinExpr :=
  quicksum
    (flat_map (fun kv =>
                 match getitem coeff (fst kv) with
                 | inr c => [times (snd kv) c]
                 | inl _ => []
                 end) x).

(** The operators lifted to operands that may raise, evaluated left to
    right as Python does. *)
Definition mul_ (v : Py Var) (c : Py Q) : Py LinExpr :=
  v' <- v ;; c' <- c ;; ret (times v' c').
Definition rmul_ (c : Py Q) (v : Py Var) : Py LinExpr :=
  c' <- c ;; v' <- v ;; ret (times v' c').
Definition add_ (a b : Py LinExpr) : Py LinExpr :=
  a' <- a ;; b' <- b ;; ret (plus a' b').

Infix "*'" := mul_ (at level 40, left associativity) : py_scope.
Infix "'*" := rmul_ (at level 40, left associativity) : py_scope.
Infix "+'" := add_ (at level 50, left associativity) : py_scope.

(** An assignment gives every column a value; [eval] is the value of an
    expression under it, [coeff] the total coefficient of a variable. *)
Definition assignment : Type := Var -> Q.

Definition eval (a : assignment) (e : LinExpr) : Q :=
  fold_right (fun t acc => fst t * a (snd t) + acc) (constant e) (terms e).

Definition coeff (e : LinExpr) (v : Var) : Q :=
  fold_right (fun t acc => if Nat.eqb (snd t) v then fst t + acc else acc)
             0 (terms e).

(* ================================================================== *)
(** * The model ([gurobipy.Model])                                     *)
(* ================================================================== *)

Inductive VType : Type := CONTINUOUS | INTEGER | BINARY.

(** The attributes of a column.  [addVars] leaves the bounds at gurobipy's
    defaults: lower bound 0, no upper bound (1 for a binary). *)
Record VarAttr : Type := mkVar {
  VarName : string;
  vtype : VType;
  LB : Q;
  UB : option Q
}.

Inductive Sense : Type := LESS_EQUAL | GREATER_EQUAL | EQUAL.

(** What a comparison of two expressions builds: [lhs <= rhs],
    [lhs >= rhs], [lhs == rhs], and the range form [e == [lo, hi]].  The
    solver stores a range as an equality with a slack column of its own; the
    embedding keeps the two-sided form, which has the same solutions in the
    variables of the notebook. *)
Inductive TempConstr : Type :=
| Cmp (lhs : LinExpr) (s : Sense) (rhs : LinExpr)
| Range (e : LinExpr) (lo hi : Q).

(** A constraint handle; the model gives each added constraint a fresh
    one. *)
Definition Constr : Type := nat.
Bind Scope nat_scope with Constr.

Record Row : Type := mkRow {
  handle : Constr;
  ConstrName : string;
  body : TempConstr
}.

Inductive ModelSense : Type := MINIMIZE | MAXIMIZE.

(** What the solver leaves in the model when it finds a solution: a
    binary64 value per variable and the objective value. *)
Record Solution : Type := mkSolution {
  X : Var -> spec_float;
  ObjVal : spec_float
}.

Record Model : Type := mkModel {
  ModelName : string;
  vars : list VarAttr;
  rows : list Row;
  fresh : Constr;
  objective : LinExpr;
  sense : ModelSense;
  solution : option Solution
}.

(** [gp.Model(name)] *)
Definition Model_new (name : string) : Model :=
  mkModel name [] [] 0%nat (number 0) MINIMIZE None.

Definition default_ub (vt : VType) : option Q :=
  match vt with
  | BINARY => Some 1
  | _ => None
  end.

Definition indexed_name (name key : string) : string :=
  name ++ "[" ++ key ++ "]".

(** [model.addVars(keys, vtype=vt, name=name)] for keys that are distinct,
    as the keys of every call of the notebooks are: one column per key,
    named [name[key]], appended in the order of the keys; the tupledict maps
    each key to its column.  (gurobipy refuses a list that repeats a key,
    with a [KeyError].) *)
Fixpoint addVars_from (n : nat) (ks : list string) (vt : VType) (name : string)
  : dict Var * list VarAttr :=
  match ks with
  | [] => ([], [])
  | k :: ks' =>
      let r := addVars_from (S n) ks' vt name in
      ((k, n) :: fst r,
       mkVar (indexed_name name k) vt 0 (default_ub vt) :: snd r)
  end.

Definition addVars (ks : list string) (vt : VType) (name : string) (m : Model)
  : dict Var * Model :=
  let r := addVars_from (List.length (vars m)) ks vt name in
  (fst r,
   mkModel (ModelName m) (vars m ++ snd r) (rows m) (fresh m)
           (objective m) (sense m) (solution m)).

(** [model.addConstr(tc, name)] *)
Definition addConstr (tc : TempConstr) (name : string) (m : Model)
  : Constr * Model :=
  (fresh m,
   mkModel (ModelName m) (vars m) (rows m ++ [mkRow (fresh m) name tc])
           (S (fresh m)) (objective m) (sense m) (solution m)).

(** The name the solver gives a row that is added without one: [R] and
    the index of the row, which is the number of rows before it. *)
Definition default_ConstrName (m : Model) : string :=
  "R" ++ NilZero.string_of_uint (Nat.to_uint (List.length (rows m))).

(** [model.remove(hs)]: the rows with these handles leave the model. *)
Definition remove (hs : list Constr) (m : Model) : Model :=
  mkModel (ModelName m) (vars m)
          (filter (fun r => negb (existsb (Nat.eqb (handle r)) hs)) (rows m))
          (fresh m) (objective m) (sense m) (solution m).

(** [model.setObjective(e, sense)] *)
Definition setObjective (e : LinExpr) (s : ModelSense) (m : Model) : Model :=
  mkModel (ModelName m) (vars m) (rows m) (fresh m) e s (solution m).

(** [model.getVars()]: the columns in the order they were added. *)
Definition getVars (m : Model) : list Var := seq 0 (List.length (vars m)).

(** [v.VarName] and [v.X] *)
Definition get_VarName (m : Model) (v : Var) : Py string :=
  match nth_error (vars m) v with
  | Some va => ret (VarName va)
  | None => raise (AttributeError "VarName")
  end.

Definition get_X (m : Model) (v : Var) : Py spec_float :=
  match solution m with
  | Some s => ret (X s v)
  | None => raise (AttributeError "X")
  end.

(** [model.ObjVal] *)
Definition get_ObjVal (m : Model) : Py spec_float :=
  match solution m with
  | Some s => ret (ObjVal s)
  | None => raise (AttributeError "ObjVal")
  end.

(* ================================================================== *)
(** * Feasibility                                                      *)
(* ================================================================== *)

Definition is_integer (q : Q) : Prop := exists z : Z, q == inject_Z z.

Definition in_domain (va : VarAttr) (q : Q) : Prop :=
  LB va <= q /\
  match UB va with Some u => q <= u | None => True end /\
  match vtype va with
  | CONTINUOUS => True
  | INTEGER => is_integer q
  | BINARY => q == 0 \/ q == 1
  end.

Definition holds (a : assignment) (tc : TempConstr) : Prop :=
  match tc with
  | Cmp l LESS_EQUAL r => eval a l <= eval a r
  | Cmp l GREATER_EQUAL r => eval a r <= eval a l
  | Cmp l EQUAL r => eval a l == eval a r
  | Range e lo hi => lo <= eval a e /\ eval a e <= hi
  end.

Definition satisfies (a : assignment) (rs : list Row) : Prop :=
  Forall (fun r => holds a (body r)) rs.

Definition respects (a : assignment) (vs : list VarAttr) : Prop :=
  forall v va, nth_error vs v = Some va -> in_domain va (a v).

Definition feasible (m : Model) (a : assignment) : Prop :=
  respects a (vars m) /\ satisfies a (rows m).

(** The same, decided. *)
Definition is_integerb (q : Q) : bool :=
  Qeq_bool q (inject_Z (Qfloor q)).

Definition in_domainb (va : VarAttr) (q : Q) : bool :=
  Qle_bool (LB va) q &&
  match UB va with Some u => Qle_bool q u | None => true end &&
  match vtype va with
  | CONTINUOUS => true
  | INTEGER => is_integerb q
  | BINARY => Qeq_bool q 0 || Qeq_bool q 1
  end.

Definition holdsb (a : assignment) (tc : TempConstr) : bool :=
  match tc with
  | Cmp l LESS_EQUAL r => Qle_bool (eval a l) (eval a r)
  | Cmp l GREATER_EQUAL r => Qle_bool (eval a r) (eval a l)
  | Cmp l EQUAL r => Qeq_bool (eval a l) (eval a r)
  | Range e lo hi => Qle_bool lo (eval a e) && Qle_bool (eval a e) hi
  end.

Definition feasibleb (m : Model) (a : assignment) : bool :=
  forallb (fun v => match nth_error (vars m) v with
                    | Some va => in_domainb va (a v)
                    | None => true
                    end) (getVars m)
  && forallb (fun r => holdsb a (body r)) (rows m).

(* ================================================================== *)
(** * Notebook cells                                                   *)
(* ================================================================== *)

(** The state a cell runs in: the two pieces of the environment the
    notebooks call into (the solver behind [model.optimize()] and Python's
    formatting of a float in an f-string), the object bound to the name
    [model], the lines that the [print] calls of the cells have written so
    far, and the models handed to the solver so far, oldest first.  What
    else a run shows on the same stream -- the output of [%pip] and of shell
    commands, the log of the solver -- is not written by the code of the
    cells and is not part of [stdout]. *)
Record Kernel : Type := mkKernel {
  solver : Model -> option Solution;
  float_str : spec_float -> string;
  model : Model;
  stdout : list string;
  solved : list Model
}.

(** A cell (or a statement of one) returns a value or raises, and leaves a
    state in both cases: an exception does not undo what ran before it. *)
Definition Cell (A : Type) : Type := Kernel -> Py A * Kernel.

Definition cret {A} (a : A) : Cell A := fun k => (ret a, k).

Definition cbind {A B} (c : Cell A) (f : A -> Cell B) : Cell B :=
  fun k =>
    match c k with
    | (inl e, k') => (inl e, k')
    | (inr a, k') => f a k'
    end.

Declare Scope cell_scope.
Delimit Scope cell_scope with cell.
Notation "x <~ c ;; f" := (cbind c (fun x => f))
  (at level 61, c at next level, right associativity) : cell_scope.
Notation "c ;;; f" := (cbind c (fun _ => f))
  (at level 61, right associativity) : cell_scope.
Local Open Scope cell_scope.

(** An expression evaluated inside a cell. *)
Definition py {A} (c : Py A) : Cell A := fun k => (c, k).

Definition with_model (f : Model -> Model) : Cell unit :=
  fun k => (ret tt,
            mkKernel (solver k) (float_str k) (f (model k)) (stdout k) (solved k)).

Definition on_model {A} (f : Model -> A * Model) : Cell A :=
  fun k => (ret (fst (f (model k))),
            mkKernel (solver k) (float_str k) (snd (f (model k)))
                     (stdout k) (solved k)).

Definition read_model {A} (f : Model -> Py A) : Cell A :=
  fun k => (f (model k), k).

(** [print(line)] *)
Definition print (line : string) : Cell unit :=
  fun k => (ret tt,
            mkKernel (solver k) (float_str k) (model k)
                     (stdout k ++ [line]) (solved k)).

Definition str_of_float (f : spec_float) : Cell string :=
  fun k => (ret (float_str k f), k).

(** [model.optimize()]: the model goes to the solver, and what the solver
    answers becomes the solution the model holds.  The log that the solver
    writes while it runs is none of the lines of [stdout]. *)
Definition optimize : Cell unit :=
  fun k =>
    let m := model k in
    (ret tt,
     mkKernel (solver k) (float_str k)
              (mkModel (ModelName m) (vars m) (rows m) (fresh m)
                       (objective m) (sense m) (solver k m))
              (stdout k) (solved k ++ [m])).

(** [model.update()] processes pending changes; the embedding applies every
    change at once, so it does nothing here. *)
Definition update : Cell unit := cret tt.

(** A [for] statement. *)
Fixpoint for_each {K} (ks : list K) (body : K -> Cell unit) : Cell unit :=
  match ks with
  | [] => cret tt
  | k :: ks' => body k ;;; for_each ks' body
  end.

(** [model.addConstrs((gen k for k in ks), name)]: the generator is consumed
    item by item, each constraint added as it is produced. *)
Fixpoint addConstrs (ks : list string) (gen : string -> Py TempConstr)
  (name : string) : Cell (dict Constr) :=
  match ks with
  | [] => cret []
  | k :: ks' =>
      tc <~ py (gen k) ;;
      h <~ on_model (addConstr tc (indexed_name name k)) ;;
      rest <~ addConstrs ks' gen name ;;
      cret ((k, h) :: rest)
  end.

(** [lhs <= rhs], [lhs >= rhs] and [lhs == rhs] on operands that may
    raise. *)
Definition cmp_ (s : Sense) (l r : Py LinExpr) : Py TempConstr :=
  l' <- l ;; r' <- r ;; ret (Cmp l' s r').

Notation "l <=' r" := (cmp_ LESS_EQUAL l r) (at level 70) : py_scope.
Notation "l >=' r" := (cmp_ GREATER_EQUAL l r) (at level 70) : py_scope.
Notation "l ==' r" := (cmp_ EQUAL l r) (at level 70) : py_scope.

Definition num_ (q : Py Q) : Py LinExpr := q' <- q ;; ret (number q').
Definition var_ (v : Py Var) : Py LinExpr := v' <- v ;; ret (of_var v').

(** [gp.quicksum(body k for k in ks)] *)
Definition quicksum_ {K} (ks : list K) (body : K -> Py LinExpr) : Py LinExpr :=
  es <- for_in ks body ;; ret (quicksum es).

(** The statement that reports a solution:
[[
for v in model.getVars():
    print(f"{v.VarName}: {v.X}")
]] *)
Definition print_vars : Cell unit :=
  vs <~ read_model (fun m => ret (getVars m)) ;;
  for_each vs (fun v =>
    name <~ read_model (fun m => get_VarName m v) ;;
    x <~ read_model (fun m => get_X m v) ;;
    s <~ str_of_float x ;;
    print (name ++ ": " ++ s)).

(** A dict whose keys are pairs, as [recipes] is. *)
Definition dict2 (V : Type) : Type := list ((string * string) * V).

Fixpoint getitem2 {V} (d : dict2 V) (k1 k2 : string) : Py V :=
  match d with
  | [] => raise (KeyError (k1 ++ ", " ++ k2))
  | ((k1', k2'), v) :: d' =>
      if String.eqb k1 k1' && String.eqb k2 k2' then ret v
      else getitem2 d' k1 k2
  end.

Notation "d .[ k1 , k2 ]" := (getitem2 d k1 k2) (at level 1,
  left associativity, format "d .[ k1 ,  k2 ]") : py_scope.

(* ================================================================== *)
(** * The first notebook: the chip-manufacturing model                 *)
(* ================================================================== *)

Module CasinoChips.

(** [model = gp.Model("Chip Manufacturing")] *)
Definition new_model : Cell unit :=
  with_model (fun _ => Model_new "Chip Manufacturing").

Definition chip_values : dict Q :=
  [ ("one",             1);
    ("five",            5);
    ("ten",            10);
    ("twenty-five",    25);
    ("one hundred",   100);
    ("five hundred",  500);
    ("thousand",     1000) ].

(** [chips, value = gp.multidict({...})] *)
Definition chips : list string := fst (multidict chip_values).
Definition value : dict Q := snd (multidict chip_values).

(** [print(chips)] and [print(value)], at the end of that cell. *)
Definition print_chips : Cell unit :=
  print (repr_list chips) ;;;
  print (repr_dict value).

(** [x = model.addVars(chips, vtype = GRB.INTEGER, name = "chips")] *)
Definition add_x : Cell (dict Var) :=
  x <~ on_model (addVars chips INTEGER "chips") ;;
  update ;;;
  cret x.

(** The objective written term by term. *)
Definition objective_terms (x : dict Var) : Py LinExpr :=
  x.["one"] *' value.["one"] +' x.["five"] *' value.["five"]
  +' x.["ten"] *' value.["ten"]
  +' x.["twenty-five"] *' value.["twenty-five"]
  +' x.["one hundred"] *' value.["one hundred"]
  +' x.["five hundred"] *' value.["five hundred"]
  +' x.["thousand"] *' value.["thousand"].

(** [gp.quicksum(x[i] * value[i] for i in chips)] *)
Definition objective_quicksum (x : dict Var) : Py LinExpr :=
  quicksum_ chips (fun i => x.[i] *' value.[i]).

(** [x.prod(value)] *)
Definition objective_prod (x : dict Var) : LinExpr := prod x value.

Definition set_objective_terms (x : dict Var) : Cell unit :=
  e <~ py (objective_terms x) ;;
  with_model (setObjective e MAXIMIZE).

Definition set_objective_quicksum (x : dict Var) : Cell unit :=
  e <~ py (objective_quicksum x) ;;
  with_model (setObjective e MAXIMIZE).

Definition set_objective_prod (x : dict Var) : Cell unit :=
  with_model (setObjective (objective_prod x) MAXIMIZE).

Definition on_hand_values : dict Q :=
  [ ("clay",   5000);
    ("lead",   1800);
    ("silver",  100);
    ("gold",     20) ].

(** [ingredients, on_hand = gp.multidict({...})] *)
Definition ingredients : list string := fst (multidict on_hand_values).
Definition on_hand : dict Q := snd (multidict on_hand_values).

Definition recipes : dict2 Q :=
  [ (("one",          "clay"), 18.0); (("one",          "lead"), 0.0);
    (("one",          "silver"), 0); (("one",          "gold"), 0);
    (("five",         "clay"), 17.0); (("five",         "lead"), 2.0);
    (("five",         "silver"), 0); (("five",         "gold"), 0);
    (("ten",          "clay"), 16.0); (("ten",          "lead"), 3.0);
    (("ten",          "silver"), 0); (("ten",          "gold"), 0);
    (("twenty-five",  "clay"), 13.0); (("twenty-five",  "lead"), 4.5);
    (("twenty-five",  "silver"), 0); (("twenty-five",  "gold"), 0);
    (("one hundred",  "clay"), 10.0); (("one hundred",  "lead"), 6.0);
    (("one hundred",  "silver"), 1); (("one hundred",  "gold"), 0);
    (("five hundred", "clay"), 10.0); (("five hundred", "lead"), 8.5);
    (("five hundred", "silver"), 2); (("five hundred", "gold"), 0);
    (("thousand",     "clay"), 10.0); (("thousand",     "lead"), 9.5);
    (("thousand",     "silver"), 0); (("thousand",     "gold"), 2) ].

(** The left-hand side of the explicit coding, for one ingredient. *)
Definition usage_terms (x : dict Var) (i : string) : Py LinExpr :=
  x.["one"] *' recipes.["one", i] +' x.["five"] *' recipes.["five", i]
  +' x.["ten"] *' recipes.["ten", i]
  +' x.["twenty-five"] *' recipes.["twenty-five", i]
  +' x.["one hundred"] *' recipes.["one hundred", i]
  +' x.["five hundred"] *' recipes.["five hundred", i]
  +' x.["thousand"] *' recipes.["thousand", i].

(** First coding: four [addConstr] calls, in the order clay, lead, gold,
    silver. *)
Definition explicit_limits (x : dict Var) : Cell unit :=
  c <~ py (usage_terms x "clay" <=' num_ on_hand.["clay"]) ;;
  on_model (addConstr c "clay limit") ;;;
  c <~ py (usage_terms x "lead" <=' num_ on_hand.["lead"]) ;;
  on_model (addConstr c "lead limit") ;;;
  c <~ py (usage_terms x "gold" <=' num_ on_hand.["gold"]) ;;
  on_model (addConstr c "gold limit") ;;;
  c <~ py (usage_terms x "silver" <=' num_ on_hand.["silver"]) ;;
  on_model (addConstr c "silver limit") ;;;
  cret tt.

(** [gp.quicksum(x[c] * recipes[c, i] for c in chips) <= on_hand[i]] *)
Definition usage_limit (x : dict Var) (i : string) : Py TempConstr :=
  quicksum_ chips (fun c => x.[c] *' recipes.[c, i]) <=' num_ on_hand.[i].

(** Second coding: a loop over the ingredients, every constraint named
    ["ingredients usage"]. *)
Definition loop_limits (x : dict Var) : Cell unit :=
  for_each ingredients (fun ingredient =>
    c <~ py (usage_limit x ingredient) ;;
    on_model (addConstr c "ingredients usage") ;;;
    cret tt).

(** Third coding: one [addConstrs] over a generator. *)
Definition balance_constraints (x : dict Var) : Cell (dict Constr) :=
  addConstrs ingredients (usage_limit x) "ingredients usage".

(** The cells that build the model, in order.  A cell that ends in an
    expression also displays its value; that display is not a [print] and
    is not part of the embedding. *)
Definition build : Cell unit :=
  new_model ;;;
  print_chips ;;;
  x <~ add_x ;;
  set_objective_terms x ;;;
  set_objective_quicksum x ;;;
  set_objective_prod x ;;;
  print (repr_list ingredients) ;;;
  explicit_limits x ;;;
  loop_limits x ;;;
  balance_constraints x ;;;
  cret tt.

(** The cells of the notebook from the one that creates the model to the
    last; the cell before them installs gurobipy and imports it. *)
Definition notebook : Cell unit :=
  build ;;;
  optimize ;;;
  print_vars.

End CasinoChips.

(* ================================================================== *)
(** * Python floats                                                    *)
(* ================================================================== *)

(** A Python float is an IEEE-754 binary64 number. *)
Definition prec : Z := 53.
Definition emax : Z := 1024.

Definition float_of_int (n : Z) : spec_float :=
  binary_normalize prec emax n 0 false.

(** The float a decimal literal [n/d] denotes (0.9 is [literal 9 10]): the
    binary64 number nearest to the quotient. *)
Definition literal (n : Z) (d : positive) : spec_float :=
  SFdiv prec emax (float_of_int n) (float_of_int (Zpos d)).

(** [a * b] on two floats. *)
Definition fmul (a b : spec_float) : spec_float := SFmul prec emax a b.

(** The rational a finite float is. *)
Definition SF2Q (f : spec_float) : Q :=
  match f with
  | S754_finite s m e =>
      let v := if (0 <=? e)%Z then inject_Z (Zpos m * 2 ^ e)
               else Zpos m # Z.to_pos (2 ^ (- e)) in
      if s then - v else v
  | _ => 0
  end.

(* ================================================================== *)
(** * The second notebook: more realistic problems                     *)
(* ================================================================== *)

Module MoreRealistic.

(** The columns of [chips_data.csv]. *)
Record ChipsData : Type := mkChipsData {
  value : string -> Q;
  demand : string -> Q;
  cost : string -> Q;
  fixed_cost : string -> Q
}.

(** [chips = chips_data.index.to_list()] and
    [ingredients = on_hand.index.to_list()].  The CSV files are not among
    the sources.  The solutions recorded in the notebook list the variables
    of the seven chips in this order, and the cells look up the chips by
    these names; the ingredients are the four that its formulation names. *)
Definition chips : list string :=
  ["one"; "five"; "ten"; "twenty-five"; "one hundred"; "five hundred";
   "thousand"].

Definition ingredients : list string := ["clay"; "lead"; "silver"; "gold"].

(** Modelled from the spec: [solve_and_print_solution] comes from
    [solve_and_report.py], which the notebook downloads when it runs.  It is
    the helper that solves the model and prints the results; the recorded
    output of the cells shows a status line, the objective value, then one
    line per variable.  What it prints without a solution is not recorded;
    here it prints nothing. *)
Definition solve_and_print_solution : Cell unit :=
  optimize ;;;
  sol <~ read_model (fun m => ret (solution m)) ;;
  match sol with
  | Some s =>
      print "Optimal solution found" ;;;
      o <~ str_of_float (ObjVal s) ;;
      print ("Objective value: " ++ o) ;;;
      print_vars
  | None => cret tt
  end.

Definition M : Q := 500.

Definition high_chips : list string :=
  ["one hundred"; "five hundred"; "thousand"].

(** [[c for c in chips if c not in high_chips]] *)
Definition low_chips : list string :=
  filter (fun c => negb (contains high_chips c)) chips.

(** [[cc for cc in chips if cc != 'twenty-five']] *)
Definition C_minus25 : list string :=
  filter (fun cc => negb (String.eqb cc "twenty-five")) chips.

Section Data.

(** The tables read from the CSV files, which are not among the sources:
    the entry of each table at a key. *)
Variable on_hand : string -> Q.
Variable chips_data : ChipsData.
Variable recipes : string -> string -> Q.

(** [gp.quicksum(x[c] * recipes[c, i] for c in chips) <= on_hand[i]] *)
Definition usage_limit (x : dict Var) (i : string) : Py TempConstr :=
  quicksum_ chips (fun c => x.[c] *' ret (recipes c i))
  <=' ret (number (on_hand i)).

(** The cell "Original model". *)
Definition original_model : Cell (dict Var * dict Constr) :=
  with_model (fun _ => Model_new "Poker Chips") ;;;
  x <~ on_model (addVars chips INTEGER "chips") ;;
  ingredient_usage <~ addConstrs ingredients (usage_limit x) "ingredient_usage" ;;
  e <~ py (quicksum_ chips (fun i => x.[i] *' ret (value chips_data i))) ;;
  with_model (setObjective e MAXIMIZE) ;;;
  solve_and_print_solution ;;;
  cret (x, ingredient_usage).

(** [total_chips = gp.quicksum(x[c] for c in chips)] *)
Definition total_chips_quicksum (x : dict Var) : Py LinExpr :=
  quicksum_ chips (fun c => var_ x.[c]).

(** [model.setObjective(total_chips, GRB.MAXIMIZE)] and a solve. *)
Definition maximize_total_chips (total_chips : LinExpr) : Cell unit :=
  with_model (setObjective total_chips MAXIMIZE) ;;;
  solve_and_print_solution.

(** [meet_demand = model.addConstrs((x[c] >= chips_data.demand[c] for c in
    chips), name="meet_demand")] and a solve. *)
Definition add_meet_demand (x : dict Var) : Cell (dict Constr) :=
  meet_demand <~ addConstrs chips
    (fun c => var_ x.[c] >=' ret (number (demand chips_data c)))
    "meet_demand" ;;
  solve_and_print_solution ;;;
  cret meet_demand.

(** [vCost_all_chips = sum(chips_data.cost[c] * x[c] for c in chips)] *)
Definition vCost_sum (x : dict Var) : Py LinExpr :=
  es <- for_in chips (fun c => ret (cost chips_data c) '* x.[c]) ;;
  ret (py_sum es).

(** [vBudget = model.addConstr(vCost_all_chips <= 80, name='v_budget')] and
    a solve. *)
Definition add_vBudget (x : dict Var) : Cell (LinExpr * Constr) :=
  vCost_all_chips <~ py (vCost_sum x) ;;
  vBudget <~ on_model
    (addConstr (Cmp vCost_all_chips LESS_EQUAL (number 80)) "v_budget") ;;
  solve_and_print_solution ;;;
  cret (vCost_all_chips, vBudget).

(** [y = model.addVars(chips, vtype=GRB.BINARY, name="make")], [M = 500] and
    [model.addConstrs((x[c] <= M * y[c] for c in chips), name="link_x_y")] *)
Definition link (x y : dict Var) (c : string) : Py TempConstr :=
  var_ x.[c] <=' ret M '* y.[c].

Definition add_link_x_y (x : dict Var) : Cell (dict Var * dict Constr) :=
  y <~ on_model (addVars chips BINARY "make") ;;
  link_x_y <~ addConstrs chips (link x y) "link_x_y" ;;
  update ;;;
  cret (y, link_x_y).

(** [fCost_all_chips = gp.quicksum(chips_data.fixed_cost[c] * y[c] for c in
    chips)] *)
Definition fCost_quicksum (y : dict Var) : Py LinExpr :=
  quicksum_ chips (fun c => ret (fixed_cost chips_data c) '* y.[c]).

(** [tBudget = model.addConstr(tCost_all_chips <= 280, name='t_budget')] and
    a solve. *)
Definition add_tBudget (vCost_all_chips : LinExpr) (y : dict Var)
  : Cell Constr :=
  fCost_all_chips <~ py (fCost_quicksum y) ;;
  let tCost_all_chips := plus vCost_all_chips fCost_all_chips in
  tBudget <~ on_model
    (addConstr (Cmp tCost_all_chips LESS_EQUAL (number 280)) "t_budget") ;;
  solve_and_print_solution ;;;
  cret tBudget.

(** [model.remove(meet_demand)] *)
Definition remove_meet_demand (meet_demand : dict Constr) : Cell unit :=
  with_model (remove (values meet_demand)).

(** The first part of the notebook, from "Original model" to the removal of
    the demand constraints, with the handles the cells have bound.  The
    cells that only display a value ([total_chips.getValue()], [chips_data])
    are not part of it. *)
Record Handles : Type := mkHandles {
  h_x : dict Var;
  h_y : dict Var;
  h_ingredient_usage : dict Constr;
  h_meet_demand : dict Constr;
  h_vBudget : Constr;
  h_link_x_y : dict Constr;
  h_tBudget : Constr
}.

Definition until_t_budget : Cell Handles :=
  xi <~ original_model ;;
  total_chips <~ py (total_chips_quicksum (fst xi)) ;;
  update ;;;
  maximize_total_chips total_chips ;;;
  meet_demand <~ add_meet_demand (fst xi) ;;
  vb <~ add_vBudget (fst xi) ;;
  yl <~ add_link_x_y (fst xi) ;;
  tBudget <~ add_tBudget (fst vb) (fst yl) ;;
  cret (mkHandles (fst xi) (fst yl) (snd xi) meet_demand (snd vb) (snd yl)
                  tBudget).

Definition until_remove : Cell Handles :=
  h <~ until_t_budget ;;
  remove_meet_demand (h_meet_demand h) ;;;
  cret h.

(** ** Extra practice: the model re-created, then changed step by step *)

(** The cell that re-creates the model, with [total_chips = x.sum()]. *)
Definition recreate_model : Cell (dict Var * dict Constr * LinExpr) :=
  with_model (fun _ => Model_new "Poker Chips") ;;;
  x <~ on_model (addVars chips INTEGER "chips") ;;
  ingredient_usage <~ addConstrs ingredients (usage_limit x) "ingredient_usage" ;;
  let total_chips := tupledict_sum x in
  with_model (setObjective total_chips MAXIMIZE) ;;;
  cret (x, ingredient_usage, total_chips).

(** [gp.quicksum(chips_data.value[c] * x[c] for c in cs)], for [cs] one of
    [chips], [high_chips] and [low_chips]. *)
Definition val_of (cs : list string) (x : dict Var) : Py LinExpr :=
  quicksum_ cs (fun c => ret (value chips_data c) '* x.[c]).

Definition val_total_chips : dict Var -> Py LinExpr := val_of chips.
Definition val_high_chips : dict Var -> Py LinExpr := val_of high_chips.
Definition val_low_chips : dict Var -> Py LinExpr := val_of low_chips.

(** [value_balance = model.addConstr(val_high_chips <= .5*val_low_chips,
    name='value_balance')] and a solve. *)
Definition add_value_balance (x : dict Var) : Cell Constr :=
  hi <~ py (val_high_chips x) ;;
  lo <~ py (val_low_chips x) ;;
  value_balance <~ on_model
    (addConstr (Cmp hi LESS_EQUAL (scale (SF2Q (literal 5 10)) lo))
               "value_balance") ;;
  solve_and_print_solution ;;;
  cret value_balance.

(** [low_chip_ub] and [high_chip_lb], and a solve. *)
Definition add_shares (x : dict Var) (total_chips : LinExpr)
  : Cell (dict Constr * dict Constr) :=
  low_chip_ub <~ addConstrs low_chips
    (fun l => var_ x.[l] <=' ret (scale (SF2Q (literal 20 100)) total_chips))
    "low_chip_ub" ;;
  high_chip_lb <~ addConstrs high_chips
    (fun h => var_ x.[h] >=' ret (scale (SF2Q (literal 5 100)) total_chips))
    "high_chip_lb" ;;
  solve_and_print_solution ;;;
  cret (low_chip_ub, high_chip_lb).

(** [max_25 = model.addConstrs((x['twenty-five'] >= x[c] for c in
    C_minus25), name='max_25')] and a solve. *)
Definition add_max_25 (x : dict Var) : Cell (dict Constr) :=
  max_25 <~ addConstrs C_minus25
    (fun c => var_ x.["twenty-five"] >=' var_ x.[c]) "max_25" ;;
  solve_and_print_solution ;;;
  cret max_25.

(** [percent30 = model.addConstrs((x[c] <= 0.3*total_chips for c in chips),
    name='percent30')] *)
Definition add_percent30 (x : dict Var) (total_chips : LinExpr)
  : Cell (dict Constr) :=
  addConstrs chips
    (fun c => var_ x.[c] <=' ret (scale (SF2Q (literal 3 10)) total_chips))
    "percent30".

(** The cell of the logical constraints. *)
Definition logical_constraints (y : dict Var) : Cell unit :=
  c <~ py (var_ y.["five hundred"] +' var_ y.["thousand"]
           <=' ret (number 1)) ;;
  on_model (addConstr c "at_most_one_high_value") ;;;
  c <~ py (var_ y.["five hundred"] +' var_ y.["thousand"]
           ==' ret (number 1)) ;;
  on_model (addConstr c "exactly_one_high_value") ;;;
  c <~ py (quicksum_ low_chips (fun l => var_ y.[l]) >=' ret (number 2)) ;;
  on_model (addConstr c "min_low_value_types") ;;;
  c <~ py (quicksum_ low_chips (fun l => var_ y.[l]) <=' ret (number 3)) ;;
  on_model (addConstr c "max_low_value_types") ;;;
  e <~ py (quicksum_ low_chips (fun l => var_ y.[l])) ;;
  on_model (addConstr (Range e 2 3) "max_low_value_types") ;;;
  cret tt.

(** The extra-practice cells in order, up to the logical constraints.  The
    cells between them that only display the model are not part of it. *)
Definition until_logical : Cell (dict Var * dict Var) :=
  xit <~ recreate_model ;;
  let x := fst (fst xit) in
  let total_chips := snd xit in
  value_balance <~ add_value_balance x ;;
  with_model (remove [value_balance]) ;;;
  shares <~ add_shares x total_chips ;;
  max_25 <~ add_max_25 x ;;
  percent30 <~ add_percent30 x total_chips ;;
  with_model (remove (values (fst shares) ++ values (snd shares)
                      ++ values max_25)) ;;;
  update ;;;
  yl <~ add_link_x_y x ;;
  logical_constraints (fst yl) ;;;
  cret (x, fst yl).

(** ** DIY hierarchical multi-objective optimization *)

Record Stage : Type := mkStage {
  s_x : dict Var;
  s_y : dict Var;
  s_total_chips : LinExpr;
  s_val_total_chips : LinExpr
}.

(** The first of the two cells: the model, its constraints, the first
    objective, and a solve. *)
Definition first_stage : Cell Stage :=
  with_model (fun _ => Model_new "Poker Chips") ;;;
  x <~ on_model (addVars chips INTEGER "chips") ;;
  y <~ on_model (addVars chips BINARY "make") ;;
  let total_chips := tupledict_sum x in
  val_total <~ py (val_total_chips x) ;;
  val_high <~ py (val_high_chips x) ;;
  val_low <~ py (val_low_chips x) ;;
  vCost_all_chips <~ py (quicksum_ chips
                           (fun c => ret (cost chips_data c) '* x.[c])) ;;
  fCost_all_chips <~ py (fCost_quicksum y) ;;
  let tCost_all_chips := plus vCost_all_chips fCost_all_chips in
  ingredient_usage <~ addConstrs ingredients (usage_limit x) "ingredient_usage" ;;
  percent30 <~ add_percent30 x total_chips ;;
  link_x_y <~ addConstrs chips (link x y) "link_x_y" ;;
  tBudget <~ on_model
    (addConstr (Cmp tCost_all_chips LESS_EQUAL (number 220)) "t_budget") ;;
  with_model (setObjective total_chips MAXIMIZE) ;;;
  solve_and_print_solution ;;;
  cret (mkStage x y total_chips val_total).

(** The second cell:
[[
z = model.ObjVal
print(z)
multi_obj = model.addConstr(total_chips >= 0.9*z)
model.setObjective(val_total_chips, sense=GRB.MAXIMIZE)
solve_and_print_solution(model)
]] *)
Definition second_stage (s : Stage) : Cell (spec_float * Constr) :=
  z <~ read_model get_ObjVal ;;
  zs <~ str_of_float z ;;
  print zs ;;;
  multi_obj <~ on_model
    (fun m => addConstr (Cmp (s_total_chips s) GREATER_EQUAL
                             (number (SF2Q (fmul (literal 9 10) z))))
                        (default_ConstrName m) m) ;;
  with_model (setObjective (s_val_total_chips s) MAXIMIZE) ;;;
  solve_and_print_solution ;;;
  cret (z, multi_obj).

(** ** The other cells of the notebook *)

(** The cell after the removal of the demand constraints:
[[
min_types = model.addConstr(y.sum() >= 3, name="min_types")
max_types = model.addConstr(y.sum() <= 5, name="max_types")
solve_and_print_solution(model)
]] *)
Definition add_types (y : dict Var) : Cell (Constr * Constr) :=
  min_types <~ on_model
    (addConstr (Cmp (tupledict_sum y) GREATER_EQUAL (number 3)) "min_types") ;;
  max_types <~ on_model
    (addConstr (Cmp (tupledict_sum y) LESS_EQUAL (number 5)) "max_types") ;;
  solve_and_print_solution ;;;
  cret (min_types, max_types).

Definition until_types : Cell (Handles * (Constr * Constr)) :=
  h <~ until_remove ;;
  t <~ add_types (h_y h) ;;
  cret (h, t).

(** The names the extra-practice cells have bound, as they go. *)
Record Practice : Type := mkPractice {
  p_x : dict Var;
  p_ingredient_usage : dict Constr;
  p_total_chips : LinExpr;
  p_value_balance : Constr;
  p_low_chip_ub : dict Constr;
  p_high_chip_lb : dict Constr;
  p_max_25 : dict Constr;
  p_percent30 : dict Constr
}.

(** The extra-practice cells up to the solve with [value_balance]. *)
Definition until_value_balance : Cell Practice :=
  xit <~ recreate_model ;;
  value_balance <~ add_value_balance (fst (fst xit)) ;;
  cret (mkPractice (fst (fst xit)) (snd (fst xit)) (snd xit) value_balance
                   [] [] [] []).

(** [model.remove(value_balance)] *)
Definition remove_value_balance (p : Practice) : Cell unit :=
  with_model (remove [p_value_balance p]).

(** ... up to the solve with [low_chip_ub] and [high_chip_lb]. *)
Definition until_shares : Cell Practice :=
  p <~ until_value_balance ;;
  remove_value_balance p ;;;
  shares <~ add_shares (p_x p) (p_total_chips p) ;;
  cret (mkPractice (p_x p) (p_ingredient_usage p) (p_total_chips p)
                   (p_value_balance p) (fst shares) (snd shares) [] []).

(** ... up to the solve with [max_25]. *)
Definition until_max_25 : Cell Practice :=
  p <~ until_shares ;;
  max_25 <~ add_max_25 (p_x p) ;;
  cret (mkPractice (p_x p) (p_ingredient_usage p) (p_total_chips p)
                   (p_value_balance p) (p_low_chip_ub p) (p_high_chip_lb p)
                   max_25 []).

(** ... up to [percent30]. *)
Definition until_percent30 : Cell Practice :=
  p <~ until_max_25 ;;
  percent30 <~ add_percent30 (p_x p) (p_total_chips p) ;;
  cret (mkPractice (p_x p) (p_ingredient_usage p) (p_total_chips p)
                   (p_value_balance p) (p_low_chip_ub p) (p_high_chip_lb p)
                   (p_max_25 p) percent30).

(** [model.remove([low_chip_ub, high_chip_lb, max_25])] and
    [model.update()]: a list of tupledicts stands for the constraints they
    hold. *)
Definition remove_practice (p : Practice) : Cell unit :=
  with_model (remove (values (p_low_chip_ub p) ++ values (p_high_chip_lb p)
                      ++ values (p_max_25 p))) ;;;
  update.

(** ... and to the removal of the three families. *)
Definition until_cleanup : Cell Practice :=
  p <~ until_percent30 ;;
  remove_practice p ;;;
  cret p.

(** The cell of the candidates for "logistical" constraints:
[[
model.addConstr(y['one'] <= y['five'], name="one_implies_five")
model.addConstr(y['one'] <= y['five'], name="one_implies_five")
model.addConstr(y['one'] <= y['ten'], name="one_implies_ten")
model.addConstr(2*y['one'] <= y['five'] + y['ten'], name="one_implies_ten")
model.addConstr(y['one'] <= y['five'] + y['ten'], name="one_implies_ten")
]] *)
Definition logistical_constraints (y : dict Var) : Cell unit :=
  c <~ py (var_ y.["one"] <=' var_ y.["five"]) ;;
  on_model (addConstr c "one_implies_five") ;;;
  c <~ py (var_ y.["one"] <=' var_ y.["five"]) ;;
  on_model (addConstr c "one_implies_five") ;;;
  c <~ py (var_ y.["one"] <=' var_ y.["ten"]) ;;
  on_model (addConstr c "one_implies_ten") ;;;
  c <~ py (ret 2 '* y.["one"] <=' var_ y.["five"] +' var_ y.["ten"]) ;;
  on_model (addConstr c "one_implies_ten") ;;;
  c <~ py (var_ y.["one"] <=' var_ y.["five"] +' var_ y.["ten"]) ;;
  on_model (addConstr c "one_implies_ten") ;;;
  cret tt.

(** The cell "Using big M":
[[
min_high_value = model.addConstrs((x[c] >= 2 * y[c] for c in high_chips), name="min_high_value")
max_high_value = model.addConstrs((x[c] <= 30 * y[c] for c in high_chips), name="max_high_value")
min_low_value = model.addConstrs((x[c] >= 30 * y[c] for c in low_chips), name="min_low_value")
min_low_value = model.addConstrs((x[c] <= M * y[c] for c in low_chips), name="min_low_value")
]]
    The name [min_low_value] is bound twice; the second binding is the one
    that stays. *)
Definition big_M_bounds (x y : dict Var)
  : Cell (dict Constr * dict Constr * dict Constr) :=
  min_high_value <~ addConstrs high_chips
    (fun c => var_ x.[c] >=' ret 2 '* y.[c]) "min_high_value" ;;
  max_high_value <~ addConstrs high_chips
    (fun c => var_ x.[c] <=' ret 30 '* y.[c]) "max_high_value" ;;
  min_low_value <~ addConstrs low_chips
    (fun c => var_ x.[c] >=' ret 30 '* y.[c]) "min_low_value" ;;
  min_low_value <~ addConstrs low_chips
    (fun c => var_ x.[c] <=' ret M '* y.[c]) "min_low_value" ;;
  cret (min_high_value, max_high_value, min_low_value).

(** The cells from the re-created model to the candidates, and to the
    bounds with big M. *)
Definition until_logistical : Cell (dict Var * dict Var) :=
  xy <~ until_logical ;;
  logistical_constraints (snd xy) ;;;
  cret xy.

Definition until_big_M
  : Cell (dict Var * dict Var * (dict Constr * dict Constr * dict Constr)) :=
  xy <~ until_logistical ;;
  b <~ big_M_bounds (fst xy) (snd xy) ;;
  cret (xy, b).

End Data.

End MoreRealistic.

(* ================================================================== *)
(** * The data cell of the second notebook                             *)
(* ================================================================== *)

Module DataFiles.

(** A CSV file as the reader splits it: the names of the header line and,
    for every record, its fields as text.  A file with no line at all has
    no header. *)
Record CSV : Type := mkCSV {
  header : list string;
  records : list (list string)
}.

Fixpoint distinct (l : list string) : bool :=
  match l with
  | [] => true
  | s :: l' => negb (existsb (String.eqb s) l') && distinct l'
  end.

(** The files the cell is written for: the columns have names, no name
    twice, no line is blank, and every record has one field per column.
    (The reader renames a repeated or empty column name, skips a blank
    line, and has rules of its own for a record that is too short or too
    long; those are not part of the embedding, and the facts about a table
    that was read are stated for files of this kind.) *)
Definition well_formed (f : CSV) : bool :=
  distinct (header f)
  && negb (existsb (String.eqb EmptyString) (header f))
  && forallb (fun r => match r with
                       | [s] => negb (String.eqb s EmptyString)
                       | _ => true
                       end) (records f)
  && forallb (fun r => Nat.eqb (List.length r) (List.length (header f)))
             (records f).

Definition FileSystem : Type := string -> option CSV.

Fixpoint position (name : string) (cols : list string) : option nat :=
  match cols with
  | [] => None
  | c :: cols' =>
      if String.eqb name c then Some 0%nat
      else option_map S (position name cols')
  end.

Definition field (i : nat) (record : list string) : string :=
  nth i record EmptyString.

(** A table: the index key of every row (one field per index column), the
    names of the data columns, and the data fields of every row.  The
    fields stay the text of the file: which of them the reader takes for
    numbers is not modelled. *)
Record DataFrame : Type := mkDataFrame {
  index : list (list string);
  columns : list string;
  data : list (list string)
}.

(** A series: an index key and a value per entry. *)
Record Series : Type := mkSeries {
  s_index : list (list string);
  s_values : list string
}.

(** What a name is bound to after [.squeeze()]: a table, a series or a
    single value. *)
Inductive Squeezed : Type :=
| Frame (df : DataFrame)
| Ser (s : Series)
| Scalar (v : string).

Definition others (n : nat) (ixs : list nat) : list nat :=
  filter (fun j => negb (existsb (Nat.eqb j) ixs)) (seq 0 n).

(** [pd.read_csv(path, index_col=cols)], [cols] a list of distinct names as
    the lists of the cell are: the named columns become the index, the
    remaining ones the data.  A file that is not there raises
    [FileNotFoundError], a file without a header line [EmptyDataError],
    which is a [ValueError], and an index column that the header does not
    name raises [ValueError], the first such column of [cols]. *)
Definition read_csv (fs : FileSystem) (path : string) (index_col : list string)
  : Py DataFrame :=
  match fs path with
  | None => raise (FileNotFoundError path)
  | Some f =>
      match header f with
      | [] => raise (ValueError "No columns to parse from file")
      | _ :: _ =>
          ixs <- for_in index_col
                  (fun c => match position c (header f) with
                            | Some i => ret i
                            | None => raise (ValueError c)
                            end) ;;
          let js := others (List.length (header f)) ixs in
          ret (mkDataFrame
                 (map (fun r => map (fun i => field i r) ixs) (records f))
                 (map (fun j => field j (header f)) js)
                 (map (fun r => map (fun j => field j r) js) (records f)))
      end
  end.

(** [df.squeeze()] drops every axis of length one: a table of one row and
    one column becomes its only value; a table of one row (and not one
    column) becomes the series of that row, indexed by the names of the
    columns; a table of one column (and not one row) becomes the series of
    that column, with the index of the table; any other table stays as it
    is. *)
Definition squeeze (df : DataFrame) : Squeezed :=
  match index df, columns df with
  | [_], [_] => Scalar (field 0 (hd [] (data df)))
  | [_], cs => Ser (mkSeries (map (fun c => [c]) cs) (hd [] (data df)))
  | ks, [_] => Ser (mkSeries ks (map (field 0) (data df)))
  | _, _ => Frame df
  end.

Section Inference.

(** Whether the reader takes a field for text, and not for a number, a
    truth value or a missing value.  The rules of that inference are the
    reader's own; a single value that is text is a Python [str], any other
    a numpy scalar. *)
Variable as_text : string -> bool.

(** [t.index.to_list()] on a table or a series with one index column.  A
    single value has no index: a numpy scalar has no attribute [index], and
    the [index] of a [str] is a method, which has no attribute
    [to_list]. *)
Definition index_to_list (t : Squeezed) : Py (list string) :=
  match t with
  | Frame df => ret (map (field 0) (index df))
  | Ser s => ret (map (field 0) (s_index s))
  | Scalar v =>
      raise (AttributeError (if as_text v then "to_list" else "index"))
  end.

End Inference.








Record Tables : Type := mkTables {
  on_hand : Squeezed;
  chips_data : Squeezed;
  recipes : Squeezed;
  ingredients : list string;
  chips : list string
}.

(** The statements of the first cell that read the data:
[[
on_hand = pd.read_csv('data_files/ing_amounts.csv', index_col=['ingredient']).squeeze()
chips_data = pd.read_csv('data_files/chips_data.csv', index_col=['chips']).squeeze()
recipes = pd.read_csv('data_files/recipes.csv', index_col=['chips', 'ingredients']).squeeze()

ingredients = on_hand.index.to_list()
chips = chips_data.index.to_list()
]] *)
Definition load (as_text : string -> bool) (fs : FileSystem) : Py Tables :=
  on_hand <- read_csv fs "data_files/ing_amounts.csv" ["ingredient"] ;;
  let on_hand := squeeze on_hand in
  chips_data <- read_csv fs "data_files/chips_data.csv" ["chips"] ;;
  let chips_data := squeeze chips_data in
  recipes <- read_csv fs "data_files/recipes.csv" ["chips"; "ingredients"] ;;
  let recipes := squeeze recipes in
  ingredients <- index_to_list as_text on_hand ;;
  chips <- index_to_list as_text chips_data ;;
  ret (mkTables on_hand chips_data recipes ingredients chips).

End DataFiles.

(* ================================================================== *)
(** * The formulation, as the notebooks write it in algebra            *)
(* ================================================================== *)

(** The definitions of this part say what the cells are to produce: sums
    over the chips, rows numbered and named, the lines of a report.  The
    facts proved further down compare them with what the cells do. *)

Definition sumQ (l : list Q) : Q := fold_right Qplus 0 l.

(** A record of a file, or its header, without the field of one column. *)
Definition without {A} (i : nat) (l : list A) : list A :=
  (firstn i l ++ skipn (S i) l)%list.

(** The files whose table, read with one index column, is a single value
    after [.squeeze()]: one record, and one column besides the index. *)
Definition single_value (f : DataFiles.CSV) : bool :=
  (List.length (DataFiles.records f) =? 1)%nat
  && (List.length (DataFiles.header f) =? 2)%nat.

(** The three files are where the cell looks for them, well formed, each
    with the columns that the cell names as its index. *)
Definition data_files (fs : DataFiles.FileSystem) (f1 f2 f3 : DataFiles.CSV)
  (i1 i2 : nat) : Prop :=
  fs "data_files/ing_amounts.csv" = Some f1
  /\ fs "data_files/chips_data.csv" = Some f2
  /\ fs "data_files/recipes.csv" = Some f3
  /\ DataFiles.well_formed f1 = true
  /\ DataFiles.well_formed f2 = true
  /\ DataFiles.well_formed f3 = true
  /\ DataFiles.position "ingredient" (DataFiles.header f1) = Some i1
  /\ DataFiles.position "chips" (DataFiles.header f2) = Some i2
  /\ DataFiles.position "chips" (DataFiles.header f3) <> None
  /\ DataFiles.position "ingredients" (DataFiles.header f3) <> None.

(** The value of the terms alone, without the constant, and the
    coefficient read off the terms. *)
Definition eval_terms (a : assignment) (ts : list (Q * Var)) : Q :=
  sumQ (map (fun t => fst t * a (snd t)) ts).

Definition coeff_terms (ts : list (Q * Var)) (v : Var) : Q :=
  sumQ (map (fun t => if Nat.eqb (snd t) v then fst t else 0) ts).

Definition with_stdout (k : Kernel) (out : list string) : Kernel :=
  mkKernel (solver k) (float_str k) (model k) out (solved k).

Definition set_solution (m : Model) (s : option Solution) : Model :=
  mkModel (ModelName m) (vars m) (rows m) (fresh m) (objective m) (sense m) s.

(** What the report is to be: for every variable of the model, in the
    order of the columns, its name, a colon and its value. *)
Fixpoint report (fs : spec_float -> string) (s : Solution) (v : Var)
  (vs : list VarAttr) : list string :=
  match vs with
  | [] => []
  | va :: vs' => (VarName va ++ ": " ++ fs (X s v)) :: report fs s (S v) vs'
  end.

(** The body of the reporting loop. *)
Definition print_var (v : Var) : Cell unit :=
  name <~ read_model (fun m => get_VarName m v) ;;
  x <~ read_model (fun m => get_X m v) ;;
  s <~ str_of_float x ;;
  print (name ++ ": " ++ s).

(** The column a tupledict of variables has at a key. *)
Definition col (x : dict Var) (c : string) : Var :=
  match x.[c] with inr v => v | inl _ => 0%nat end.

(** A family of constraints as [addConstrs] names and numbers it: one row
    per key, named [name[key]], with consecutive handles from [h]. *)
Fixpoint family (h : Constr) (name : string) (ks : list string)
  (f : string -> TempConstr) : list Row :=
  match ks with
  | [] => []
  | k :: ks' => mkRow h (indexed_name name k) (f k) :: family (S h) name ks' f
  end.

(** The handles of a model are in order: every row has a handle of its
    own, below the handle that the model gives out next. *)
Definition well_numbered (m : Model) : Prop :=
  NoDup (map handle (rows m))
  /\ Forall (fun r => (handle r < fresh m)%nat) (rows m).

(** What the state is after rows were added to the model. *)
Definition with_rows (k : Kernel) (rs : list Row) : Kernel :=
  mkKernel (solver k) (float_str k)
           (mkModel (ModelName (model k)) (vars (model k))
                    (rows (model k) ++ rs)
                    (fresh (model k) + List.length rs)
                    (objective (model k)) (sense (model k))
                    (solution (model k)))
           (stdout k) (solved k).

(** What a model is made of, the solution it may hold apart. *)
Definition shape (m : Model)
  : list VarAttr * list Row * Constr * (LinExpr * ModelSense) :=
  (vars m, rows m, fresh m, (objective m, sense m)).

(** The models handed to the solver, each by what it is made of. *)
Definition solves (k : Kernel)
  : list (list VarAttr * list Row * (LinExpr * ModelSense)) :=
  map (fun m => (vars m, rows m, (objective m, sense m))) (solved k).

Module CasinoChipsSpec.
Import CasinoChips.

(** The table entries as total functions, zero where a key is missing:
    [v_c], [r_{c,i}] and [q_i] of the formulation. *)
Definition v_ (c : string) : Q :=
  match value.[c] with inr q => q | inl _ => 0 end.
Definition r_ (c i : string) : Q :=
  match recipes.[c, i] with inr q => q | inl _ => 0 end.
Definition q_ (i : string) : Q :=
  match on_hand.[i] with inr q => q | inl _ => 0 end.

(** The formulation's objective, [Sum_c v_c * x_c], as a value. *)
Definition spec_objective (x : string -> Var) (a : assignment) : Q :=
  sumQ (map (fun c => v_ c * a (x c)) chips).

(** The formulation's restriction for ingredient [i]:
    [Sum_c r_{c,i} * x_c <= q_i]. *)
Definition spec_limit (x : string -> Var) (a : assignment) (i : string) : Prop :=
  sumQ (map (fun c => r_ c i * a (x c)) chips) <= q_ i.

(** The state in which the cells after the variables run. *)
Definition with_x (k : Kernel) : Py (dict Var) * Kernel :=
  (new_model ;;; add_x) k.

End CasinoChipsSpec.

Module MoreRealisticSpec.
Import MoreRealistic.

(** What the helper prints. *)
Definition helper_lines (k : Kernel) : list string :=
  match solver k (model k) with
  | Some s =>
      ["Optimal solution found";
       "Objective value: " ++ float_str k (ObjVal s)]
      ++ report (float_str k) s 0%nat (vars (model k))
  | None => []
  end.

(** The columns: [x] takes the first seven, [y] the next seven. *)
Definition x_cols : dict Var := fst (addVars_from 0 chips INTEGER "chips").
Definition y_cols : dict Var := fst (addVars_from 7 chips BINARY "make").
Definition x_attrs : list VarAttr := snd (addVars_from 0 chips INTEGER "chips").
Definition y_attrs : list VarAttr := snd (addVars_from 7 chips BINARY "make").

Definition x_ (c : string) : Var := col x_cols c.
Definition y_ (c : string) : Var := col y_cols c.

Section Formulation.

Variable on_hand : string -> Q.
Variable chips_data : ChipsData.
Variable recipes : string -> string -> Q.

(** [Sum_c r_{c,i} * x_c <= q_i] *)
Definition usage (i : string) : TempConstr :=
  Cmp (quicksum (map (fun c => times (x_ c) (recipes c i)) chips))
      LESS_EQUAL (number (on_hand i)).

(** [x_c >= d_c] *)
Definition demand_met (c : string) : TempConstr :=
  Cmp (of_var (x_ c)) GREATER_EQUAL (number (demand chips_data c)).

(** [Sum_c a_c * x_c] and [Sum_c f_c * y_c] *)
Definition vCost : LinExpr :=
  quicksum (map (fun c => times (x_ c) (cost chips_data c)) chips).
Definition fCost : LinExpr :=
  quicksum (map (fun c => times (y_ c) (fixed_cost chips_data c)) chips).

(** [Sum_c a_c * x_c <= 80] *)
Definition v_budget : TempConstr := Cmp vCost LESS_EQUAL (number 80).

(** [x_c <= M * y_c] *)
Definition linked (c : string) : TempConstr :=
  Cmp (of_var (x_ c)) LESS_EQUAL (times (y_ c) M).

(** [Sum_c f_c * y_c + a_c * x_c <= limit] *)
Definition t_budget (limit : Q) : TempConstr :=
  Cmp (plus vCost fCost) LESS_EQUAL (number limit).

(** [Sum_c x_c] and [Sum_c v_c * x_c] *)
Definition total : LinExpr := quicksum (map (fun c => of_var (x_ c)) chips).
Definition val (cs : list string) : LinExpr :=
  quicksum (map (fun c => times (x_ c) (value chips_data c)) cs).

(** [x_c <= 0.3 * Sum_c x_c] *)
Definition share30 (c : string) : TempConstr :=
  Cmp (of_var (x_ c)) LESS_EQUAL (scale (SF2Q (literal 3 10)) total).

(** [y_c] summed over the low-value chips, and
    [y_{five hundred} + y_{thousand}]. *)
Definition low_types : LinExpr :=
  quicksum (map (fun l => of_var (y_ l)) low_chips).

Definition high_pair : LinExpr :=
  plus (of_var (y_ "five hundred")) (of_var (y_ "thousand")).

(** The handles the cells have bound when the total budget is in. *)
Definition handles : Handles :=
  mkHandles x_cols y_cols
    [("clay", 0%nat); ("lead", 1%nat); ("silver", 2%nat); ("gold", 3%nat)]
    [("one", 4%nat); ("five", 5%nat); ("ten", 6%nat); ("twenty-five", 7%nat);
     ("one hundred", 8%nat); ("five hundred", 9%nat); ("thousand", 10%nat)]
    11%nat
    [("one", 12%nat); ("five", 13%nat); ("ten", 14%nat);
     ("twenty-five", 15%nat); ("one hundred", 16%nat);
     ("five hundred", 17%nat); ("thousand", 18%nat)]
    19%nat.

(** The rows of the model when the total budget is in, in three parts: the
    rows before the demand constraints, the demand constraints, the rows
    after them. *)
Definition rows_before_demand : list Row :=
  family 0 "ingredient_usage" ingredients usage.
Definition rows_demand : list Row :=
  family 4 "meet_demand" chips demand_met.
Definition rows_after_demand : list Row :=
  [mkRow 11 "v_budget" v_budget]
  ++ family 12 "link_x_y" chips linked
  ++ [mkRow 19 "t_budget" (t_budget 280)].

(** The rows of the model after the cell of the logical constraints. *)
Definition rows_logical : list Row :=
  family 0 "ingredient_usage" ingredients usage
  ++ family 18 "percent30" chips share30
  ++ family 25 "link_x_y" chips linked
  ++ [ mkRow 32 "at_most_one_high_value"
             (Cmp high_pair LESS_EQUAL (number 1));
       mkRow 33 "exactly_one_high_value" (Cmp high_pair EQUAL (number 1));
       mkRow 34 "min_low_value_types"
             (Cmp low_types GREATER_EQUAL (number 2));
       mkRow 35 "max_low_value_types" (Cmp low_types LESS_EQUAL (number 3));
       mkRow 36 "max_low_value_types" (Range low_types 2 3) ].

(** The two stages of the hierarchical procedure. *)
Definition rows_stage1 : list Row :=
  family 0 "ingredient_usage" ingredients usage
  ++ family 4 "percent30" chips share30
  ++ family 11 "link_x_y" chips linked
  ++ [mkRow 18 "t_budget" (t_budget 220)].

Definition stage : Stage := mkStage x_cols y_cols total (val chips).

(** The model of the first solve: maximize the number of chips. *)
Definition stage1_model : Model :=
  mkModel "Poker Chips" (x_attrs ++ y_attrs) rows_stage1 19 total MAXIMIZE
          None.

(** [Sum_c x_c >= 0.9 * z] *)
Definition multi_obj (z : spec_float) : TempConstr :=
  Cmp total GREATER_EQUAL (number (SF2Q (fmul (literal 9 10) z))).

(** The model of the second solve: the first one, the bound from its
    objective value [z] as the row of index 19, which has no name of its
    own, and the value of the chips as objective.  It still holds the first
    solution when it goes to the solver. *)
Definition stage2_model (s : Solution) : Model :=
  mkModel "Poker Chips" (x_attrs ++ y_attrs)
          (rows_stage1 ++ [mkRow 19 "R19" (multi_obj (ObjVal s))]) 20
          (val chips) MAXIMIZE (Some s).

(** [Sum_c y_c] *)
Definition y_total : LinExpr := quicksum (map (fun c => of_var (y_ c)) chips).

(** The rows after the cell of [min_types] and [max_types]. *)
Definition rows_types : list Row :=
  (rows_before_demand ++ rows_after_demand
   ++ [ mkRow 20 "min_types" (Cmp y_total GREATER_EQUAL (number 3));
        mkRow 21 "max_types" (Cmp y_total LESS_EQUAL (number 5)) ])%list.

(** [Sum_{h} v_h * x_h <= 0.5 * Sum_{l} v_l * x_l] *)
Definition value_balance : TempConstr :=
  Cmp (val high_chips) LESS_EQUAL (scale (SF2Q (literal 5 10)) (val low_chips)).

(** [x_l <= 0.20 * Sum_c x_c], [x_h >= 0.05 * Sum_c x_c] and
    [x_{twenty-five} >= x_c] *)
Definition low_ub (l : string) : TempConstr :=
  Cmp (of_var (x_ l)) LESS_EQUAL (scale (SF2Q (literal 20 100)) total).
Definition high_lb (h : string) : TempConstr :=
  Cmp (of_var (x_ h)) GREATER_EQUAL (scale (SF2Q (literal 5 100)) total).
Definition at_most_25 (c : string) : TempConstr :=
  Cmp (of_var (x_ "twenty-five")) GREATER_EQUAL (of_var (x_ c)).

(** The rows of the extra-practice model, step by step. *)
Definition rows_recreated : list Row :=
  family 0 "ingredient_usage" ingredients usage.
Definition rows_value_balance : list Row :=
  (rows_recreated ++ [mkRow 4 "value_balance" value_balance])%list.
Definition rows_low_chip_ub : list Row :=
  family 5 "low_chip_ub" low_chips low_ub.
Definition rows_high_chip_lb : list Row :=
  family 9 "high_chip_lb" high_chips high_lb.
Definition rows_max_25 : list Row :=
  family 12 "max_25" C_minus25 at_most_25.
Definition rows_percent30 : list Row :=
  family 18 "percent30" chips share30.

(** The names bound when [percent30] is in. *)
Definition practice : Practice :=
  mkPractice x_cols
    [("clay", 0%nat); ("lead", 1%nat); ("silver", 2%nat); ("gold", 3%nat)]
    total 4%nat
    [("one", 5%nat); ("five", 6%nat); ("ten", 7%nat); ("twenty-five", 8%nat)]
    [("one hundred", 9%nat); ("five hundred", 10%nat); ("thousand", 11%nat)]
    [("one", 12%nat); ("five", 13%nat); ("ten", 14%nat);
     ("one hundred", 15%nat); ("five hundred", 16%nat); ("thousand", 17%nat)]
    [("one", 18%nat); ("five", 19%nat); ("ten", 20%nat);
     ("twenty-five", 21%nat); ("one hundred", 22%nat);
     ("five hundred", 23%nat); ("thousand", 24%nat)].

(** [y_one <= y_five], [y_one <= y_ten], [2 * y_one <= y_five + y_ten] and
    [y_one <= y_five + y_ten] *)
Definition one_implies_five : TempConstr :=
  Cmp (of_var (y_ "one")) LESS_EQUAL (of_var (y_ "five")).
Definition one_implies_ten : TempConstr :=
  Cmp (of_var (y_ "one")) LESS_EQUAL (of_var (y_ "ten")).
Definition one_implies_both : TempConstr :=
  Cmp (times (y_ "one") 2) LESS_EQUAL
      (plus (of_var (y_ "five")) (of_var (y_ "ten"))).
Definition one_implies_either : TempConstr :=
  Cmp (of_var (y_ "one")) LESS_EQUAL
      (plus (of_var (y_ "five")) (of_var (y_ "ten"))).

Definition rows_logistical : list Row :=
  [ mkRow 37 "one_implies_five" one_implies_five;
    mkRow 38 "one_implies_five" one_implies_five;
    mkRow 39 "one_implies_ten" one_implies_ten;
    mkRow 40 "one_implies_ten" one_implies_both;
    mkRow 41 "one_implies_ten" one_implies_either ].

(** [x_c >= lo * y_c] and [x_c <= hi * y_c] *)
Definition at_least (lo : Q) (c : string) : TempConstr :=
  Cmp (of_var (x_ c)) GREATER_EQUAL (times (y_ c) lo).
Definition at_most (hi : Q) (c : string) : TempConstr :=
  Cmp (of_var (x_ c)) LESS_EQUAL (times (y_ c) hi).

Definition rows_big_M : list Row :=
  (family 42 "min_high_value" high_chips (at_least 2)
   ++ family 45 "max_high_value" high_chips (at_most 30)
   ++ family 48 "min_low_value" low_chips (at_least 30)
   ++ family 52 "min_low_value" low_chips (at_most M))%list.

(** What the cells up to the total budget hand to the solver, one model
    after the other: the columns, the rows and the objective of each. *)
Definition solves_until_t_budget
  : list (list VarAttr * list Row * (LinExpr * ModelSense)) :=
  [ (x_attrs, rows_before_demand, (val chips, MAXIMIZE));
    (x_attrs, rows_before_demand, (total, MAXIMIZE));
    (x_attrs, (rows_before_demand ++ rows_demand)%list, (total, MAXIMIZE));
    (x_attrs,
     (rows_before_demand ++ rows_demand
      ++ [mkRow 11 "v_budget" v_budget])%list,
     (total, MAXIMIZE));
    ((x_attrs ++ y_attrs)%list,
     (rows_before_demand ++ rows_demand ++ rows_after_demand)%list,
     (total, MAXIMIZE)) ].

End Formulation.

(** The chips of a list that an assignment makes (a positive count), and
    those it switches on (indicator 1). *)
Definition made (a : assignment) (cs : list string) : list string :=
  filter (fun c => negb (Qle_bool (a (x_ c)) 0)) cs.

Definition switched_on (a : assignment) (cs : list string) : list string :=
  filter (fun c => Qeq_bool (a (y_ c)) 1) cs.

(** The least integer at or above nine tenths of [n]. *)
Definition ceil_90 (n : Z) : Z := ((9 * n + 9) / 10)%Z.

(** [ceil (c * n) = ceil (9 * n / 10)], the product taken in binary64; with
    [c] the float [0.9] this says that the integers at or above the product
    are the integers at or above nine tenths of [n]. *)
Definition keeps_90_by (c : spec_float) (n : Z) : bool :=
  (Qceiling (SF2Q (fmul c (float_of_int n))) =? ceil_90 n)%Z.

Definition keeps_90 : Z -> bool := keeps_90_by (literal 9 10).

(** [f z], [f (z - 1)], ..., [f (z - k)] all hold. *)
Fixpoint all_down (f : Z -> bool) (k : nat) (z : Z) : bool :=
  match k with
  | O => f z
  | S k' => f z && all_down f k' (z - 1)
  end.

(** The counts for which [keeps_90] is checked, one by one. *)
Definition checked_range : Z := 10000.

End MoreRealisticSpec.

(* ================================================================== *)
(** * Example data                                                     *)
(* ================================================================== *)

(** Concrete inputs on which the facts below are instantiated: the tables
    of the first notebook, a solver that answers with the solutions the
    notebooks record, and small CSV files. *)
Module Examples.
Import CasinoChipsSpec.

(** A float that is a whole number and not negative, as Python prints it:
    ["38.0"].  The solutions of the examples hold no other value. *)
Definition show_float (f : spec_float) : string :=
  NilZero.string_of_int (Z.to_int (Qfloor (SF2Q f))) ++ ".0".

Definition kernel (sv : Model -> option Solution) : Kernel :=
  mkKernel sv show_float (Model_new EmptyString) [] [].

Definition no_solution : Model -> option Solution := fun _ => None.

(** The model of the first notebook as its cells have built it. *)
Definition built : Model := model (snd (CasinoChips.build (kernel no_solution))).

(** The solution the second notebook records for the original model. *)
Definition recorded (objval : Z) (xs : list Z) : Solution :=
  mkSolution (fun v => float_of_int (nth v xs 0%Z)) (float_of_int objval).

Definition recorded_original : Solution :=
  recorded 42143 [38; 1; 0; 284; 0; 50; 10]%Z.

(** The solution it records for the first stage of the hierarchical
    procedure: 367 chips. *)
Definition recorded_stage1 : Solution :=
  recorded 367 [0; 47; 110; 110; 100; 0; 0; 1; 1; 1; 1; 1; 0; 0]%Z.

(** Chip data: the values of the first notebook, no demand, no variable
    cost, and the set-up cost of 30 the notebook quotes for the ten. *)
Definition chips_data : MoreRealistic.ChipsData :=
  MoreRealistic.mkChipsData v_ (fun _ => 0) (fun _ => 0)
    (fun c => if String.eqb c "ten" then 30 else 0).

(** An assignment that makes no chip and switches on the one, the five and
    the five hundred. *)
Definition idle (v : Var) : Q :=
  match v with
  | 7%nat | 8%nat | 12%nat => 1
  | _ => 0
  end.

(** The plan that the second notebook records for the original model, as
    an assignment. *)
Definition recorded_plan : assignment :=
  fun v => nth v [38; 1; 0; 284; 0; 50; 10] 0.

(** A plan for the model with the bounds of the cell "Using big M": thirty
    of each of the five, the ten, the twenty-five, the one hundred and the
    five hundred. *)
Definition thirty_each : assignment :=
  fun v => nth v [0; 30; 30; 30; 30; 30; 0; 0; 1; 1; 1; 1; 1; 0] 0.

Definition ing_amounts_csv : DataFiles.CSV :=
  DataFiles.mkCSV ["ingredient"; "amount"]
    [["clay"; "5000"]; ["lead"; "1800"]; ["silver"; "100"]; ["gold"; "20"]].

Definition chips_data_csv : DataFiles.CSV :=
  DataFiles.mkCSV ["chips"; "value"; "demand"; "cost"; "fixed_cost"]
    [["one"; "1"; "0"; "0"; "0"]; ["five"; "5"; "0"; "0"; "0"]].

Definition recipes_csv : DataFiles.CSV :=
  DataFiles.mkCSV ["chips"; "ingredients"; "amount"]
    [["one"; "clay"; "18.0"]; ["one"; "lead"; "0.0"];
     ["five"; "clay"; "17.0"]; ["five"; "lead"; "2.0"]].

Definition files : DataFiles.FileSystem :=
  fun path =>
    if String.eqb path "data_files/ing_amounts.csv" then Some ing_amounts_csv
    else if String.eqb path "data_files/chips_data.csv" then Some chips_data_csv
    else if String.eqb path "data_files/recipes.csv" then Some recipes_csv
    else None.

(** Files of a single record: one amount, and the data of one chip. *)
Definition one_amount_csv : DataFiles.CSV :=
  DataFiles.mkCSV ["ingredient"; "amount"] [["clay"; "5000"]].

Definition one_chip_csv : DataFiles.CSV :=
  DataFiles.mkCSV ["chips"; "value"; "demand"; "cost"; "fixed_cost"]
    [["one"; "1"; "0"; "0"; "0"]].

(** A file system with one more file. *)
Definition with_file (path : string) (f : DataFiles.CSV)
  (fs : DataFiles.FileSystem) : DataFiles.FileSystem :=
  fun p => if String.eqb p path then Some f else fs p.

(** The data fields of the example files are numbers, all of them. *)
Definition numbers : string -> bool := fun _ => false.

End Examples.

(* ================================================================== *)
(** * Facts                                                            *)
(* ================================================================== *)

(** Case analysis on membership in a list that is known. *)
Ltac each_of H :=
  simpl in H;
  repeat match type of H with
         | _ \/ _ => destruct H as [<- | H]
         end;
  [ .. | contradiction H ].

(** Splits conjunctions, and nothing below them. *)
Ltac splits :=
  repeat match goal with
         | |- _ /\ _ => split
         | |- True => exact I
         end.

(* ================================================================== *)
(** * Linear expressions: evaluation and coefficients                  *)
(* ================================================================== *)

Lemma sumQ_app (l1 l2 : list Q) : sumQ (l1 ++ l2) == sumQ l1 + sumQ l2.
Proof.
  induction l1 as [|q l1 IH]; simpl.
  - lra.
  - rewrite IH. lra.
Qed.

Lemma sumQ_perm (l1 l2 : list Q) : Permutation l1 l2 -> sumQ l1 == sumQ l2.
Proof.
  induction 1 as [| q l l' _ IH | p q l | l l' l'' _ IH1 _ IH2]; simpl.
  - reflexivity.
  - rewrite IH. reflexivity.
  - lra.
  - rewrite IH1. exact IH2.
Qed.

Lemma eval_split (a : assignment) (e : LinExpr) :
  eval a e == eval_terms a (terms e) + constant e.
Proof.
  unfold eval, eval_terms. induction (terms e) as [|t ts IH]; simpl.
  - lra.
  - rewrite IH. lra.
Qed.

Lemma coeff_split (e : LinExpr) (v : Var) :
  coeff e v == coeff_terms (terms e) v.
Proof.
  unfold coeff, coeff_terms, sumQ. induction (terms e) as [|t ts IH]; simpl.
  - reflexivity.
  - destruct (Nat.eqb _ v); lra.
Qed.

Lemma coeff_absent (e : LinExpr) (v : Var) :
  ~ In v (map snd (terms e)) -> coeff e v == 0.
Proof.
  rewrite coeff_split. unfold coeff_terms.
  induction (terms e) as [|t ts IH]; simpl; intros H.
  - reflexivity.
  - match goal with
    | |- context [Nat.eqb ?n v] => destruct (Nat.eqb_spec n v) as [E|E]
    end.
    + exfalso. apply H. left. exact E.
    + assert (IH' := IH (fun Hin => H (or_intror Hin))).
      unfold sumQ in *. simpl. lra.
Qed.

Lemma eval_plus (a : assignment) (e1 e2 : LinExpr) :
  eval a (plus e1 e2) == eval a e1 + eval a e2.
Proof.
  rewrite !eval_split. unfold plus, eval_terms; simpl.
  rewrite map_app, sumQ_app. lra.
Qed.

Lemma coeff_plus (e1 e2 : LinExpr) (v : Var) :
  coeff (plus e1 e2) v == coeff e1 v + coeff e2 v.
Proof.
  rewrite !coeff_split. unfold plus, coeff_terms; simpl.
  rewrite map_app, sumQ_app. reflexivity.
Qed.

Lemma eval_fold_plus (a : assignment) (es : list LinExpr) (e0 : LinExpr) :
  eval a (fold_left plus es e0) == eval a e0 + sumQ (map (eval a) es).
Proof.
  revert e0. induction es as [|e es IH]; intros e0; simpl.
  - lra.
  - rewrite IH, eval_plus. lra.
Qed.

Lemma coeff_fold_plus (es : list LinExpr) (e0 : LinExpr) (v : Var) :
  coeff (fold_left plus es e0) v
  == coeff e0 v + sumQ (map (fun e => coeff e v) es).
Proof.
  revert e0. induction es as [|e es IH]; intros e0; simpl.
  - lra.
  - rewrite IH, coeff_plus. lra.
Qed.

Lemma eval_quicksum (a : assignment) (es : list LinExpr) :
  eval a (quicksum es) == sumQ (map (eval a) es).
Proof.
  unfold quicksum. rewrite eval_fold_plus. unfold eval; simpl. lra.
Qed.

Lemma coeff_quicksum (es : list LinExpr) (v : Var) :
  coeff (quicksum es) v == sumQ (map (fun e => coeff e v) es).
Proof.
  unfold quicksum. rewrite coeff_fold_plus. unfold coeff; simpl. lra.
Qed.

Lemma eval_quicksum_perm (a : assignment) (es es' : list LinExpr) :
  Permutation es es' -> eval a (quicksum es) == eval a (quicksum es').
Proof.
  intros HP. rewrite !eval_quicksum.
  apply sumQ_perm, Permutation_map, HP.
Qed.

Lemma coeff_quicksum_perm (es es' : list LinExpr) (v : Var) :
  Permutation es es' -> coeff (quicksum es) v == coeff (quicksum es') v.
Proof.
  intros HP. rewrite !coeff_quicksum.
  apply sumQ_perm. apply (Permutation_map (fun e => coeff e v)), HP.
Qed.

(* ================================================================== *)
(** * The model operations                                             *)
(* ================================================================== *)

Lemma remove_vars (hs : list Constr) (m : Model) :
  vars (remove hs m) = vars m.
Proof. reflexivity. Qed.

Lemma remove_objective (hs : list Constr) (m : Model) :
  objective (remove hs m) = objective m /\ sense (remove hs m) = sense m.
Proof. split; reflexivity. Qed.

Lemma remove_rows (hs : list Constr) (m : Model) (r : Row) :
  In r (rows (remove hs m)) <-> In r (rows m) /\ ~ In (handle r) hs.
Proof.
  unfold remove; simpl. rewrite filter_In. split.
  - intros [Hin Hb]. split; [exact Hin|].
    intros Hh. apply negb_true_iff in Hb.
    assert (Ht : existsb (Nat.eqb (handle r)) hs = true).
    { apply existsb_exists. exists (handle r). split; [exact Hh|].
      apply Nat.eqb_refl. }
    congruence.
  - intros [Hin Hn]. split; [exact Hin|].
    apply negb_true_iff. destruct (existsb (Nat.eqb (handle r)) hs) eqn:E.
    + apply existsb_exists in E. destruct E as [h [Hh He]].
      apply Nat.eqb_eq in He. subst h. contradiction.
    + reflexivity.
Qed.

Lemma addConstr_rows (tc : TempConstr) (name : string) (m : Model) :
  rows (snd (addConstr tc name m)) = (rows m ++ [mkRow (fresh m) name tc])%list
  /\ vars (snd (addConstr tc name m)) = vars m
  /\ fst (addConstr tc name m) = fresh m.
Proof. repeat split. Qed.

(* ================================================================== *)
(** * Deciding feasibility                                             *)
(* ================================================================== *)

Lemma is_integerb_sound (q : Q) : is_integerb q = true -> is_integer q.
Proof.
  unfold is_integerb, is_integer. intros H.
  exists (Qfloor q). apply Qeq_bool_iff, H.
Qed.

Lemma in_domainb_sound (va : VarAttr) (q : Q) :
  in_domainb va q = true -> in_domain va q.
Proof.
  unfold in_domainb, in_domain. intros H.
  apply andb_true_iff in H. destruct H as [H H3].
  apply andb_true_iff in H. destruct H as [H1 H2].
  split; [apply Qle_bool_iff, H1|]. split.
  - destruct (UB va); [apply Qle_bool_iff, H2 | exact I].
  - destruct (vtype va).
    + exact I.
    + apply is_integerb_sound, H3.
    + apply orb_true_iff in H3. destruct H3 as [H3|H3];
        [left|right]; apply Qeq_bool_iff, H3.
Qed.

Lemma holdsb_sound (a : assignment) (tc : TempConstr) :
  holdsb a tc = true -> holds a tc.
Proof.
  destruct tc as [l s r | e lo hi]; simpl.
  - destruct s; intros H;
      [apply Qle_bool_iff, H | apply Qle_bool_iff, H | apply Qeq_bool_iff, H].
  - intros H. apply andb_true_iff in H. destruct H as [H1 H2].
    split; apply Qle_bool_iff; assumption.
Qed.

Lemma feasibleb_sound (m : Model) (a : assignment) :
  feasibleb m a = true -> feasible m a.
Proof.
  unfold feasibleb, feasible. intros H.
  apply andb_true_iff in H. destruct H as [Hv Hr]. split.
  - intros v va Hnth.
    rewrite forallb_forall in Hv. specialize (Hv v).
    rewrite Hnth in Hv. apply in_domainb_sound, Hv.
    unfold getVars. apply in_seq. split; [lia|]. simpl.
    apply nth_error_Some. congruence.
  - unfold satisfies. apply Forall_forall. intros r Hin.
    rewrite forallb_forall in Hr. apply holdsb_sound, Hr, Hin.
Qed.

(* ================================================================== *)
(** * Reporting a solution                                             *)
(* ================================================================== *)

Lemma print_vars_unfold (k : Kernel) :
  print_vars k = for_each (getVars (model k)) print_var k.
Proof. reflexivity. Qed.

Lemma print_var_ok (k : Kernel) (v : Var) (va : VarAttr) (s : Solution) :
  nth_error (vars (model k)) v = Some va ->
  solution (model k) = Some s ->
  print_var v k
  = (inr tt,
     with_stdout k (stdout k ++ [VarName va ++ ": " ++ float_str k (X s v)])).
Proof.
  intros Hv Hs.
  unfold print_var, cbind, read_model, get_VarName, get_X, str_of_float, print.
  rewrite Hv. simpl. rewrite Hs. reflexivity.
Qed.

Lemma print_var_no_solution (k : Kernel) (v : Var) (va : VarAttr) :
  nth_error (vars (model k)) v = Some va ->
  solution (model k) = None ->
  print_var v k = (inl (AttributeError "X"), k).
Proof.
  intros Hv Hs.
  unfold print_var, cbind, read_model, get_VarName, get_X.
  rewrite Hv. simpl. rewrite Hs. reflexivity.
Qed.

Lemma for_each_report (s : Solution) (rest : list VarAttr) :
  forall (i : nat) (k : Kernel),
    (forall j va, nth_error rest j = Some va ->
                  nth_error (vars (model k)) (i + j) = Some va) ->
    solution (model k) = Some s ->
    for_each (seq i (List.length rest)) print_var k
    = (inr tt, with_stdout k (stdout k ++ report (float_str k) s i rest)).
Proof.
  induction rest as [|va rest IH]; intros i k Hnth Hs; simpl.
  - unfold cret, with_stdout. rewrite app_nil_r. destruct k; reflexivity.
  - unfold cbind.
    rewrite (print_var_ok k i va s); [| |exact Hs].
    + rewrite IH.
      * unfold with_stdout; simpl. rewrite <- app_assoc. reflexivity.
      * intros j va' Hj.
        change (model (with_stdout k
                  (stdout k ++ [VarName va ++ ": " ++ float_str k (X s i)])))
          with (model k).
        replace (S i + j)%nat with (i + S j)%nat by lia.
        apply Hnth. exact Hj.
      * exact Hs.
    + replace i with (i + 0)%nat at 1 by lia. apply Hnth. reflexivity.
Qed.

Lemma report_length fs s v vs :
  List.length (report fs s v vs) = List.length vs.
Proof.
  revert v. induction vs as [|va vs IH]; intros v; simpl;
    [reflexivity | rewrite IH; reflexivity].
Qed.

Lemma report_nth fs s (vs : list VarAttr) :
  forall v j va,
    nth_error vs j = Some va ->
    nth_error (report fs s v vs) j
    = Some (VarName va ++ ": " ++ fs (X s (v + j)%nat)).
Proof.
  induction vs as [|va0 vs IH]; intros v j va Hj.
  - destruct j; discriminate.
  - destruct j as [|j]; simpl in *.
    + injection Hj as ->. rewrite Nat.add_0_r. reflexivity.
    + rewrite (IH (S v) j va Hj).
      replace (S v + j)%nat with (v + S j)%nat by lia. reflexivity.
Qed.

Lemma cbind_ok {A B} (c : Cell A) (f : A -> Cell B) (k k' : Kernel) (a : A) :
  c k = (inr a, k') -> cbind c f k = f a k'.
Proof. intros H. unfold cbind. rewrite H. reflexivity. Qed.

Lemma cbind_raise {A B} (c : Cell A) (f : A -> Cell B) (k k' : Kernel)
  (e : PyError) :
  c k = (inl e, k') -> cbind c f k = (inl e, k').
Proof. intros H. unfold cbind. rewrite H. reflexivity. Qed.

Lemma optimize_model (k : Kernel) :
  vars (model (snd (optimize k))) = vars (model k)
  /\ solution (model (snd (optimize k))) = solver k (model k)
  /\ stdout (snd (optimize k)) = stdout k.
Proof. repeat split. Qed.

Lemma print_vars_ok (k : Kernel) (s : Solution) :
  solution (model k) = Some s ->
  print_vars k
  = (inr tt,
     with_stdout k (stdout k ++ report (float_str k) s 0%nat (vars (model k)))).
Proof.
  intros Hs. rewrite print_vars_unfold. unfold getVars.
  apply for_each_report; [|exact Hs].
  intros j va Hj. exact Hj.
Qed.

Lemma print_vars_raises (k : Kernel) :
  solution (model k) = None ->
  vars (model k) <> [] ->
  print_vars k = (inl (AttributeError "X"), k).
Proof.
  intros Hs Hv. rewrite print_vars_unfold. unfold getVars.
  destruct (vars (model k)) as [|va vs] eqn:E; [congruence|].
  simpl. apply cbind_raise.
  apply (print_var_no_solution k 0%nat va); [rewrite E; reflexivity | exact Hs].
Qed.

(* ================================================================== *)
(** * The first notebook: objective, ingredient limits, reporting      *)
(* ================================================================== *)

Module CasinoChipsFacts.
Import CasinoChips CasinoChipsSpec.

(** Replaces the table entries and columns at concrete keys by their
    values. *)
Ltac entries :=
  repeat match goal with
         | |- context [col ?x ?c] =>
             let t := eval vm_compute in (col x c) in
             change (col x c) with t
         | |- context [v_ ?c] =>
             let t := eval vm_compute in (v_ c) in change (v_ c) with t
         | |- context [r_ ?c ?i] =>
             let t := eval vm_compute in (r_ c i) in change (r_ c i) with t
         | |- context [q_ ?i] =>
             let t := eval vm_compute in (q_ i) in change (q_ i) with t
         end.

(** C4.  The objective the solver is asked to maximize is the linear
    expression [Sum_c v_c * x_c] over the seven chip variables: the sum
    written term by term, [gp.quicksum(x[i] * value[i] for i in chips)] and
    [x.prod(value)] are one and the same expression, whose coefficient on
    every [x_c] is [v_c], with no other variable and no constant; it is the
    objective of the model handed to the solver, to be maximized. *)
Theorem objective_formulations (k : Kernel) :
  exists (x : dict Var) (k0 : Kernel) (e : LinExpr),
    with_x k = (inr x, k0)
    /\ keys x = chips /\ List.length chips = 7%nat
    /\ objective_terms x = inr e
    /\ objective_quicksum x = inr e
    /\ objective_prod x = e
    /\ (forall c, In c chips ->
          exists xc vc, x.[c] = inr xc /\ value.[c] = inr vc
                        /\ coeff e xc == vc)
    /\ (forall v, ~ In v (values x) -> coeff e v == 0)
    /\ constant e == 0
    /\ (forall a, eval a e == spec_objective (col x) a)
    /\ objective (model (snd (set_objective_terms x k0))) = e
    /\ objective (model (snd (set_objective_quicksum x k0))) = e
    /\ objective (model (snd (set_objective_prod x k0))) = e
    /\ (exists m, solved (snd ((build ;;; optimize) k))
                  = (solved k ++ [m])%list
                  /\ objective m = e /\ sense m = MAXIMIZE).
Proof.
  eexists; eexists; eexists.
  split; [reflexivity|].
  split; [reflexivity|]. split; [reflexivity|].
  split; [vm_compute; reflexivity|].
  split; [vm_compute; reflexivity|].
  split; [vm_compute; reflexivity|].
  split.
  { intros c Hc. each_of Hc;
      (eexists; eexists; split; [reflexivity|]; split; [reflexivity|];
       vm_compute; reflexivity). }
  split.
  { intros v Hv. apply coeff_absent. exact Hv. }
  split; [vm_compute; reflexivity|].
  split.
  { intros a. rewrite eval_split. unfold eval_terms, spec_objective.
    simpl. unfold sumQ; simpl. entries. lra. }
  split; [vm_compute; reflexivity|].
  split; [vm_compute; reflexivity|].
  split; [vm_compute; reflexivity|].
  eexists. split; [vm_compute; reflexivity|].
  split; vm_compute; reflexivity.
Qed.

(** The rows and columns of a model that a run of cells has produced. *)
Ltac rows_now :=
  repeat match goal with
         | |- context [rows ?m] =>
             let t := eval vm_compute in (rows m) in
             progress change (rows m) with t
         | |- context [vars ?m] =>
             let t := eval vm_compute in (vars m) in
             progress change (vars m) with t
         end.

Ltac linear_rows :=
  unfold satisfies; rewrite ?Forall_cons_iff, ?Forall_nil_iff;
  unfold holds, eval, body, spec_limit, sumQ; simpl; entries.

Lemma spec_limits_all (x : string -> Var) (a : assignment) :
  (forall i, In i ingredients -> spec_limit x a i)
  <-> spec_limit x a "clay" /\ spec_limit x a "lead"
      /\ spec_limit x a "silver" /\ spec_limit x a "gold".
Proof.
  split.
  - intros H. splits; apply H; simpl; tauto.
  - intros [H1 [H2 [H3 H4]]] i Hi. each_of Hi; assumption.
Qed.

(** C3.  The three codings of the ingredient restrictions -- the four
    explicit [addConstr] calls, the loop over the ingredients, and the
    single [addConstrs] -- add the same four inequalities
    [Sum_c r_{c,i} * x_c <= q_i], one per ingredient in clay, lead, silver,
    gold (the explicit coding in another order, and under other names): an
    assignment satisfies the rows of one coding exactly when it satisfies
    the rows of each other, which is exactly when it meets the four
    inequalities of the formulation; and a model that holds all three
    codings at once, as the notebook's does, has the same feasible
    assignments. *)
Theorem ingredient_codings_agree (k : Kernel) :
  exists (x : dict Var) (k0 k1 k2 k3 kb : Kernel) (hs : dict Constr),
    with_x k = (inr x, k0)
    /\ explicit_limits x k0 = (inr tt, k1)
    /\ loop_limits x k0 = (inr tt, k2)
    /\ balance_constraints x k0 = (inr hs, k3)
    /\ build k = (inr tt, kb)
    /\ ingredients = ["clay"; "lead"; "silver"; "gold"]
    /\ map ConstrName (rows (model k1))
       = ["clay limit"; "lead limit"; "gold limit"; "silver limit"]
    /\ map ConstrName (rows (model k2))
       = ["ingredients usage"; "ingredients usage"; "ingredients usage";
          "ingredients usage"]
    /\ map ConstrName (rows (model k3))
       = map (indexed_name "ingredients usage") ingredients
    /\ keys hs = ingredients
    /\ map body (rows (model k2)) = map body (rows (model k3))
    /\ Permutation (map body (rows (model k1))) (map body (rows (model k2)))
    /\ (forall a, satisfies a (rows (model k1))
                  <-> forall i, In i ingredients -> spec_limit (col x) a i)
    /\ (forall a, satisfies a (rows (model k2))
                  <-> forall i, In i ingredients -> spec_limit (col x) a i)
    /\ (forall a, satisfies a (rows (model k3))
                  <-> forall i, In i ingredients -> spec_limit (col x) a i)
    /\ (forall a, feasible (model k1) a <-> feasible (model k2) a)
    /\ (forall a, feasible (model k2) a <-> feasible (model k3) a)
    /\ (forall a, feasible (model kb) a <-> feasible (model k1) a).
Proof.
  do 7 eexists.
  split; [vm_compute; reflexivity|].
  split; [vm_compute; reflexivity|].
  split; [vm_compute; reflexivity|].
  split; [vm_compute; reflexivity|].
  split; [vm_compute; reflexivity|].
  split; [reflexivity|].
  split; [vm_compute; reflexivity|].
  split; [vm_compute; reflexivity|].
  split; [vm_compute; reflexivity|].
  split; [vm_compute; reflexivity|].
  split; [vm_compute; reflexivity|].
  split.
  { vm_compute. apply perm_skip, perm_skip, perm_swap. }
  assert (E1 : forall a x',
    x' = col [("one", 0%nat); ("five", 1%nat); ("ten", 2%nat);
              ("twenty-five", 3%nat); ("one hundred", 4%nat);
              ("five hundred", 5%nat); ("thousand", 6%nat)] ->
    (spec_limit x' a "clay" /\ spec_limit x' a "lead"
     /\ spec_limit x' a "silver" /\ spec_limit x' a "gold")
    <-> (18 * a 0%nat + 17 * a 1%nat + 16 * a 2%nat + 13 * a 3%nat
         + 10 * a 4%nat + 10 * a 5%nat + 10 * a 6%nat <= 5000
         /\ 2 * a 1%nat + 3 * a 2%nat + (9 # 2) * a 3%nat + 6 * a 4%nat
            + (17 # 2) * a 5%nat + (19 # 2) * a 6%nat <= 1800
         /\ a 4%nat + 2 * a 5%nat <= 100
         /\ 2 * a 6%nat <= 20)).
  { intros a x' ->. unfold spec_limit, sumQ; simpl; entries.
    split; intros [H1 [H2 [H3 H4]]]; splits; lra. }
  split.
  { intros a. rewrite spec_limits_all, (E1 a _ eq_refl).
    rows_now. linear_rows.
    split; [intros [H1 [H2 [H3 [H4 _]]]] | intros [H1 [H2 [H3 H4]]]];
      splits; lra. }
  split.
  { intros a. rewrite spec_limits_all, (E1 a _ eq_refl).
    rows_now. linear_rows.
    split; [intros [H1 [H2 [H3 [H4 _]]]] | intros [H1 [H2 [H3 H4]]]];
      splits; lra. }
  split.
  { intros a. rewrite spec_limits_all, (E1 a _ eq_refl).
    rows_now. linear_rows.
    split; [intros [H1 [H2 [H3 [H4 _]]]] | intros [H1 [H2 [H3 H4]]]];
      splits; lra. }
  split.
  { intros a. unfold feasible. rows_now. linear_rows.
    split; intros [Hv [H1 [H2 [H3 [H4 _]]]]]; (split; [exact Hv|]);
      splits; lra. }
  split.
  { intros a. unfold feasible. rows_now. linear_rows.
    split; intros [Hv [H1 [H2 [H3 [H4 _]]]]]; (split; [exact Hv|]);
      splits; lra. }
  intros a. unfold feasible. rows_now. linear_rows.
  split.
  - intros [Hv [H1 [H2 [H3 [H4 _]]]]]. split; [exact Hv|].
    splits; lra.
  - intros [Hv [H1 [H2 [H3 [H4 _]]]]]. split; [exact Hv|].
    splits; lra.
Qed.

Lemma build_ok (k : Kernel) : build k = (inr tt, snd (build k)).
Proof. vm_compute. reflexivity. Qed.

Lemma build_model (k : Kernel) :
  List.length (vars (model (snd (build k)))) = 7%nat
  /\ solution (model (snd (build k))) = None.
Proof. split; vm_compute; reflexivity. Qed.

Lemma build_frame (k : Kernel) :
  solver (snd (build k)) = solver k
  /\ stdout (snd (build k))
     = (stdout k
        ++ [repr_list chips; repr_dict value; repr_list ingredients])%list.
Proof.
  split; [vm_compute; reflexivity|].
  transitivity (((stdout k ++ [repr_list chips]) ++ [repr_dict value])
                ++ [repr_list ingredients])%list.
  - vm_compute. reflexivity.
  - rewrite <- !app_assoc. reflexivity.
Qed.

(** What the three [print] calls of the cells show. *)
Example printed_data :
  [repr_list chips; repr_dict value; repr_list ingredients]
  = ["['one', 'five', 'ten', 'twenty-five', 'one hundred', 'five hundred', 'thousand']";
     "{'one': 1, 'five': 5, 'ten': 10, 'twenty-five': 25, 'one hundred': 100, 'five hundred': 500, 'thousand': 1000}";
     "['clay', 'lead', 'silver', 'gold']"].
Proof. vm_compute. reflexivity. Qed.

(** C5.  The reporting statement asks every variable for its value and
    nothing around it handles a failure.  Run on a model that holds no
    solution and has a variable, it raises the library's error at the first
    [v.X], before it prints anything, and the error is the result of the
    cell.
    So it is for the notebook when the solver finds no solution (an
    infeasible model), and when the reporting cell runs on the model that
    was built but never solved. *)
Theorem report_without_solution :
  (forall k : Kernel,
      solution (model k) = None -> vars (model k) <> [] ->
      print_vars k = (inl (AttributeError "X"), k))
  /\ (forall k : Kernel,
        solver k (model (snd (build k))) = None ->
        notebook k = (inl (AttributeError "X"), snd (optimize (snd (build k))))
        /\ stdout (snd (notebook k)) = stdout (snd (build k)))
  /\ (forall k : Kernel,
        (build ;;; print_vars) k = (inl (AttributeError "X"), snd (build k))).
Proof.
  split; [exact print_vars_raises|]. split.
  - intros k Hnone.
    assert (Hrun : notebook k
                   = (inl (AttributeError "X"),
                      snd (optimize (snd (build k))))).
    { unfold notebook.
      rewrite (cbind_ok build (fun _ => optimize ;;; print_vars) k
                        (snd (build k)) tt (build_ok k)).
      rewrite (cbind_ok optimize (fun _ => print_vars) (snd (build k))
                        (snd (optimize (snd (build k)))) tt eq_refl).
      destruct (optimize_model (snd (build k))) as [Ov [Os _]].
      apply print_vars_raises.
      - rewrite Os, (proj1 (build_frame k)). exact Hnone.
      - rewrite Ov. intros E. pose proof (proj1 (build_model k)) as L.
        rewrite E in L. discriminate L. }
    split; [exact Hrun|]. rewrite Hrun.
    destruct (optimize_model (snd (build k))) as [_ [_ Oo]].
    unfold snd at 1. exact Oo.
  - intros k.
    rewrite (cbind_ok build (fun _ => print_vars) k (snd (build k)) tt
                      (build_ok k)).
    apply print_vars_raises.
    + apply build_model.
    + intros E. pose proof (proj1 (build_model k)) as L.
      rewrite E in L. discriminate L.
Qed.

(** C6.  After a solve that left a solution, the reporting statement
    prints exactly one line per variable of the model and nothing else: the
    lines are, in the order the variables were added, the name of the
    variable, a colon (and a space) and its value.  It leaves the model as
    it was. *)
Theorem report_one_line_per_variable (k : Kernel) (s : Solution) :
  solution (model k) = Some s ->
  exists lines : list string,
    print_vars k = (inr tt, with_stdout k (stdout k ++ lines))
    /\ lines = report (float_str k) s 0%nat (vars (model k))
    /\ List.length lines = List.length (vars (model k))
    /\ (forall j va,
          nth_error (vars (model k)) j = Some va ->
          nth_error lines j
          = Some (VarName va ++ ": " ++ float_str k (X s j)))
    /\ model (snd (print_vars k)) = model k.
Proof.
  intros Hs. exists (report (float_str k) s 0%nat (vars (model k))).
  split; [apply print_vars_ok, Hs|]. split; [reflexivity|].
  split; [apply report_length|]. split.
  - intros j va Hj. rewrite (report_nth _ _ _ 0%nat j va Hj). reflexivity.
  - rewrite (print_vars_ok k s Hs). reflexivity.
Qed.

(** The notebook on a solver that finds nothing: the report raises. *)
Lemma report_without_solution_witness :
  solution (model (snd ((build ;;; optimize) (Examples.kernel Examples.no_solution))))
  = None
  /\ vars (model (snd ((build ;;; optimize)
                         (Examples.kernel Examples.no_solution)))) <> []
  /\ print_vars (snd ((build ;;; optimize)
                        (Examples.kernel Examples.no_solution)))
     = (inl (AttributeError "X"),
        snd ((build ;;; optimize) (Examples.kernel Examples.no_solution))).
Proof.
  assert (H1 : solution (model (snd ((build ;;; optimize)
                 (Examples.kernel Examples.no_solution)))) = None)
    by (vm_compute; reflexivity).
  assert (H2 : vars (model (snd ((build ;;; optimize)
                 (Examples.kernel Examples.no_solution)))) <> [])
    by (vm_compute; discriminate).
  split; [exact H1|]. split; [exact H2|].
  exact (proj1 report_without_solution _ H1 H2).
Defined.

(** The notebook on the solution it would find: after the three lines the
    cells before have printed, seven lines. *)
Lemma report_one_line_per_variable_witness :
  solution (model (snd ((build ;;; optimize)
              (Examples.kernel (fun _ => Some Examples.recorded_original)))))
  = Some Examples.recorded_original
  /\ stdout (snd (print_vars (snd ((build ;;; optimize)
                (Examples.kernel (fun _ => Some Examples.recorded_original))))))
     = [repr_list chips; repr_dict value; repr_list ingredients;
        "chips[one]: 38.0"; "chips[five]: 1.0"; "chips[ten]: 0.0";
        "chips[twenty-five]: 284.0"; "chips[one hundred]: 0.0";
        "chips[five hundred]: 50.0"; "chips[thousand]: 10.0"].
Proof.
  assert (H : solution (model (snd ((build ;;; optimize)
                (Examples.kernel (fun _ => Some Examples.recorded_original)))))
              = Some Examples.recorded_original)
    by (vm_compute; reflexivity).
  split; [exact H|].
  destruct (report_one_line_per_variable _ _ H) as [lines [Hrun [Hl _]]].
  rewrite Hrun, Hl. vm_compute. reflexivity.
Defined.

End CasinoChipsFacts.

(* ================================================================== *)
(** * The second notebook: the model as the cells change it            *)
(* ================================================================== *)

Module MoreRealisticFacts.
Import MoreRealistic MoreRealisticSpec.

(** The helper never raises: it hands the model to the solver, stores the
    answer in the model, prints, and changes nothing else. *)
Lemma solve_and_print_solution_run (k : Kernel) :
  solve_and_print_solution k
  = (inr tt,
     mkKernel (solver k) (float_str k)
              (set_solution (model k) (solver k (model k)))
              (stdout k ++ helper_lines k)
              (solved k ++ [model k])).
Proof.
  unfold solve_and_print_solution, helper_lines.
  rewrite (cbind_ok optimize _ k (snd (optimize k)) tt eq_refl).
  unfold cbind at 1. unfold read_model at 1.
  change (solution (model (snd (optimize k)))) with (solver k (model k)).
  cbv beta iota. unfold ret at 1. cbv beta iota.
  destruct (solver k (model k)) as [s|] eqn:E.
  - cbv beta iota delta [cbind print str_of_float ret].
    rewrite (print_vars_ok _ s).
    + unfold with_stdout, optimize, set_solution; simpl.
      rewrite E. rewrite <- !app_assoc. reflexivity.
    + simpl. exact E.
  - unfold cret, optimize, set_solution; simpl. rewrite E, app_nil_r.
    reflexivity.
Qed.

(** Runs a sequence of cells on a symbolic state: everything is computed
    except the arithmetic on the data and the helper, whose effect is the
    one just proved. *)
Ltac run_cells :=
  repeat (cbv -[solve_and_print_solution Qplus Qmult Qle Qeq Qopp SF2Q
                literal fmul float_of_int];
          try rewrite solve_and_print_solution_run).

(** Replaces the columns of concrete chips by their numbers. *)
Ltac cols :=
  repeat match goal with
         | |- context [x_ ?c] =>
             let t := eval vm_compute in (x_ c) in change (x_ c) with t
         | |- context [y_ ?c] =>
             let t := eval vm_compute in (y_ c) in change (y_ c) with t
         | H : context [x_ ?c] |- _ =>
             let t := eval vm_compute in (x_ c) in change (x_ c) with t in H
         | H : context [y_ ?c] |- _ =>
             let t := eval vm_compute in (y_ c) in change (y_ c) with t in H
         end.

Lemma contains_In (l : list string) (c : string) :
  contains l c = true <-> In c l.
Proof.
  unfold contains. rewrite existsb_exists. split.
  - intros [c' [Hin He]]. apply String.eqb_eq in He. subst c'. exact Hin.
  - intros Hin. exists c. split; [exact Hin | apply String.eqb_refl].
Qed.

(** A list splits into the part inside [high] and the part outside. *)
Lemma partition_perm (cs high : list string) :
  NoDup cs -> NoDup high -> incl high cs ->
  Permutation (high ++ filter (fun c => negb (contains high c)) cs) cs.
Proof.
  intros Hcs Hh Hincl. apply NoDup_Permutation.
  - apply NoDup_app; [exact Hh | apply NoDup_filter, Hcs |].
    intros c Hc Hf. apply filter_In in Hf. destruct Hf as [_ Hn].
    apply negb_true_iff in Hn.
    apply contains_In in Hc. congruence.
  - exact Hcs.
  - intros c. rewrite in_app_iff, filter_In. split.
    + intros [Hc | [Hc _]]; [apply Hincl, Hc | exact Hc].
    + intros Hc. destruct (contains high c) eqn:E.
      * left. apply contains_In, E.
      * right. split; [exact Hc | reflexivity].
Qed.

Lemma split_sum (f : string -> LinExpr) (cs high : list string) :
  NoDup cs -> NoDup high -> incl high cs ->
  let low := filter (fun c => negb (contains high c)) cs in
  (forall v, coeff (plus (quicksum (map f high)) (quicksum (map f low))) v
             == coeff (quicksum (map f cs)) v)
  /\ (forall a, eval a (plus (quicksum (map f high)) (quicksum (map f low)))
                == eval a (quicksum (map f cs))).
Proof.
  intros Hcs Hh Hincl low.
  pose proof (partition_perm cs high Hcs Hh Hincl) as HP. fold low in HP.
  split.
  - intros v. rewrite coeff_plus, !coeff_quicksum, <- sumQ_app, <- !map_app.
    apply sumQ_perm. apply Permutation_map, Permutation_map, HP.
  - intros a. rewrite eval_plus, !eval_quicksum, <- sumQ_app, <- !map_app.
    apply sumQ_perm. apply Permutation_map, Permutation_map, HP.
Qed.

Lemma NoDup_chips : NoDup chips /\ NoDup high_chips /\ incl high_chips chips.
Proof.
  split; [|split].
  - repeat (constructor; [simpl; intuition discriminate|]). constructor.
  - repeat (constructor; [simpl; intuition discriminate|]). constructor.
  - intros c Hc. simpl in *. intuition.
Qed.


Lemma all_down_ok (f : Z -> bool) (k : nat) :
  forall z n,
    all_down f k z = true -> (z - Z.of_nat k <= n <= z)%Z -> f n = true.
Proof.
  induction k as [|k IH]; intros z n H Hn.
  - simpl in H. replace n with z by lia. exact H.
  - simpl in H. apply andb_true_iff in H. destruct H as [H1 H2].
    destruct (Z.eq_dec n z) as [->|Hne]; [exact H1|].
    apply (IH (z - 1)%Z n H2). lia.
Qed.

Lemma keeps_90_checked :
  all_down keeps_90 (Z.to_nat checked_range) checked_range = true.
Proof. vm_compute. reflexivity. Qed.

Lemma keeps_90_ok (n : Z) :
  (0 <= n <= checked_range)%Z -> keeps_90 n = true.
Proof.
  intros Hn.
  apply (all_down_ok keeps_90 (Z.to_nat checked_range) checked_range n
                     keeps_90_checked).
  unfold checked_range in *. lia.
Qed.

(** The least integer at or above [0.9 * n], computed in binary64, is the
    least integer at or above nine tenths of [n]. *)
Lemma float_bound_ceiling (n : Z) :
  (0 <= n <= checked_range)%Z ->
  Qceiling (SF2Q (fmul (literal 9 10) (float_of_int n))) = ceil_90 n.
Proof.
  intros Hn. pose proof (keeps_90_ok n Hn) as Hk.
  unfold keeps_90, keeps_90_by in Hk. apply Z.eqb_eq in Hk. exact Hk.
Qed.

Lemma ceil_90_le (n t : Z) :
  (ceil_90 n <= t)%Z <-> (9 # 10) * inject_Z n <= inject_Z t.
Proof.
  assert (E : (9 # 10) * inject_Z n <= inject_Z t <-> (9 * n <= 10 * t)%Z).
  { unfold Qle, Qmult, inject_Z. cbn [Qnum Qden]. rewrite ?Pos2Z.inj_mul.
    lia. }
  rewrite E. unfold ceil_90.
  pose proof (Z.div_mod (9 * n + 9) 10 ltac:(lia)) as D.
  pose proof (Z.mod_pos_bound (9 * n + 9) 10 ltac:(lia)) as B.
  lia.
Qed.

(** An integer is at or above [0.9 * n], computed in binary64, exactly when
    it is at or above nine tenths of [n]. *)
Lemma float_bound_keeps_90 (n t : Z) :
  (0 <= n <= checked_range)%Z ->
  SF2Q (fmul (literal 9 10) (float_of_int n)) <= inject_Z t
  <-> (9 # 10) * inject_Z n <= inject_Z t.
Proof.
  intros Hn. rewrite <- ceil_90_le, <- (float_bound_ceiling n Hn).
  split.
  - intros Ht. apply Qceiling_resp_le in Ht. rewrite Qceiling_Z in Ht.
    exact Ht.
  - intros Ht. eapply Qle_trans; [apply Qle_ceiling|].
    rewrite <- Zle_Qle. exact Ht.
Qed.


(** The floats that the decimal literals of the notebook denote. *)
Example literal_0_9 : literal 9 10 = S754_finite false 8106479329266893 (-53).
Proof. vm_compute. reflexivity. Qed.

Example literal_0_3 : literal 3 10 = S754_finite false 5404319552844595 (-54).
Proof. vm_compute. reflexivity. Qed.

Example literal_0_5 : SF2Q (literal 5 10) == 1 # 2.
Proof. vm_compute. reflexivity. Qed.

(** ** The models of the second notebook, for any data *)

Section Facts.

Variable on_hand : string -> Q.
Variable chips_data : ChipsData.
Variable recipes : string -> string -> Q.

#[local] Set Warnings "-notation-for-abbreviation".
Local Notation usage := (usage on_hand recipes).
Local Notation val := (val chips_data).
Local Notation rows_before_demand := (rows_before_demand on_hand recipes).
Local Notation rows_demand := (rows_demand chips_data).
Local Notation rows_after_demand := (rows_after_demand chips_data).
Local Notation rows_logical := (rows_logical on_hand recipes).
Local Notation rows_stage1 := (rows_stage1 on_hand chips_data recipes).
Local Notation stage := (stage chips_data).
Local Notation stage1_model := (stage1_model on_hand chips_data recipes).
Local Notation stage2_model := (stage2_model on_hand chips_data recipes).

Lemma until_t_budget_run (k : Kernel) :
  exists k1 : Kernel,
    until_t_budget on_hand chips_data recipes k = (inr handles, k1)
    /\ vars (model k1) = (x_attrs ++ y_attrs)%list
    /\ rows (model k1)
       = (rows_before_demand ++ rows_demand ++ rows_after_demand)%list
    /\ objective (model k1) = total
    /\ sense (model k1) = MAXIMIZE
    /\ fresh (model k1) = 20%nat.
Proof.
  eexists. split; [run_cells; reflexivity|].
  repeat split; vm_compute; reflexivity.
Qed.

(** C9.  [model.remove(meet_demand)] takes out of the model exactly the
    seven demand constraints [x_c >= d_c], one per chip, and nothing else:
    the four ingredient-usage rows before them and the variable-cost
    budget, the seven big-M links and the total-cost budget after them stay,
    unchanged and in their order; the fourteen variables, the objective and
    its sense stay as they were. *)
Theorem remove_meet_demand_frame (k : Kernel) :
  exists (h : Handles) (k1 k2 : Kernel),
    until_t_budget on_hand chips_data recipes k = (inr h, k1)
    /\ remove_meet_demand (h_meet_demand h) k1 = (inr tt, k2)
    /\ until_remove on_hand chips_data recipes k = (inr h, k2)
    /\ keys (h_meet_demand h) = chips
    /\ List.length chips = 7%nat
    /\ map handle rows_demand = values (h_meet_demand h)
    /\ map (fun r => (ConstrName r, body r)) rows_demand
       = map (fun c => (indexed_name "meet_demand" c,
                        Cmp (of_var (x_ c)) GREATER_EQUAL
                            (number (demand chips_data c)))) chips
    /\ rows (model k1)
       = (rows_before_demand ++ rows_demand ++ rows_after_demand)%list
    /\ rows (model k2) = (rows_before_demand ++ rows_after_demand)%list
    /\ (forall r, In r (rows (model k2))
                  <-> In r (rows (model k1))
                      /\ ~ In (handle r) (values (h_meet_demand h)))
    /\ map ConstrName (rows (model k2))
       = ["ingredient_usage[clay]"; "ingredient_usage[lead]";
          "ingredient_usage[silver]"; "ingredient_usage[gold]";
          "v_budget";
          "link_x_y[one]"; "link_x_y[five]"; "link_x_y[ten]";
          "link_x_y[twenty-five]"; "link_x_y[one hundred]";
          "link_x_y[five hundred]"; "link_x_y[thousand]";
          "t_budget"]
    /\ vars (model k2) = vars (model k1)
    /\ List.length (vars (model k2)) = 14%nat
    /\ objective (model k2) = objective (model k1)
    /\ sense (model k2) = sense (model k1).
Proof.
  destruct (until_t_budget_run k) as [k1 [Hrun [Hv [Hr [Ho [Hs Hf]]]]]].
  exists handles, k1,
    (snd (remove_meet_demand (h_meet_demand handles) k1)).
  assert (Hrows : rows (model (snd (remove_meet_demand
                                      (h_meet_demand handles) k1)))
                  = (rows_before_demand ++ rows_after_demand)%list).
  { change (rows (remove (values (h_meet_demand handles)) (model k1))
            = (rows_before_demand ++ rows_after_demand)%list).
    unfold remove; simpl rows. rewrite Hr. vm_compute. reflexivity. }
  split; [exact Hrun|]. split; [reflexivity|]. split.
  { unfold until_remove.
    rewrite (cbind_ok _ (fun h => remove_meet_demand (h_meet_demand h) ;;;
                                  cret h) k k1 handles Hrun).
    reflexivity. }
  split; [reflexivity|]. split; [reflexivity|]. split; [reflexivity|].
  split; [reflexivity|]. split; [exact Hr|]. split; [exact Hrows|].
  split.
  { intros r. apply (remove_rows (values (h_meet_demand handles)) (model k1)). }
  split; [rewrite Hrows; vm_compute; reflexivity|].
  split; [reflexivity|].
  split.
  { change (List.length (vars (model k1)) = 14%nat). rewrite Hv. reflexivity. }
  split; reflexivity.
Qed.

(** C1.  The big-M rows [x_c <= M * y_c], with [M = 500] and one row
    [link_x_y[c]] per chip, tie the count of a chip to its indicator: the
    count [x_c] is a variable with lower bound 0, and an assignment that
    keeps it at or above 0 and satisfies the row of the chip with [y_c = 0]
    has [x_c = 0].  And [M] is conservative for the
    ingredient data: when every chip uses at least 10 units of clay and at
    most 5000 are on hand, every non-negative assignment that satisfies the
    clay row has [x_c <= 500] for every chip, so that with [y_c = 1] the
    row of the chip holds and excludes nothing. *)
Theorem link_x_y_big_M (k : Kernel) :
  (forall c, In c chips -> 10 <= recipes c "clay") ->
  on_hand "clay" <= 5000 ->
  exists k1 : Kernel,
    until_t_budget on_hand chips_data recipes k = (inr handles, k1)
    /\ M == 500
    /\ In (mkRow 0 "ingredient_usage[clay]" (usage "clay")) (rows (model k1))
    /\ forall c, In c chips ->
         exists hc : Constr,
           (h_link_x_y handles).[c] = inr hc
           /\ (h_x handles).[c] = inr (x_ c)
           /\ (h_y handles).[c] = inr (y_ c)
           /\ In (mkRow hc (indexed_name "link_x_y" c) (linked c))
                 (rows (model k1))
           /\ nth_error (vars (model k1)) (x_ c)
              = Some (mkVar (indexed_name "chips" c) INTEGER 0 None)
           /\ (forall a, 0 <= a (x_ c) ->
                         holds a (linked c) -> a (y_ c) == 0 ->
                         a (x_ c) == 0)
           /\ (forall a, (forall v, 0 <= a v) ->
                         holds a (usage "clay") ->
                         a (x_ c) <= 500
                         /\ (a (y_ c) == 1 -> holds a (linked c))).
Proof.
  intros Hclay Hhand.
  destruct (until_t_budget_run k) as [k1 [Hrun [Hv [Hr _]]]].
  exists k1. split; [exact Hrun|]. split; [reflexivity|].
  split; [rewrite Hr; left; reflexivity|].
  assert (Hbound : forall a, (forall v, 0 <= a v) -> holds a (usage "clay") ->
            10 * (a 0%nat + a 1%nat + a 2%nat + a 3%nat + a 4%nat + a 5%nat
                  + a 6%nat) <= 5000).
  { intros a Hpos Hu. unfold holds, MoreRealisticSpec.usage in Hu.
    rewrite eval_quicksum in Hu. unfold eval, sumQ in Hu. simpl in Hu.
    cols.
    assert (T : forall c v, In c chips ->
                  10 * a v <= recipes c "clay" * a v).
    { intros c v Hc. apply Qmult_le_compat_r; [apply Hclay, Hc | apply Hpos]. }
    pose proof (T "one" 0%nat ltac:(simpl; tauto)).
    pose proof (T "five" 1%nat ltac:(simpl; tauto)).
    pose proof (T "ten" 2%nat ltac:(simpl; tauto)).
    pose proof (T "twenty-five" 3%nat ltac:(simpl; tauto)).
    pose proof (T "one hundred" 4%nat ltac:(simpl; tauto)).
    pose proof (T "five hundred" 5%nat ltac:(simpl; tauto)).
    pose proof (T "thousand" 6%nat ltac:(simpl; tauto)).
    lra. }
  intros c Hc. rewrite Hr, Hv.
  each_of Hc;
    (eexists; split; [reflexivity|]; split; [reflexivity|];
     split; [reflexivity|]; split; [vm_compute; tauto|]; split;
     [ vm_compute; reflexivity |];
     split;
     [ intros a Hlb Hl Hy;
       unfold holds, linked, eval, M in Hl; simpl in Hl; cols; lra
     | intros a Hpos Hu; pose proof (Hbound a Hpos Hu) as Hb;
       pose proof (Hpos 0%nat); pose proof (Hpos 1%nat);
       pose proof (Hpos 2%nat); pose proof (Hpos 3%nat);
       pose proof (Hpos 4%nat); pose proof (Hpos 5%nat);
       pose proof (Hpos 6%nat);
       split;
       [ cols; lra
       | intros Hy; unfold holds, linked, eval, M; simpl; cols; lra ] ]).
Qed.

(** C10.  [high_chips] and [low_chips] split the chips: [low_chips] is
    every chip that is not in [high_chips], no chip is in both lists, every
    chip is in one of them, and the two lists together are a rearrangement
    of [chips].  Hence [val_high_chips + val_low_chips] and
    [val_total_chips] are the same linear expression: the same coefficient
    on every variable, namely [v_c] on [x_c], and the same value under every
    assignment. *)
Theorem high_low_partition (k : Kernel) :
  low_chips = ["one"; "five"; "ten"; "twenty-five"]
  /\ (forall c, In c low_chips <-> In c chips /\ ~ In c high_chips)
  /\ (forall c, ~ (In c high_chips /\ In c low_chips))
  /\ (forall c, In c chips <-> In c high_chips \/ In c low_chips)
  /\ Permutation (high_chips ++ low_chips) chips
  /\ exists (x : dict Var) (iu : dict Constr) (tc : LinExpr) (k1 : Kernel),
       recreate_model on_hand recipes k = (inr (x, iu, tc), k1)
       /\ val_total_chips chips_data x = inr (val chips)
       /\ val_high_chips chips_data x = inr (val high_chips)
       /\ val_low_chips chips_data x = inr (val low_chips)
       /\ (forall v, coeff (plus (val high_chips) (val low_chips)) v
                     == coeff (val chips) v)
       /\ (forall a, eval a (plus (val high_chips) (val low_chips))
                     == eval a (val chips))
       /\ (forall c, In c chips ->
                     coeff (val chips) (x_ c) == value chips_data c).
Proof.
  destruct NoDup_chips as [Hcs [Hh Hincl]].
  assert (Hlow : forall c, In c low_chips <-> In c chips /\ ~ In c high_chips).
  { intros c. unfold low_chips. rewrite filter_In, negb_true_iff.
    rewrite <- (contains_In high_chips c).
    destruct (contains high_chips c); intuition congruence. }
  split; [reflexivity|]. split; [exact Hlow|]. split.
  { intros c [H1 H2]. apply Hlow in H2. tauto. }
  split.
  { intros c. rewrite Hlow. split.
    - intros Hc. destruct (contains high_chips c) eqn:E.
      + left. apply contains_In, E.
      + right. split; [exact Hc|]. rewrite <- contains_In. congruence.
    - intros [Hc | [Hc _]]; [apply Hincl, Hc | exact Hc]. }
  split; [apply (partition_perm chips high_chips Hcs Hh Hincl)|].
  do 4 eexists. split; [cbv; reflexivity|].
  split; [cbv -[Qplus]; reflexivity|].
  split; [cbv -[Qplus]; reflexivity|].
  split; [cbv -[Qplus]; reflexivity|].
  destruct (split_sum (fun c => times (x_ c) (value chips_data c))
                      chips high_chips Hcs Hh Hincl) as [Hc He].
  split; [exact Hc|]. split; [exact He|].
  intros c Hc'. rewrite coeff_split. unfold coeff_terms, sumQ.
  each_of Hc'; cbv -[Qplus Qle Qeq value]; lra.
Qed.

Lemma until_logical_run (k : Kernel) :
  exists k1 : Kernel,
    until_logical on_hand chips_data recipes k = (inr (x_cols, y_cols), k1)
    /\ vars (model k1) = (x_attrs ++ y_attrs)%list
    /\ rows (model k1) = rows_logical.
Proof.
  eexists. split; [run_cells; reflexivity|].
  split; vm_compute; reflexivity.
Qed.

Lemma binary_cases (q : Q) : q == 0 \/ q == 1 -> 0 <= q <= 1.
Proof. intros [H|H]; rewrite H; split; lra. Qed.

(** C8.  After the cell of the logical constraints the model holds the row
    [at_most_one_high_value], [y_{five hundred} + y_{thousand} <= 1], and
    the row [exactly_one_high_value], [y_{five hundred} + y_{thousand} == 1].
    So every feasible assignment switches on exactly one of the two
    indicators: not both, not neither; and, through the big-M rows, it makes
    chips of at most one of the two types, never of both.  The rows are on
    the indicators: nothing makes a plan produce the type it switches on,
    and a plan may make neither. *)
Theorem exactly_one_high_value (k : Kernel) :
  exists k1 : Kernel,
    until_logical on_hand chips_data recipes k = (inr (x_cols, y_cols), k1)
    /\ x_cols.["five hundred"] = inr (x_ "five hundred")
    /\ x_cols.["thousand"] = inr (x_ "thousand")
    /\ y_cols.["five hundred"] = inr (y_ "five hundred")
    /\ y_cols.["thousand"] = inr (y_ "thousand")
    /\ In (mkRow 32 "at_most_one_high_value"
                 (Cmp (plus (of_var (y_ "five hundred"))
                            (of_var (y_ "thousand")))
                      LESS_EQUAL (number 1)))
          (rows (model k1))
    /\ In (mkRow 33 "exactly_one_high_value"
                 (Cmp (plus (of_var (y_ "five hundred"))
                            (of_var (y_ "thousand")))
                      EQUAL (number 1)))
          (rows (model k1))
    /\ forall a, feasible (model k1) a ->
         ((a (y_ "five hundred") == 1 /\ a (y_ "thousand") == 0)
          \/ (a (y_ "five hundred") == 0 /\ a (y_ "thousand") == 1))
         /\ ~ (a (y_ "five hundred") == 1 /\ a (y_ "thousand") == 1)
         /\ ~ (a (y_ "five hundred") == 0 /\ a (y_ "thousand") == 0)
         /\ ~ (0 < a (x_ "five hundred") /\ 0 < a (x_ "thousand")).
Proof.
  destruct (until_logical_run k) as [k1 [Hrun [Hv Hr]]].
  exists k1. split; [exact Hrun|].
  split; [reflexivity|]. split; [reflexivity|].
  split; [reflexivity|]. split; [reflexivity|].
  split; [rewrite Hr; vm_compute; tauto|].
  split; [rewrite Hr; vm_compute; tauto|].
  intros a [Hdom Hsat]. rewrite Hv in Hdom. rewrite Hr in Hsat.
  assert (Hy5 : a 12%nat == 0 \/ a 12%nat == 1).
  { destruct (Hdom 12%nat (mkVar "make[five hundred]" BINARY 0 (Some 1))
                   eq_refl) as [_ [_ B]]. exact B. }
  assert (Hy1 : a 13%nat == 0 \/ a 13%nat == 1).
  { destruct (Hdom 13%nat (mkVar "make[thousand]" BINARY 0 (Some 1))
                   eq_refl) as [_ [_ B]]. exact B. }
  unfold satisfies, rows_logical in Hsat.
  rewrite !Forall_app in Hsat.
  destruct Hsat as [_ [_ [Hlink Hlog]]].
  assert (Hex : holds a (Cmp high_pair EQUAL (number 1))).
  { rewrite Forall_forall in Hlog.
    apply (Hlog (mkRow 33 "exactly_one_high_value"
                       (Cmp high_pair EQUAL (number 1)))).
    simpl. tauto. }
  assert (Hl5 : holds a (linked "five hundred")).
  { rewrite Forall_forall in Hlink.
    apply (Hlink (mkRow 30 (indexed_name "link_x_y" "five hundred")
                        (linked "five hundred"))).
    simpl. tauto. }
  assert (Hl1 : holds a (linked "thousand")).
  { rewrite Forall_forall in Hlink.
    apply (Hlink (mkRow 31 (indexed_name "link_x_y" "thousand")
                        (linked "thousand"))).
    simpl. tauto. }
  unfold holds, high_pair, linked, eval, M in Hex, Hl5, Hl1.
  simpl in Hex, Hl5, Hl1. cols.
  split; [|split; [|split]].
  - destruct Hy5 as [E5|E5], Hy1 as [E1|E1].
    + exfalso. lra.
    + right. split; assumption.
    + left. split; assumption.
    + exfalso. lra.
  - intros [E5 E1]. lra.
  - intros [E5 E1]. lra.
  - intros [P5 P1]. destruct Hy5 as [E5|E5], Hy1 as [E1|E1]; lra.
Qed.

Lemma first_stage_run (k : Kernel) :
  exists k1 : Kernel,
    first_stage on_hand chips_data recipes k = (inr stage, k1)
    /\ model k1 = set_solution stage1_model (solver k stage1_model)
    /\ solved k1 = (solved k ++ [stage1_model])%list
    /\ solver k1 = solver k
    /\ float_str k1 = float_str k.
Proof.
  eexists. split; [run_cells; reflexivity|].
  repeat split; vm_compute; reflexivity.
Qed.

Lemma second_stage_run (k1 : Kernel) (s : Solution) :
  model k1 = set_solution stage1_model (Some s) ->
  exists k2 : Kernel,
    second_stage stage k1 = (inr (ObjVal s, 19%nat), k2)
    /\ model k2 = set_solution (stage2_model s) (solver k1 (stage2_model s))
    /\ solved k2 = (solved k1 ++ [stage2_model s])%list.
Proof.
  intros Hm. destruct k1 as [sv fs m out sd]. simpl in Hm. subst m.
  eexists. split; [run_cells; reflexivity|].
  split; cbv -[SF2Q fmul literal float_of_int Qplus Qmult]; reflexivity.
Qed.

Lemma is_integer_plus (p q : Q) :
  is_integer p -> is_integer q -> is_integer (p + q).
Proof.
  intros [zp Hp] [zq Hq]. exists (zp + zq)%Z.
  rewrite Hp, Hq, inject_Z_plus. reflexivity.
Qed.

Lemma x_integer (a : assignment) (v : Var) :
  respects a (x_attrs ++ y_attrs) -> (v < 7)%nat -> is_integer (a v).
Proof.
  intros Hdom Hv.
  assert (E : exists name, nth_error (x_attrs ++ y_attrs) v
                           = Some (mkVar name INTEGER 0 None)).
  { do 7 (destruct v as [|v]; [eexists; reflexivity|]). lia. }
  destruct E as [name E]. destruct (Hdom v _ E) as [_ [_ Hi]]. exact Hi.
Qed.

Lemma eval_total (a : assignment) :
  eval a total == a 0%nat + a 1%nat + a 2%nat + a 3%nat + a 4%nat + a 5%nat
                  + a 6%nat.
Proof.
  unfold total. rewrite eval_quicksum. unfold eval, sumQ. simpl. cols. lra.
Qed.

Lemma eval_val (a : assignment) :
  eval a (val chips)
  == value chips_data "one" * a 0%nat + value chips_data "five" * a 1%nat
     + value chips_data "ten" * a 2%nat
     + value chips_data "twenty-five" * a 3%nat
     + value chips_data "one hundred" * a 4%nat
     + value chips_data "five hundred" * a 5%nat
     + value chips_data "thousand" * a 6%nat.
Proof.
  unfold MoreRealisticSpec.val. rewrite eval_quicksum.
  unfold eval, sumQ. simpl. cols. lra.
Qed.

(** The number of chips of a plan is an integer. *)
Lemma total_integer (a : assignment) :
  respects a (x_attrs ++ y_attrs) -> is_integer (eval a total).
Proof.
  intros Hdom.
  destruct (is_integer_plus _ _
       (is_integer_plus _ _
         (is_integer_plus _ _
           (is_integer_plus _ _
             (is_integer_plus _ _
               (is_integer_plus _ _
                  (x_integer a 0%nat Hdom ltac:(lia))
                  (x_integer a 1%nat Hdom ltac:(lia)))
               (x_integer a 2%nat Hdom ltac:(lia)))
             (x_integer a 3%nat Hdom ltac:(lia)))
           (x_integer a 4%nat Hdom ltac:(lia)))
         (x_integer a 5%nat Hdom ltac:(lia)))
       (x_integer a 6%nat Hdom ltac:(lia))) as [t Ht].
  exists t. rewrite eval_total. exact Ht.
Qed.

(** C2.  The hierarchical procedure solves twice.  The first model
    maximizes the number of chips [Sum_c x_c]; the second is the first with
    one more row, [Sum_c x_c >= 0.9 * z] for the objective value [z] the
    first solve reported, and with the value of the chips
    [Sum_c v_c * x_c] as the objective to maximize.  With [z] the float of
    an integer count [n] (any count up to [checked_range]), the product
    [0.9 * z] of binary64 numbers has the same integers at or above it as
    nine tenths of [n], so that the assignments feasible for the second
    model are exactly those feasible for the first that make at least nine
    tenths of [n] chips. *)
Theorem second_stage_keeps_90_percent (k : Kernel) (s : Solution) (n : Z) :
  solver k stage1_model = Some s ->
  ObjVal s = float_of_int n ->
  (0 <= n <= checked_range)%Z ->
  exists (k1 k2 : Kernel) (c : Constr),
    first_stage on_hand chips_data recipes k = (inr stage, k1)
    /\ second_stage stage k1 = (inr (ObjVal s, c), k2)
    /\ solved k2 = (solved k ++ [stage1_model; stage2_model s])%list
    /\ objective stage1_model = s_total_chips stage
    /\ sense stage1_model = MAXIMIZE
    /\ (forall a, eval a (s_total_chips stage)
                  == a (x_ "one") + a (x_ "five") + a (x_ "ten")
                     + a (x_ "twenty-five") + a (x_ "one hundred")
                     + a (x_ "five hundred") + a (x_ "thousand"))
    /\ vars (stage2_model s) = vars stage1_model
    /\ rows (stage2_model s)
       = (rows stage1_model
          ++ [mkRow c "R19"
                (Cmp (s_total_chips stage) GREATER_EQUAL
                     (number (SF2Q (fmul (literal 9 10) (ObjVal s)))))])%list
    /\ Qceiling (SF2Q (fmul (literal 9 10) (ObjVal s))) = ((9 * n + 9) / 10)%Z
    /\ (forall a, respects a (vars (stage2_model s)) ->
          (holds a (Cmp (s_total_chips stage) GREATER_EQUAL
                        (number (SF2Q (fmul (literal 9 10) (ObjVal s)))))
           <-> (9 # 10) * inject_Z n <= eval a (s_total_chips stage)))
    /\ objective (stage2_model s) = s_val_total_chips stage
    /\ sense (stage2_model s) = MAXIMIZE
    /\ (forall a, eval a (s_val_total_chips stage)
                  == value chips_data "one" * a (x_ "one")
                     + value chips_data "five" * a (x_ "five")
                     + value chips_data "ten" * a (x_ "ten")
                     + value chips_data "twenty-five" * a (x_ "twenty-five")
                     + value chips_data "one hundred" * a (x_ "one hundred")
                     + value chips_data "five hundred"
                       * a (x_ "five hundred")
                     + value chips_data "thousand" * a (x_ "thousand"))
    /\ forall a, feasible (stage2_model s) a
                 <-> feasible stage1_model a
                     /\ (9 # 10) * inject_Z n <= eval a (s_total_chips stage).
Proof.
  intros Hs Hz Hn.
  destruct (first_stage_run k) as [k1 [Hrun1 [Hm1 [Hsd1 [Hsv1 _]]]]].
  rewrite Hs in Hm1.
  destruct (second_stage_run k1 s Hm1) as [k2 [Hrun2 [Hm2 Hsd2]]].
  assert (Hrow : forall a, respects a (x_attrs ++ y_attrs) ->
            (holds a (multi_obj (ObjVal s))
             <-> (9 # 10) * inject_Z n <= eval a total)).
  { intros a Hdom. destruct (total_integer a Hdom) as [t Ht].
    unfold multi_obj, holds. rewrite Ht, Hz.
    unfold eval at 1. cbn [terms constant number fold_left].
    apply float_bound_keeps_90, Hn. }
  exists k1, k2, 19%nat.
  split; [exact Hrun1|]. split; [exact Hrun2|].
  split; [rewrite Hsd2, Hsd1, <- app_assoc; reflexivity|].
  split; [reflexivity|]. split; [reflexivity|].
  split; [intros a; cols; apply eval_total|].
  split; [reflexivity|]. split; [reflexivity|].
  split; [rewrite Hz; apply float_bound_ceiling, Hn|].
  split; [exact Hrow|].
  split; [reflexivity|]. split; [reflexivity|].
  split; [intros a; cols; apply eval_val|].
  intros a. change (s_total_chips stage) with total.
  unfold feasible.
  change (vars (stage2_model s)) with (x_attrs ++ y_attrs)%list.
  change (vars stage1_model) with (x_attrs ++ y_attrs)%list.
  change (rows (stage2_model s))
    with (rows_stage1 ++ [mkRow 19 "R19" (multi_obj (ObjVal s))])%list.
  change (rows stage1_model) with rows_stage1.
  unfold satisfies. rewrite Forall_app.
  split.
  - intros [Hdom [Hsat Hnew]]. apply Forall_inv in Hnew.
    split; [split; assumption|]. apply (Hrow a Hdom). exact Hnew.
  - intros [[Hdom Hsat] Hb]. split; [exact Hdom|]. split; [exact Hsat|].
    constructor; [|constructor]. apply (Hrow a Hdom). exact Hb.
Qed.


End Facts.

(** For counts such as 7 the product [0.9 * n] rounds below nine tenths of
    [n]: the bound of the second stage is kept because the total is an
    integer. *)
Example rounded_bound_below :
  SF2Q (fmul (literal 9 10) (float_of_int 7)) < (9 # 10) * inject_Z 7.
Proof. vm_compute. reflexivity. Qed.

(** ** The facts on the example data *)

Lemma clay_data :
  (forall c, In c chips -> 10 <= CasinoChipsSpec.r_ c "clay")
  /\ CasinoChipsSpec.q_ "clay" <= 5000.
Proof.
  split.
  - intros c Hc. each_of Hc; vm_compute; discriminate.
  - vm_compute. discriminate.
Qed.

(** With the recipes of the first notebook no feasible plan makes more than
    500 thousand-dollar chips. *)
Lemma link_x_y_big_M_witness :
  (forall c, In c chips -> 10 <= CasinoChipsSpec.r_ c "clay")
  /\ CasinoChipsSpec.q_ "clay" <= 5000
  /\ forall a, (forall v, 0 <= a v) ->
        holds a (usage CasinoChipsSpec.q_ CasinoChipsSpec.r_ "clay") ->
        a (x_ "thousand") <= 500.
Proof.
  destruct clay_data as [H1 H2].
  split; [exact H1|]. split; [exact H2|].
  destruct (link_x_y_big_M CasinoChipsSpec.q_ Examples.chips_data
              CasinoChipsSpec.r_ (Examples.kernel Examples.no_solution)
              H1 H2) as [k1 [_ [_ [_ Hall]]]].
  destruct (Hall "thousand" ltac:(simpl; tauto))
    as [hc [_ [_ [_ [_ [_ [_ Hbound]]]]]]].
  intros a Hpos Hu. exact (proj1 (Hbound a Hpos Hu)).
Defined.

(** The idle assignment is feasible after the logical constraints, and it
    switches on the five hundred alone. *)
Lemma exactly_one_high_value_witness :
  feasible (model (snd (until_logical CasinoChipsSpec.q_ Examples.chips_data
                          CasinoChipsSpec.r_
                          (Examples.kernel Examples.no_solution))))
           Examples.idle
  /\ Examples.idle (y_ "five hundred") == 1
  /\ Examples.idle (y_ "thousand") == 0.
Proof.
  assert (F : feasible (model (snd (until_logical CasinoChipsSpec.q_
                         Examples.chips_data CasinoChipsSpec.r_
                         (Examples.kernel Examples.no_solution))))
                       Examples.idle)
    by (apply feasibleb_sound; vm_compute; reflexivity).
  split; [exact F|].
  destruct (exactly_one_high_value CasinoChipsSpec.q_ Examples.chips_data
              CasinoChipsSpec.r_ (Examples.kernel Examples.no_solution))
    as [k1 [Hrun [_ [_ [_ [_ [_ [_ Hall]]]]]]]].
  rewrite Hrun in F. simpl snd in F.
  destruct (Hall Examples.idle F) as [[[E1 E2]|[E1 E2]] _].
  - split; assumption.
  - exfalso. vm_compute in E1. discriminate E1.
Defined.

(** The recorded first stage, 367 chips: the bound of the second stage is
    [0.9 * 367.0], with 331 the least integer at or above it, and the plans
    of the second stage are those of the first that make 331 chips or
    more. *)
Lemma second_stage_keeps_90_percent_witness :
  solver (Examples.kernel (fun _ => Some Examples.recorded_stage1))
         (stage1_model CasinoChipsSpec.q_ Examples.chips_data
                       CasinoChipsSpec.r_)
  = Some Examples.recorded_stage1
  /\ ObjVal Examples.recorded_stage1 = float_of_int 367
  /\ (0 <= 367 <= checked_range)%Z
  /\ Qceiling (SF2Q (fmul (literal 9 10) (ObjVal Examples.recorded_stage1)))
     = 331%Z
  /\ forall a,
       feasible (stage2_model CasinoChipsSpec.q_ Examples.chips_data
                              CasinoChipsSpec.r_ Examples.recorded_stage1) a
       <-> feasible (stage1_model CasinoChipsSpec.q_ Examples.chips_data
                                  CasinoChipsSpec.r_) a
           /\ (9 # 10) * inject_Z 367 <= eval a total.
Proof.
  assert (H3 : (0 <= 367 <= checked_range)%Z) by (unfold checked_range; lia).
  split; [reflexivity|]. split; [reflexivity|]. split; [exact H3|].
  destruct (second_stage_keeps_90_percent CasinoChipsSpec.q_
              Examples.chips_data CasinoChipsSpec.r_
              (Examples.kernel (fun _ => Some Examples.recorded_stage1))
              Examples.recorded_stage1 367 eq_refl eq_refl H3)
    as [k1 [k2 [c [_ [_ [_ [_ [_ [_ [_ [_ [Hc [_ [_ [_ [_ Hall]]]]]]]]]]]]]]]].
  split; [exact Hc | exact Hall].
Defined.

(** The plan that makes no chip and switches on the one, the five and the
    five hundred is feasible after the cell of the logical constraints, and
    it makes neither the five hundred nor the thousand: it is not so that
    every feasible plan makes exactly one of the two. *)
Lemma high_value_neither_made :
  feasible (model (snd (until_logical CasinoChipsSpec.q_ Examples.chips_data
                          CasinoChipsSpec.r_
                          (Examples.kernel Examples.no_solution))))
           Examples.idle
  /\ made Examples.idle ["five hundred"; "thousand"] = []
  /\ ~ (forall a,
          feasible (model (snd (until_logical CasinoChipsSpec.q_
                                  Examples.chips_data CasinoChipsSpec.r_
                                  (Examples.kernel Examples.no_solution)))) a ->
          List.length (made a ["five hundred"; "thousand"]) = 1%nat).
Proof.
  assert (F : feasible (model (snd (until_logical CasinoChipsSpec.q_
                         Examples.chips_data CasinoChipsSpec.r_
                         (Examples.kernel Examples.no_solution))))
                       Examples.idle)
    by (apply feasibleb_sound; vm_compute; reflexivity).
  split; [exact F|]. split; [reflexivity|].
  intros H. specialize (H Examples.idle F). vm_compute in H. discriminate H.
Qed.

End MoreRealisticFacts.

(* ================================================================== *)
(** * The data cells                                                   *)
(* ================================================================== *)

Module DataFilesFacts.
Import DataFiles.

Lemma for_in_positions (cols : list string) (hd : list string) (ixs : list nat) :
  Forall2 (fun c i => position c hd = Some i) cols ixs ->
  for_in cols (fun c => match position c hd with
                        | Some i => ret i
                        | None => raise (ValueError c)
                        end) = inr ixs.
Proof.
  induction 1 as [|c i cols ixs Hc _ IH]; simpl.
  - reflexivity.
  - rewrite Hc. simpl. rewrite IH. reflexivity.
Qed.

(** The position of a name is that of its first occurrence. *)
Lemma position_first (name : string) (cols : list string) :
  forall i, position name cols = Some i ->
            (i < List.length cols)%nat /\ field i cols = name
            /\ forall j, (j < i)%nat -> field j cols <> name.
Proof.
  induction cols as [|c cols IH]; intros i H; simpl in H.
  - discriminate H.
  - destruct (String.eqb_spec name c) as [E|E].
    + injection H as <-. split; [simpl; lia|]. split; [symmetry; exact E|].
      intros j Hj. lia.
    + destruct (position name cols) as [i0|]; [|discriminate H].
      injection H as <-. destruct (IH i0 eq_refl) as [H1 [H2 H3]].
      split; [simpl; lia|]. split; [exact H2|].
      intros [|j] Hj; [unfold field; simpl; congruence|]. apply H3. lia.
Qed.

Lemma read_csv_ok (fs : FileSystem) (path : string) (cols : list string)
  (f : CSV) (ixs : list nat) :
  fs path = Some f ->
  header f <> [] ->
  Forall2 (fun c i => position c (header f) = Some i) cols ixs ->
  read_csv fs path cols
  = inr (mkDataFrame
           (map (fun r => map (fun i => field i r) ixs) (records f))
           (map (fun j => field j (header f))
                (others (List.length (header f)) ixs))
           (map (fun r => map (fun j => field j r)
                              (others (List.length (header f)) ixs))
                (records f))).
Proof.
  intros Hf Hh Hp. unfold read_csv. rewrite Hf.
  destruct (header f) as [|c hd] eqn:E; [congruence|].
  rewrite (for_in_positions cols (c :: hd) ixs Hp). reflexivity.
Qed.


Lemma position_header (name : string) (f : CSV) (i : nat) :
  position name (header f) = Some i -> header f <> [].
Proof. intros H E. rewrite E in H. discriminate H. Qed.

(** The columns that are not the index, for one index column. *)
Lemma others_one (n i : nat) :
  (i < n)%nat -> others n [i] = (seq 0 i ++ seq (S i) (n - S i))%list.
Proof.
  intros Hi. unfold others.
  replace n with (i + S (n - S i))%nat at 1 by lia.
  rewrite seq_app, filter_app. cbn [seq filter existsb Nat.add].
  rewrite Nat.eqb_refl. cbn [orb negb].
  f_equal.
  - apply forallb_filter_id. apply forallb_forall. intros j Hj.
    apply in_seq in Hj. destruct (Nat.eqb_spec j i); [lia | reflexivity].
  - apply forallb_filter_id. apply forallb_forall. intros j Hj.
    apply in_seq in Hj. destruct (Nat.eqb_spec j i); [lia | reflexivity].
Qed.

Lemma skipn_nth {A} (d : A) (l : list A) :
  forall a, (a < List.length l)%nat -> skipn a l = nth a l d :: skipn (S a) l.
Proof.
  induction l as [|x l IH]; intros a Ha; simpl in Ha.
  - lia.
  - destruct a as [|a]; [reflexivity|]. simpl. apply IH. lia.
Qed.

Lemma fields_seq (r : list string) (b : nat) :
  forall a, (a + b <= List.length r)%nat ->
            map (fun j => field j r) (seq a b) = firstn b (skipn a r).
Proof.
  induction b as [|b IH]; intros a H.
  - reflexivity.
  - cbn [seq map]. rewrite (skipn_nth EmptyString r a) by lia.
    cbn [firstn]. unfold field at 1. f_equal. apply IH. lia.
Qed.

Lemma fields_without (r : list string) (i : nat) :
  (i < List.length r)%nat ->
  map (fun j => field j r)
      (seq 0 i ++ seq (S i) (List.length r - S i))%list
  = without i r.
Proof.
  intros Hi. unfold without. rewrite map_app, !fields_seq by lia.
  change (skipn 0 r) with r. f_equal.
  apply firstn_all2. rewrite length_skipn. lia.
Qed.





Lemma well_formed_records (f : CSV) (r : list string) :
  well_formed f = true -> In r (records f) ->
  List.length r = List.length (header f).
Proof.
  unfold well_formed. intros H Hr.
  apply andb_true_iff in H. destruct H as [_ H].
  rewrite forallb_forall in H. apply Nat.eqb_eq. apply H, Hr.
Qed.




Lemma length_without {A} (i : nat) (l : list A) :
  (i < List.length l)%nat ->
  List.length (without i l) = (List.length l - 1)%nat.
Proof.
  intros H. unfold without. rewrite length_app, length_firstn, length_skipn.
  lia.
Qed.

(** What [read_csv] makes of a file with one index column. *)
Lemma read_csv_one (fs : FileSystem) (path : string) (c : string) (f : CSV)
  (i : nat) :
  fs path = Some f ->
  well_formed f = true ->
  position c (header f) = Some i ->
  read_csv fs path [c]
  = inr (mkDataFrame (map (fun r => [field i r]) (records f))
                     (without i (header f))
                     (map (without i) (records f))).
Proof.
  intros Hf Hw Hp.
  destruct (position_first _ _ _ Hp) as [Hi _].
  rewrite (read_csv_ok fs path [c] f [i] Hf (position_header _ _ _ Hp))
    by (repeat constructor; exact Hp).
  rewrite (others_one _ _ Hi), (fields_without (header f) i Hi).
  do 2 f_equal. apply map_ext_in. intros r Hr.
  rewrite <- (well_formed_records f r Hw Hr).
  apply fields_without. rewrite (well_formed_records f r Hw Hr). exact Hi.
Qed.








End DataFilesFacts.

(* ================================================================== *)
(** * The modelling calls: columns, rows and handles                   *)
(* ================================================================== *)

Module ModelFacts.

Lemma addVars_from_keys (ks : list string) :
  forall n vt name, keys (fst (addVars_from n ks vt name)) = ks.
Proof.
  induction ks as [|k ks IH]; intros n vt name; simpl.
  - reflexivity.
  - unfold keys in *. simpl. rewrite IH. reflexivity.
Qed.

Lemma addVars_from_length (ks : list string) :
  forall n vt name,
    List.length (snd (addVars_from n ks vt name)) = List.length ks.
Proof.
  induction ks as [|k ks IH]; intros n vt name; simpl.
  - reflexivity.
  - rewrite IH. reflexivity.
Qed.

Lemma addVars_from_lookup (ks : list string) :
  forall n vt name k,
    In k ks ->
    exists i : nat,
      (fst (addVars_from n ks vt name)).[k] = inr (n + i)%nat
      /\ nth_error (snd (addVars_from n ks vt name)) i
         = Some (mkVar (indexed_name name k) vt 0 (default_ub vt)).
Proof.
  induction ks as [|k0 ks IH]; intros n vt name k Hin.
  - contradiction Hin.
  - simpl. destruct (String.eqb_spec k k0) as [E|E].
    + subst k0. exists 0%nat. rewrite Nat.add_0_r. split; reflexivity.
    + destruct Hin as [Hin|Hin]; [congruence|].
      destruct (IH (S n) vt name k Hin) as [i [Hi Hn]].
      exists (S i). split.
      * rewrite Hi. f_equal. lia.
      * exact Hn.
Qed.

Lemma addVars_from_missing (ks : list string) :
  forall n vt name k,
    ~ In k ks -> (fst (addVars_from n ks vt name)).[k] = inl (KeyError k).
Proof.
  induction ks as [|k0 ks IH]; intros n vt name k Hin; simpl.
  - reflexivity.
  - destruct (String.eqb_spec k k0) as [E|E].
    + exfalso. apply Hin. left. congruence.
    + apply IH. intros H. apply Hin. right. exact H.
Qed.

Lemma addVars_from_columns (ks : list string) :
  forall n vt name k v,
    (fst (addVars_from n ks vt name)).[k] = inr v ->
    In k ks /\ (n <= v < n + List.length ks)%nat.
Proof.
  induction ks as [|k0 ks IH]; intros n vt name k v H; simpl in H.
  - discriminate H.
  - destruct (String.eqb_spec k k0) as [E|E].
    + injection H as <-. split; [left; congruence | simpl; lia].
    + destruct (IH _ _ _ _ _ H) as [Hin Hv].
      split; [right; exact Hin | simpl; lia].
Qed.

Lemma addVars_from_injective (ks : list string) :
  forall n vt name k1 k2 v,
    (fst (addVars_from n ks vt name)).[k1] = inr v ->
    (fst (addVars_from n ks vt name)).[k2] = inr v ->
    k1 = k2.
Proof.
  induction ks as [|k0 ks IH]; intros n vt name k1 k2 v H1 H2;
    simpl in H1, H2.
  - discriminate H1.
  - destruct (String.eqb_spec k1 k0) as [E1|E1];
      destruct (String.eqb_spec k2 k0) as [E2|E2].
    + congruence.
    + injection H1 as <-.
      apply addVars_from_columns in H2. lia.
    + injection H2 as <-.
      apply addVars_from_columns in H1. lia.
    + exact (IH _ _ _ _ _ _ H1 H2).
Qed.

(** X1.  [x = model.addVars(keys, vtype=vt, name=name)] for keys that are
    distinct, and then [x[k]]: every key is looked up to a column of its
    own, new in the model, that carries the name [name[k]], the type asked
    for, the lower bound 0 and the default upper bound; a key that was not
    given raises [KeyError]; the columns, rows and objective the model had
    stay as they were. *)
Theorem addVars_lookup (ks : list string) (vt : VType) (name : string)
  (m : Model) :
  NoDup ks ->
  let x := fst (addVars ks vt name m) in
  let m' := snd (addVars ks vt name m) in
  keys x = ks
  /\ List.length (vars m') = (List.length (vars m) + List.length ks)%nat
  /\ (forall k, In k ks ->
        exists v : Var,
          x.[k] = inr v
          /\ (List.length (vars m) <= v < List.length (vars m'))%nat
          /\ nth_error (vars m') v
             = Some (mkVar (indexed_name name k) vt 0 (default_ub vt)))
  /\ (forall k, ~ In k ks -> x.[k] = inl (KeyError k))
  /\ (forall k1 k2 v, x.[k1] = inr v -> x.[k2] = inr v -> k1 = k2)
  /\ (forall v, (v < List.length (vars m))%nat ->
        nth_error (vars m') v = nth_error (vars m) v)
  /\ rows m' = rows m /\ fresh m' = fresh m
  /\ objective m' = objective m /\ sense m' = sense m.
Proof.
  intros _ x m'. subst x m'. unfold addVars. simpl.
  split; [apply addVars_from_keys|].
  split; [rewrite length_app, addVars_from_length; reflexivity|].
  split.
  { intros k Hin.
    destruct (addVars_from_lookup ks (List.length (vars m)) vt name k Hin)
      as [i [Hi Hn]].
    exists (List.length (vars m) + i)%nat. split; [exact Hi|].
    assert (Hlt : (i < List.length ks)%nat).
    { rewrite <- (addVars_from_length ks (List.length (vars m)) vt name).
      apply nth_error_Some. congruence. }
    split.
    - rewrite length_app, addVars_from_length. lia.
    - rewrite nth_error_app2 by lia.
      replace (List.length (vars m) + i - List.length (vars m))%nat with i
        by lia.
      exact Hn. }
  split; [intros k Hk; apply addVars_from_missing, Hk|].
  split; [apply addVars_from_injective|].
  split; [intros v Hv; apply nth_error_app1, Hv|].
  repeat split.
Qed.

(** The columns of the seven chips in a new model: the ten is the third,
    and there is no fifty. *)
Lemma addVars_lookup_witness :
  NoDup MoreRealistic.chips
  /\ (exists v : Var,
        (fst (addVars MoreRealistic.chips INTEGER "chips"
                      (Model_new "Poker Chips"))).["ten"] = inr v
        /\ (0 <= v < 7)%nat
        /\ nth_error (vars (snd (addVars MoreRealistic.chips INTEGER "chips"
                                         (Model_new "Poker Chips")))) v
           = Some (mkVar "chips[ten]" INTEGER 0 None))
  /\ (fst (addVars MoreRealistic.chips INTEGER "chips"
                   (Model_new "Poker Chips"))).["fifty"]
     = inl (KeyError "fifty").
Proof.
  pose proof (proj1 MoreRealisticFacts.NoDup_chips) as Hnd.
  destruct (addVars_lookup MoreRealistic.chips INTEGER "chips"
                           (Model_new "Poker Chips") Hnd)
    as [_ [_ [Hin [Hout _]]]].
  split; [exact Hnd|]. split.
  - destruct (Hin "ten" ltac:(simpl; tauto)) as [v [Hv [Hb Hn]]].
    exists v. split; [exact Hv|]. split; [exact Hb | exact Hn].
  - apply Hout. simpl. intuition discriminate.
Defined.

Lemma family_length (ks : list string) :
  forall h name f, List.length (family h name ks f) = List.length ks.
Proof.
  induction ks as [|k ks IH]; intros h name f; simpl;
    [reflexivity | rewrite IH; reflexivity].
Qed.


Lemma with_rows_app (k : Kernel) (rs1 rs2 : list Row) :
  with_rows (with_rows k rs1) rs2 = with_rows k (rs1 ++ rs2).
Proof.
  unfold with_rows. simpl. rewrite <- app_assoc, length_app, Nat.add_assoc.
  reflexivity.
Qed.





Lemma well_numbered_new (name : string) : well_numbered (Model_new name).
Proof. split; simpl; constructor. Qed.

Lemma well_numbered_addConstr (tc : TempConstr) (name : string) (m : Model) :
  well_numbered m -> well_numbered (snd (addConstr tc name m)).
Proof.
  intros [Hn Hf]. unfold well_numbered, addConstr. simpl. split.
  - rewrite map_app. simpl.
    apply NoDup_app; [exact Hn | repeat constructor; simpl; tauto |].
    intros h Hh [E|[]]. subst h.
    apply in_map_iff in Hh. destruct Hh as [r [Er Hr]].
    rewrite Forall_forall in Hf. specialize (Hf r Hr). lia.
  - apply Forall_app. split.
    + eapply Forall_impl; [|exact Hf]. simpl. intros r Hr. lia.
    + repeat constructor.
Qed.

Lemma well_numbered_remove (hs : list Constr) (m : Model) :
  well_numbered m -> well_numbered (remove hs m).
Proof.
  intros [Hn Hf]. unfold well_numbered, remove. simpl. split.
  - clear Hf. induction (rows m) as [|r rs IH]; simpl.
    + constructor.
    + inversion Hn as [|h hs' Hnot Hrest]; subst.
      destruct (negb (existsb (Nat.eqb (handle r)) hs)); simpl.
      * constructor; [|apply IH, Hrest].
        intros Hin. apply Hnot. apply in_map_iff in Hin.
        destruct Hin as [r' [E Hr']]. apply filter_In in Hr'.
        apply in_map_iff. exists r'. tauto.
      * apply IH, Hrest.
  - rewrite Forall_forall in *. intros r Hr. apply filter_In in Hr.
    apply Hf, Hr.
Qed.

Lemma well_numbered_addVars (ks : list string) (vt : VType) (name : string)
  (m : Model) :
  well_numbered m -> well_numbered (snd (addVars ks vt name m)).
Proof. intros H. exact H. Qed.

Lemma well_numbered_setObjective (e : LinExpr) (s : ModelSense) (m : Model) :
  well_numbered m -> well_numbered (setObjective e s m).
Proof. intros H. exact H. Qed.

Lemma remove_keeps (hs : list Constr) (rs : list Row) :
  (forall r, In r rs -> ~ In (handle r) hs) ->
  filter (fun r => negb (existsb (Nat.eqb (handle r)) hs)) rs = rs.
Proof.
  induction rs as [|r rs IH]; intros H; simpl.
  - reflexivity.
  - destruct (existsb (Nat.eqb (handle r)) hs) eqn:E; simpl.
    + exfalso. apply existsb_exists in E. destruct E as [h [Hh He]].
      apply Nat.eqb_eq in He. subst h.
      exact (H r (or_introl eq_refl) Hh).
    + rewrite IH; [reflexivity|].
      intros r' Hr'. apply H. right. exact Hr'.
Qed.

Lemma remove_drops (hs : list Constr) (rs : list Row) :
  (forall r, In r rs -> In (handle r) hs) ->
  filter (fun r => negb (existsb (Nat.eqb (handle r)) hs)) rs = [].
Proof.
  induction rs as [|r rs IH]; intros H; simpl.
  - reflexivity.
  - assert (E : existsb (Nat.eqb (handle r)) hs = true).
    { apply existsb_exists. exists (handle r).
      split; [apply H; left; reflexivity | apply Nat.eqb_refl]. }
    rewrite E. simpl. apply IH. intros r' Hr'. apply H. right. exact Hr'.
Qed.

Lemma feasible_addConstr (tc : TempConstr) (name : string) (m : Model)
  (a : assignment) :
  feasible (snd (addConstr tc name m)) a <-> feasible m a /\ holds a tc.
Proof.
  unfold feasible, satisfies, addConstr. simpl. rewrite Forall_app.
  split.
  - intros [Hv [Hr Hn]]. apply Forall_inv in Hn. tauto.
  - intros [[Hv Hr] Hn]. split; [exact Hv|]. split; [exact Hr|].
    constructor; [exact Hn | constructor].
Qed.

Lemma feasible_parts (m : Model) (a : assignment) (vs : list VarAttr)
  (rs : list Row) :
  vars m = vs -> rows m = rs ->
  (feasible m a <-> respects a vs /\ satisfies a rs).
Proof. intros <- <-. reflexivity. Qed.

Lemma eval_scale (a : assignment) (c : Q) (e : LinExpr) :
  eval a (scale c e) == c * eval a e.
Proof.
  rewrite !eval_split. unfold scale, eval_terms. cbn [terms constant].
  rewrite map_map. cbn [fst snd].
  induction (terms e) as [|t ts IH]; cbn [map sumQ fold_right].
  - unfold sumQ. simpl. lra.
  - unfold sumQ in *. cbn [map fold_right].
    assert (E : c * (fst t * a (snd t)
                     + fold_right Qplus 0
                         (map (fun t0 : Q * Var => fst t0 * a (snd t0)) ts)
                     + constant e)
                == c * fst t * a (snd t)
                   + c * (fold_right Qplus 0
                            (map (fun t0 : Q * Var => fst t0 * a (snd t0)) ts)
                          + constant e)) by lra.
    rewrite E, <- IH. lra.
Qed.

Lemma eval_of_var (a : assignment) (v : Var) : eval a (of_var v) == a v.
Proof. unfold eval. simpl. lra. Qed.

Lemma eval_number (a : assignment) (q : Q) : eval a (number q) == q.
Proof. unfold eval. simpl. lra. Qed.

Lemma eval_times (a : assignment) (v : Var) (c : Q) :
  eval a (times v c) == c * a v.
Proof. unfold eval. simpl. lra. Qed.

Lemma cbind_cbind {A B C} (c : Cell A) (f : A -> Cell B) (g : B -> Cell C)
  (k : Kernel) :
  cbind (cbind c f) g k = cbind c (fun a => cbind (f a) g) k.
Proof. unfold cbind. destruct (c k) as [[e|a] k']; reflexivity. Qed.

Lemma cbind_cret {A B} (a : A) (f : A -> Cell B) (k : Kernel) :
  cbind (cret a) f k = f a k.
Proof. reflexivity. Qed.

Lemma shape_parts (m : Model) vs rs fr ob se :
  shape m = (vs, rs, fr, (ob, se)) ->
  vars m = vs /\ rows m = rs /\ fresh m = fr /\ objective m = ob
  /\ sense m = se.
Proof.
  unfold shape. intros H. injection H as <- <- <- <- <-. repeat split.
Qed.

Lemma feasible_remove (hs : list Constr) (m : Model) (a : assignment) :
  feasible m a -> feasible (remove hs m) a.
Proof.
  unfold feasible, satisfies, remove. simpl. intros [Hv Hr].
  split; [exact Hv|]. rewrite Forall_forall in *.
  intros r Hin. apply filter_In in Hin. apply Hr, Hin.
Qed.

(** X3.  The handles of the rows stay in order under every call that changes a
    model -- a new model has no row, [addConstr] hands out the next handle,
    [remove], [addVars] and [setObjective] hand out none -- so that
    [model.remove(c)] right after [c = model.addConstr(...)] takes out the
    new row and no other: the rows, the columns, the objective and the
    feasible assignments are those before the two calls. *)
Theorem add_then_remove (m : Model) :
  well_numbered m ->
  (forall tc name, well_numbered (snd (addConstr tc name m)))
  /\ (forall hs, well_numbered (remove hs m))
  /\ (forall ks vt name, well_numbered (snd (addVars ks vt name m)))
  /\ (forall e s, well_numbered (setObjective e s m))
  /\ forall tc name,
       let c := fst (addConstr tc name m) in
       let m' := remove [c] (snd (addConstr tc name m)) in
       rows m' = rows m /\ vars m' = vars m
       /\ objective m' = objective m /\ sense m' = sense m
       /\ fresh m' = S (fresh m)
       /\ (forall a, feasible m' a <-> feasible m a).
Proof.
  intros Hwn.
  split; [intros; apply well_numbered_addConstr, Hwn|].
  split; [intros; apply well_numbered_remove, Hwn|].
  split; [intros; apply well_numbered_addVars, Hwn|].
  split; [intros; apply well_numbered_setObjective, Hwn|].
  intros tc name c m'.
  assert (Hrows : rows m' = rows m).
  { subst m' c. unfold remove, addConstr. cbn [rows snd fst].
    rewrite filter_app, (remove_keeps [fresh m] (rows m)).
    - simpl. rewrite Nat.eqb_refl. simpl. apply app_nil_r.
    - intros r Hr [E|[]]. destruct Hwn as [_ Hf].
      rewrite Forall_forall in Hf. specialize (Hf r Hr). lia. }
  split; [exact Hrows|]. split; [reflexivity|]. split; [reflexivity|].
  split; [reflexivity|]. split; [reflexivity|].
  intros a. unfold feasible. rewrite Hrows. reflexivity.
Qed.

(** The model that the cells of the first notebook build has twelve rows,
    numbered in order. *)
Lemma well_numbered_built : well_numbered Examples.built.
Proof.
  split.
  - vm_compute. repeat (constructor; [simpl; lia|]). constructor.
  - vm_compute. repeat (constructor; [lia|]). constructor.
Qed.

(** Adding a row to that model and removing it again leaves the twelve
    rows, and the feasible plans, as they were. *)
Lemma add_then_remove_witness :
  well_numbered Examples.built
  /\ map handle (rows Examples.built)
     = [0; 1; 2; 3; 4; 5; 6; 7; 8; 9; 10; 11]%nat
  /\ fst (addConstr (Cmp (number 0) LESS_EQUAL (number 1)) "value_balance"
                    Examples.built) = 12%nat
  /\ rows (remove [12%nat]
                  (snd (addConstr (Cmp (number 0) LESS_EQUAL (number 1))
                                  "value_balance" Examples.built)))
     = rows Examples.built
  /\ forall a,
       feasible (remove [12%nat]
                   (snd (addConstr (Cmp (number 0) LESS_EQUAL (number 1))
                                   "value_balance" Examples.built))) a
       <-> feasible Examples.built a.
Proof.
  split; [apply well_numbered_built|].
  split; [vm_compute; reflexivity|].
  split; [vm_compute; reflexivity|].
  destruct (proj2 (proj2 (proj2 (proj2
              (add_then_remove Examples.built well_numbered_built))))
              (Cmp (number 0) LESS_EQUAL (number 1)) "value_balance")
    as [Hr [_ [_ [_ [_ Hf]]]]].
  split; [exact Hr | exact Hf].
Defined.

Lemma for_in_ext {K A} (ks : list K) (f g : K -> Py A) :
  (forall k, In k ks -> f k = g k) -> for_in ks f = for_in ks g.
Proof.
  induction ks as [|k ks IH]; intros H; simpl.
  - reflexivity.
  - rewrite (H k (or_introl eq_refl)).
    rewrite (IH (fun k' Hk => H k' (or_intror Hk))). reflexivity.
Qed.

Lemma for_in_tupledict (ks : list string) :
  NoDup ks ->
  forall n vt name,
    for_in ks (fun c => var_ (fst (addVars_from n ks vt name)).[c])
    = inr (map of_var (values (fst (addVars_from n ks vt name)))).
Proof.
  induction 1 as [|k0 ks Hnot Hnd IH]; intros n vt name.
  - reflexivity.
  - cbn [addVars_from fst for_in getitem]. rewrite String.eqb_refl.
    cbn [var_ bind ret].
    rewrite (for_in_ext ks _
               (fun c => var_ (fst (addVars_from (S n) ks vt name)).[c])).
    + rewrite IH. reflexivity.
    + intros c Hc. destruct (String.eqb_spec c k0) as [E|E].
      * subst c. contradiction.
      * reflexivity.
Qed.

(** X4.  [gp.quicksum(x[c] for c in keys)] and [x.sum()] are one and the same
    expression when [x] is the tupledict that [addVars] returned for these
    keys, no key given twice: each column once, with coefficient 1, in the
    order of the keys. *)
Theorem sum_of_all_columns (ks : list string) (vt : VType) (name : string)
  (m : Model) :
  NoDup ks ->
  let x := fst (addVars ks vt name m) in
  quicksum_ ks (fun c => var_ x.[c]) = inr (tupledict_sum x)
  /\ terms (tupledict_sum x)
     = map (fun v => (1, v)) (seq (List.length (vars m)) (List.length ks))
  /\ forall a, eval a (tupledict_sum x)
               == sumQ (map a (seq (List.length (vars m)) (List.length ks))).
Proof.
  intros Hnd x. subst x. unfold addVars. cbn [fst].
  assert (Hvals : forall n,
             values (fst (addVars_from n ks vt name))
             = seq n (List.length ks)).
  { clear Hnd. induction ks as [|k0 ks IH]; intros n; simpl.
    - reflexivity.
    - unfold values in *. simpl. rewrite IH. reflexivity. }
  split.
  { unfold quicksum_, tupledict_sum.
    rewrite (for_in_tupledict ks Hnd). reflexivity. }
  assert (Hterms : forall (vs : list Var) (e0 : LinExpr),
             terms (fold_left plus (map of_var vs) e0)
             = (terms e0 ++ map (fun v => (1, v)) vs)%list).
  { induction vs as [|v vs IH]; intros e0; simpl.
    - rewrite app_nil_r. reflexivity.
    - rewrite IH. simpl. rewrite <- app_assoc. reflexivity. }
  split.
  { unfold tupledict_sum, quicksum. rewrite Hterms, Hvals. reflexivity. }
  intros a. unfold tupledict_sum. rewrite eval_quicksum, Hvals, map_map.
  generalize (seq (List.length (vars m)) (List.length ks)). intros l.
  induction l as [|v l IH]; cbn [map sumQ fold_right].
  - reflexivity.
  - unfold sumQ in IH. rewrite IH, eval_of_var. reflexivity.
Qed.

End ModelFacts.

(* ================================================================== *)
(** * The first notebook: the best plan                                *)
(* ================================================================== *)

Module CasinoChipsOptimum.
Import CasinoChips CasinoChipsSpec.

(** The integer program of the notebook, on counts that are integers. *)
Lemma chip_program_bound (a : assignment) :
  (forall v, (v < 7)%nat -> 0 <= a v /\ is_integer (a v)) ->
  18 * a 0%nat + 17 * a 1%nat + 16 * a 2%nat + 13 * a 3%nat
    + 10 * a 4%nat + 10 * a 5%nat + 10 * a 6%nat <= 5000 ->
  2 * a 1%nat + 3 * a 2%nat + (9 # 2) * a 3%nat + 6 * a 4%nat
    + (17 # 2) * a 5%nat + (19 # 2) * a 6%nat <= 1800 ->
  a 4%nat + 2 * a 5%nat <= 100 ->
  2 * a 6%nat <= 20 ->
  a 0%nat + 5 * a 1%nat + 10 * a 2%nat + 25 * a 3%nat + 100 * a 4%nat
    + 500 * a 5%nat + 1000 * a 6%nat <= 42143.
Proof.
  intros Hd H1 H2 H3 H4.
  destruct (Hd 0%nat ltac:(lia)) as [P0 [z0 E0]].
  destruct (Hd 1%nat ltac:(lia)) as [P1 [z1 E1]].
  destruct (Hd 2%nat ltac:(lia)) as [P2 [z2 E2]].
  destruct (Hd 3%nat ltac:(lia)) as [P3 [z3 E3]].
  destruct (Hd 4%nat ltac:(lia)) as [P4 [z4 E4]].
  destruct (Hd 5%nat ltac:(lia)) as [P5 [z5 E5]].
  destruct (Hd 6%nat ltac:(lia)) as [P6 [z6 E6]].
  rewrite E0, E1, E2, E3, E4, E5, E6 in *.
  unfold Qle in *. cbn [Qnum Qden Qplus Qmult inject_Z] in *.
  lia.
Qed.

Lemma chip_counts (a : assignment) (vs : list VarAttr) :
  vs = snd (addVars_from 0 chips INTEGER "chips") ->
  respects a vs ->
  forall v, (v < 7)%nat -> 0 <= a v /\ is_integer (a v).
Proof.
  intros -> Hdom v Hv.
  assert (E : exists name,
             nth_error (snd (addVars_from 0 chips INTEGER "chips")) v
             = Some (mkVar name INTEGER 0 None)).
  { do 7 (destruct v as [|v]; [eexists; reflexivity|]). lia. }
  destruct E as [name E]. destruct (Hdom v _ E) as [Hlb [_ Hi]].
  split; [exact Hlb | exact Hi].
Qed.

(** X5.  The model that the first notebook hands to the solver asks for the
    greatest value, and the greatest value a plan can have is 42143: the
    plan of 38 ones, 1 five, 284 twenty-fives, 50 five hundreds and 10
    thousands meets every ingredient limit with whole counts and is worth
    42143, and no plan that does is worth more. *)
Theorem chip_value_optimum (k : Kernel) :
  exists kb : Kernel,
    build k = (inr tt, kb)
    /\ solved (snd ((build ;;; optimize) k)) = (solved k ++ [model kb])%list
    /\ sense (model kb) = MAXIMIZE
    /\ (forall a, eval a (objective (model kb))
                  == spec_objective (col (fst (addVars_from 0 chips INTEGER
                                                            "chips"))) a)
    /\ feasible (model kb) Examples.recorded_plan
    /\ eval Examples.recorded_plan (objective (model kb)) == 42143
    /\ forall a, feasible (model kb) a ->
                 eval a (objective (model kb)) <= 42143.
Proof.
  exists (snd (build k)).
  split; [apply CasinoChipsFacts.build_ok|].
  split; [vm_compute; reflexivity|].
  split; [vm_compute; reflexivity|].
  assert (Hobj : forall a,
             eval a (objective (model (snd (build k))))
             == a 0%nat + 5 * a 1%nat + 10 * a 2%nat + 25 * a 3%nat
                + 100 * a 4%nat + 500 * a 5%nat + 1000 * a 6%nat).
  { intros a.
    let t := eval vm_compute in (objective (model (snd (build k)))) in
    change (objective (model (snd (build k)))) with t.
    unfold eval. simpl. lra. }
  split.
  { intros a. rewrite Hobj. unfold spec_objective, sumQ. simpl.
    CasinoChipsFacts.entries. lra. }
  split; [apply feasibleb_sound; vm_compute; reflexivity|].
  split; [vm_compute; reflexivity|].
  intros a [Hdom Hsat]. rewrite Hobj.
  assert (Hrows : satisfies a (rows (model (snd (build k)))) ->
            18 * a 0%nat + 17 * a 1%nat + 16 * a 2%nat + 13 * a 3%nat
              + 10 * a 4%nat + 10 * a 5%nat + 10 * a 6%nat <= 5000
            /\ 2 * a 1%nat + 3 * a 2%nat + (9 # 2) * a 3%nat + 6 * a 4%nat
               + (17 # 2) * a 5%nat + (19 # 2) * a 6%nat <= 1800
            /\ a 4%nat + 2 * a 5%nat <= 100
            /\ 2 * a 6%nat <= 20).
  { CasinoChipsFacts.rows_now. CasinoChipsFacts.linear_rows.
    intros [H1 [H2 [H3 [H4 _]]]]. splits; lra. }
  destruct (Hrows Hsat) as [H1 [H2 [H3 H4]]].
  apply chip_program_bound; try assumption.
  apply (chip_counts a (vars (model (snd (build k))))); [|exact Hdom].
  vm_compute. reflexivity.
Qed.

End CasinoChipsOptimum.

(* ================================================================== *)
(** * The second notebook: the other cells                             *)
(* ================================================================== *)

Module MoreRealisticCells.
Import MoreRealistic MoreRealisticSpec MoreRealisticFacts ModelFacts.

Lemma satisfies_app (a : assignment) (rs1 rs2 : list Row) :
  satisfies a (rs1 ++ rs2) <-> satisfies a rs1 /\ satisfies a rs2.
Proof. unfold satisfies. apply Forall_app. Qed.

Lemma satisfies_family (a : assignment) (name : string)
  (f : string -> TempConstr) (ks : list string) :
  forall h, satisfies a (family h name ks f)
            <-> forall k, In k ks -> holds a (f k).
Proof.
  unfold satisfies. induction ks as [|k0 ks IH]; intros h; simpl.
  - split; [intros _ k [] | constructor].
  - rewrite Forall_cons_iff, IH. simpl. split.
    + intros [H0 H] k [<-|Hk]; [exact H0 | apply H, Hk].
    + intros H. split; [apply H; left; reflexivity|].
      intros k Hk. apply H. right. exact Hk.
Qed.

Lemma inject_succ (n : nat) :
  inject_Z (Z.of_nat (S n)) == 1 + inject_Z (Z.of_nat n).
Proof.
  rewrite Nat2Z.inj_succ. unfold Z.succ. rewrite inject_Z_plus.
  change (inject_Z 1) with 1. lra.
Qed.

(** A sum of indicators counts those that are on. *)
Lemma sum_indicators (a : assignment) (y : string -> Var) (cs : list string) :
  (forall c, In c cs -> a (y c) == 0 \/ a (y c) == 1) ->
  eval a (quicksum (map (fun c => of_var (y c)) cs))
  == inject_Z (Z.of_nat (List.length
                           (filter (fun c => Qeq_bool (a (y c)) 1) cs))).
Proof.
  rewrite eval_quicksum, map_map.
  induction cs as [|c cs IH]; intros Hb.
  - reflexivity.
  - cbn [map sumQ fold_right filter].
    assert (IH' := IH (fun c' H => Hb c' (or_intror H))).
    unfold sumQ in IH'. rewrite IH'.
    assert (Ec : eval a (of_var (y c)) == a (y c))
      by (unfold eval; simpl; lra).
    rewrite Ec.
    destruct (Hb c (or_introl eq_refl)) as [E|E].
    + destruct (Qeq_bool (a (y c)) 1) eqn:B.
      * apply Qeq_bool_iff in B. exfalso. rewrite E in B.
        discriminate B.
      * rewrite E. lra.
    + assert (B : Qeq_bool (a (y c)) 1 = true) by (apply Qeq_bool_iff, E).
      rewrite B. cbn [List.length]. rewrite inject_succ, E. reflexivity.
Qed.

(** A chip that is made is switched on, when its count is tied to its
    indicator. *)
Lemma made_switched_on (a : assignment) (cs : list string) :
  (forall c, In c cs ->
             (a (y_ c) == 0 \/ a (y_ c) == 1)
             /\ (a (y_ c) == 0 -> a (x_ c) <= 0)) ->
  (List.length (made a cs) <= List.length (switched_on a cs))%nat.
Proof.
  unfold made, switched_on. induction cs as [|c cs IH]; intros H.
  - apply Nat.le_refl.
  - cbn [filter].
    assert (IH' := IH (fun c' Hc => H c' (or_intror Hc))).
    destruct (H c (or_introl eq_refl)) as [[E|E] Hx].
    + assert (B : Qle_bool (a (x_ c)) 0 = true)
        by (apply Qle_bool_iff, Hx, E).
      rewrite B. cbn [negb].
      destruct (Qeq_bool (a (y_ c)) 1); cbn [List.length]; lia.
    + assert (B : Qeq_bool (a (y_ c)) 1 = true) by (apply Qeq_bool_iff, E).
      rewrite B.
      destruct (negb (Qle_bool (a (x_ c)) 0)); cbn [List.length]; lia.
Qed.

Lemma inject_nat_le (n m : nat) :
  inject_Z (Z.of_nat n) <= inject_Z (Z.of_nat m) <-> (n <= m)%nat.
Proof. rewrite <- Zle_Qle. lia. Qed.

(** The indicators are binary, the counts whole and not negative. *)
Lemma y_binary (a : assignment) (c : string) :
  respects a (x_attrs ++ y_attrs) -> In c chips ->
  a (y_ c) == 0 \/ a (y_ c) == 1.
Proof.
  intros Hdom Hc.
  assert (E : exists name, nth_error (x_attrs ++ y_attrs) (y_ c)
                           = Some (mkVar name BINARY 0 (Some 1))).
  { each_of Hc; eexists; reflexivity. }
  destruct E as [name E]. destruct (Hdom _ _ E) as [_ [_ B]]. exact B.
Qed.

Lemma x_count (a : assignment) (c : string) (ys : list VarAttr) :
  respects a (x_attrs ++ ys) -> In c chips ->
  0 <= a (x_ c) /\ is_integer (a (x_ c)).
Proof.
  intros Hdom Hc.
  assert (E : exists name, nth_error (x_attrs ++ ys) (x_ c)
                           = Some (mkVar name INTEGER 0 None)).
  { each_of Hc; eexists; reflexivity. }
  destruct E as [name E]. destruct (Hdom _ _ E) as [L [_ I]].
  split; [exact L | exact I].
Qed.

Lemma linked_off (a : assignment) (c : string) :
  holds a (linked c) -> a (y_ c) == 0 -> a (x_ c) <= 0.
Proof.
  unfold holds, linked, eval, M. simpl. intros H E. rewrite E in H. lra.
Qed.

(** Puts the appends that a computation has opened back in place. *)
Ltac fold_app :=
  let f := eval cbv delta [app] beta in (@app Model) in
  change f with (@app Model).

(** Opens a state of which the model is known by its parts. *)
Ltac known_state k :=
  destruct k as [?sv ?fs [?nm ?vs ?rs ?fr ?ob ?se ?so] ?out ?sd];
  cbn [model vars rows fresh objective sense] in *; subst.

Ltac known_shape k H :=
  destruct k as [?sv ?fs [?nm ?vs ?rs ?fr ?ob ?se ?so] ?out ?sd];
  apply ModelFacts.shape_parts in H;
  cbn [model vars rows fresh objective sense] in H;
  destruct H as (? & ? & ? & ? & ?); subst.

(** Runs one cell that solves once, and reads off the state. *)
Ltac one_step :=
  eexists; split; [run_cells; reflexivity|];
  split; [vm_compute; reflexivity|];
  unfold solves; cbn [solved]; fold_app; rewrite map_app;
  f_equal; vm_compute; reflexivity.

(** Runs cells that do not solve, and reads off the model. *)
Ltac model_step :=
  eexists; split; [run_cells; reflexivity | vm_compute; reflexivity].

(** One step along a sequence of cells of which a run is known. *)
Ltac chain_in R H :=
  repeat rewrite ?ModelFacts.cbind_cbind, ?ModelFacts.cbind_cret in H;
  cbn [fst snd p_x p_total_chips p_value_balance p_ingredient_usage
       p_low_chip_ub p_high_chip_lb p_max_25 p_percent30] in H;
  rewrite (cbind_ok _ _ _ _ _ R) in H.

Section Cells.

Variable on_hand : string -> Q.
Variable chips_data : ChipsData.
Variable recipes : string -> string -> Q.

#[local] Set Warnings "-notation-for-abbreviation".
Local Notation usage := (usage on_hand recipes).
Local Notation val := (val chips_data).
Local Notation rows_before_demand := (rows_before_demand on_hand recipes).
Local Notation rows_demand := (rows_demand chips_data).
Local Notation rows_after_demand := (rows_after_demand chips_data).
Local Notation rows_types := (rows_types on_hand chips_data recipes).
Local Notation rows_logical := (rows_logical on_hand recipes).
Local Notation rows_recreated := (rows_recreated on_hand recipes).
Local Notation rows_value_balance := (rows_value_balance on_hand chips_data recipes).
Local Notation value_balance := (value_balance chips_data).
Local Notation solves_until_t_budget :=
  (solves_until_t_budget on_hand chips_data recipes).
Local Notation until_t_budget := (until_t_budget on_hand chips_data recipes).
Local Notation until_remove := (until_remove on_hand chips_data recipes).
Local Notation until_types := (until_types on_hand chips_data recipes).
Local Notation rows_low_chip_ub := (MoreRealisticSpec.rows_low_chip_ub).
Local Notation rows_high_chip_lb := (MoreRealisticSpec.rows_high_chip_lb).

(** One cell after the other, from a state of which the model is known. *)
Lemma original_model_step (k : Kernel) :
  exists k1 : Kernel,
    original_model on_hand chips_data recipes k
    = (inr (h_x handles, h_ingredient_usage handles), k1)
    /\ shape (model k1) = (x_attrs, rows_before_demand, 4%nat,
                          (val chips, MAXIMIZE))
    /\ solves k1
       = (solves k ++ [(x_attrs, rows_before_demand,
                        (val chips, MAXIMIZE))])%list.
Proof. one_step. Qed.

Lemma maximize_total_chips_step (k : Kernel) :
  shape (model k) = (x_attrs, rows_before_demand, 4%nat,
                     (val chips, MAXIMIZE)) ->
  exists k1 : Kernel,
    maximize_total_chips total k = (inr tt, k1)
    /\ shape (model k1) = (x_attrs, rows_before_demand, 4%nat,
                          (total, MAXIMIZE))
    /\ solves k1
       = (solves k ++ [(x_attrs, rows_before_demand,
                        (total, MAXIMIZE))])%list.
Proof. intros H. known_shape k H. one_step. Qed.

Lemma add_meet_demand_step (k : Kernel) :
  shape (model k) = (x_attrs, rows_before_demand, 4%nat,
                     (total, MAXIMIZE)) ->
  exists k1 : Kernel,
    add_meet_demand chips_data (h_x handles) k
    = (inr (h_meet_demand handles), k1)
    /\ shape (model k1)
       = (x_attrs, (rows_before_demand ++ rows_demand)%list, 11%nat,
          (total, MAXIMIZE))
    /\ solves k1
       = (solves k ++ [(x_attrs, (rows_before_demand ++ rows_demand)%list,
                        (total, MAXIMIZE))])%list.
Proof. intros H. known_shape k H. one_step. Qed.

Lemma add_vBudget_step (k : Kernel) :
  shape (model k)
  = (x_attrs, (rows_before_demand ++ rows_demand)%list, 11%nat,
     (total, MAXIMIZE)) ->
  exists k1 : Kernel,
    add_vBudget chips_data (h_x handles) k
    = (inr (vCost chips_data, h_vBudget handles), k1)
    /\ shape (model k1)
       = (x_attrs,
          (rows_before_demand ++ rows_demand
           ++ [mkRow 11 "v_budget" (v_budget chips_data)])%list,
          12%nat, (total, MAXIMIZE))
    /\ solves k1
       = (solves k
          ++ [(x_attrs,
               (rows_before_demand ++ rows_demand
                ++ [mkRow 11 "v_budget" (v_budget chips_data)])%list,
               (total, MAXIMIZE))])%list.
Proof. intros H. known_shape k H. one_step. Qed.

Lemma add_link_x_y_step (k : Kernel) :
  shape (model k)
  = (x_attrs,
     (rows_before_demand ++ rows_demand
      ++ [mkRow 11 "v_budget" (v_budget chips_data)])%list,
     12%nat, (total, MAXIMIZE)) ->
  exists k1 : Kernel,
    add_link_x_y (h_x handles) k
    = (inr (h_y handles, h_link_x_y handles), k1)
    /\ shape (model k1)
       = ((x_attrs ++ y_attrs)%list,
          (rows_before_demand ++ rows_demand
           ++ [mkRow 11 "v_budget" (v_budget chips_data)]
           ++ family 12 "link_x_y" chips linked)%list,
          19%nat, (total, MAXIMIZE))
    /\ solves k1 = solves k.
Proof.
  intros H. known_shape k H.
  eexists. split; [run_cells; reflexivity|].
  split; [vm_compute; reflexivity | reflexivity].
Qed.

Lemma add_tBudget_step (k : Kernel) :
  shape (model k)
  = ((x_attrs ++ y_attrs)%list,
     (rows_before_demand ++ rows_demand
      ++ [mkRow 11 "v_budget" (v_budget chips_data)]
      ++ family 12 "link_x_y" chips linked)%list,
     19%nat, (total, MAXIMIZE)) ->
  exists k1 : Kernel,
    add_tBudget chips_data (vCost chips_data) (h_y handles) k
    = (inr (h_tBudget handles), k1)
    /\ shape (model k1)
       = ((x_attrs ++ y_attrs)%list,
          (rows_before_demand ++ rows_demand ++ rows_after_demand)%list,
          20%nat, (total, MAXIMIZE))
    /\ solves k1
       = (solves k
          ++ [((x_attrs ++ y_attrs)%list,
               (rows_before_demand ++ rows_demand ++ rows_after_demand)%list,
               (total, MAXIMIZE))])%list.
Proof. intros H. known_shape k H. one_step. Qed.

Lemma until_t_budget_solved (k : Kernel) :
  exists k1 : Kernel,
    until_t_budget k = (inr handles, k1)
    /\ shape (model k1)
       = ((x_attrs ++ y_attrs)%list,
          (rows_before_demand ++ rows_demand ++ rows_after_demand)%list,
          20%nat, (total, MAXIMIZE))
    /\ solves k1 = (solves k ++ solves_until_t_budget)%list.
Proof.
  destruct (original_model_step k) as [k1 [R1 [H1 S1]]].
  destruct (maximize_total_chips_step k1 H1) as [k2 [R2 [H2 S2]]].
  destruct (add_meet_demand_step k2 H2) as [k3 [R3 [H3 S3]]].
  destruct (add_vBudget_step k3 H3) as [k4 [R4 [H4 S4]]].
  destruct (add_link_x_y_step k4 H4) as [k5 [R5 [H5 S5]]].
  destruct (add_tBudget_step k5 H5) as [k6 [R6 [H6 S6]]].
  exists k6. split; [|split; [exact H6|]].
  - unfold MoreRealistic.until_t_budget.
    rewrite (cbind_ok _ _ _ _ _ R1). cbn [fst snd].
    assert (E : total_chips_quicksum (h_x handles) = inr total)
      by reflexivity.
    rewrite (cbind_ok (py (total_chips_quicksum (h_x handles))) _ k1 k1 total
                      (f_equal (fun v => (v, k1)) E)).
    rewrite (cbind_ok update _ k1 k1 tt eq_refl).
    rewrite (cbind_ok _ _ _ _ _ R2).
    rewrite (cbind_ok _ _ _ _ _ R3).
    rewrite (cbind_ok _ _ _ _ _ R4). cbn [fst snd].
    rewrite (cbind_ok _ _ _ _ _ R5). cbn [fst snd].
    rewrite (cbind_ok _ _ _ _ _ R6).
    reflexivity.
  - rewrite S6, S5, S4, S3, S2, S1. rewrite <- !app_assoc. reflexivity.
Qed.

Lemma until_remove_shape (k : Kernel) :
  exists k2 : Kernel,
    until_remove k = (inr handles, k2)
    /\ shape (model k2)
       = ((x_attrs ++ y_attrs)%list,
          (rows_before_demand ++ rows_after_demand)%list,
          20%nat, (total, MAXIMIZE)).
Proof.
  destruct (until_t_budget_solved k) as [k1 [Hrun [Hsh _]]].
  known_shape k1 Hsh.
  eexists. split.
  - unfold MoreRealistic.until_remove. rewrite (cbind_ok _ _ _ _ _ Hrun).
    run_cells. reflexivity.
  - vm_compute. reflexivity.
Qed.

Lemma until_types_shape (k : Kernel) :
  exists k3 : Kernel,
    until_types k = (inr (handles, (20%nat, 21%nat)), k3)
    /\ shape (model k3)
       = ((x_attrs ++ y_attrs)%list, rows_types, 22%nat, (total, MAXIMIZE)).
Proof.
  destruct (until_remove_shape k) as [k2 [Hrun Hsh]].
  known_shape k2 Hsh.
  eexists. split.
  - unfold MoreRealistic.until_types. rewrite (cbind_ok _ _ _ _ _ Hrun).
    run_cells. reflexivity.
  - vm_compute. reflexivity.
Qed.

Lemma holds_demand_met (a : assignment) (c : string) :
  holds a (demand_met chips_data c) <-> demand chips_data c <= a (x_ c).
Proof.
  unfold holds, demand_met, eval. simpl. split; intros H; lra.
Qed.

(** X7.  The cells from "Original model" to the total budget hand five
    models to the solver, one per call of the helper and in the order of
    the cells.  The first asks for the greatest value [Sum_c v_c * x_c];
    the objective set next, the number of chips [Sum_c x_c], is the one of
    every later solve, with nothing but [setObjective] run once; and every
    model holds the rows of the one before it: 4 rows, the same 4, 11 with
    the demands, 12 with the variable-cost budget, 20 with the links and
    the total budget, the last over the fourteen columns. *)
Theorem solves_in_order (k : Kernel) :
  exists k1 : Kernel,
    until_t_budget k = (inr handles, k1)
    /\ solves k1 = (solves k ++ solves_until_t_budget)%list
    /\ map snd solves_until_t_budget
       = [(val chips, MAXIMIZE); (total, MAXIMIZE); (total, MAXIMIZE);
          (total, MAXIMIZE); (total, MAXIMIZE)]
    /\ map (fun s => List.length (snd (fst s))) solves_until_t_budget
       = [4; 4; 11; 12; 20]%nat
    /\ map (fun s => List.length (fst (fst s))) solves_until_t_budget
       = [7; 7; 7; 7; 14]%nat
    /\ map (fun s => firstn 4 (snd (fst s))) solves_until_t_budget
       = [rows_before_demand; rows_before_demand; rows_before_demand;
          rows_before_demand; rows_before_demand]
    /\ (forall a, eval a total
                  == a (x_ "one") + a (x_ "five") + a (x_ "ten")
                     + a (x_ "twenty-five") + a (x_ "one hundred")
                     + a (x_ "five hundred") + a (x_ "thousand")).
Proof.
  destruct (until_t_budget_solved k) as [k1 [Hrun [_ Hs]]].
  exists k1. split; [exact Hrun|]. split; [exact Hs|].
  split; [reflexivity|]. split; [reflexivity|]. split; [reflexivity|].
  split; [reflexivity|].
  intros a. cols. apply eval_total.
Qed.

(** X8.  [model.remove(meet_demand)] relaxes the model: every plan that
    was feasible stays feasible, and the plans that become feasible are
    those that miss a demand -- a plan is feasible before the removal
    exactly when it is feasible after it and makes at least [d_c] chips of
    every type. *)
Theorem without_demand_relaxed (k : Kernel) :
  exists k1 k2 : Kernel,
    until_t_budget k = (inr handles, k1)
    /\ until_remove k = (inr handles, k2)
    /\ model k2 = remove (values (h_meet_demand handles)) (model k1)
    /\ (forall a, feasible (model k1) a -> feasible (model k2) a)
    /\ (forall a, feasible (model k1) a
                  <-> feasible (model k2) a
                      /\ forall c, In c chips ->
                                   demand chips_data c <= a (x_ c)).
Proof.
  destruct (until_t_budget_solved k) as [k1 [Hrun [Hsh _]]].
  exists k1, (snd (remove_meet_demand (h_meet_demand handles) k1)).
  split; [exact Hrun|].
  split.
  { unfold MoreRealistic.until_remove. rewrite (cbind_ok _ _ _ _ _ Hrun).
    reflexivity. }
  split; [reflexivity|].
  assert (Hiff : forall a,
    feasible (model k1) a
    <-> feasible (model (snd (remove_meet_demand (h_meet_demand handles) k1))) a
        /\ forall c, In c chips -> demand chips_data c <= a (x_ c)).
  { destruct (shape_parts _ _ _ _ _ _ Hsh) as [Hv [Hr _]]. intros a.
    rewrite (feasible_parts (model k1) a _ _ Hv Hr).
    rewrite (feasible_parts
               (model (snd (remove_meet_demand (h_meet_demand handles) k1)))
               a (x_attrs ++ y_attrs)%list
               (rows_before_demand ++ rows_after_demand)%list Hv).
    2:{ change (rows (remove (values (h_meet_demand handles)) (model k1))
                = (rows_before_demand ++ rows_after_demand)%list).
        unfold remove. cbn [rows]. rewrite Hr. vm_compute. reflexivity. }
    rewrite !satisfies_app.
    unfold MoreRealisticSpec.rows_demand at 1.
    rewrite (satisfies_family a "meet_demand" (demand_met chips_data) chips).
    split.
    - intros [Hd0 [Hb [Hd Ha]]]. split; [tauto|].
      intros c Hc. apply holds_demand_met, Hd, Hc.
    - intros [[Hd0 [Hb Ha]] Hd]. split; [exact Hd0|]. split; [exact Hb|].
      split; [|exact Ha].
      intros c Hc. apply holds_demand_met, Hd, Hc. }
  split; [|exact Hiff].
  intros a Ha. apply Hiff in Ha. tauto.
Qed.

Lemma after_demand_linked (a : assignment) :
  satisfies a rows_after_demand ->
  forall c, In c chips -> holds a (linked c).
Proof.
  unfold MoreRealisticSpec.rows_after_demand. rewrite !satisfies_app.
  intros [_ [H _]].
  apply (satisfies_family a "link_x_y" linked chips 12%nat). exact H.
Qed.

(** X9.  With [min_types] and [max_types] in the model -- the rows
    [Sum_c y_c >= 3] and [Sum_c y_c <= 5], handles 20 and 21 -- every
    feasible plan switches on at least three and at most five of the seven
    indicators, and, through the rows [x_c <= M * y_c], makes chips of at
    most five types. *)
Theorem types_between_three_and_five (k : Kernel) :
  exists k1 : Kernel,
    until_types k = (inr (handles, (20%nat, 21%nat)), k1)
    /\ rows (model k1) = rows_types
    /\ tupledict_sum (h_y handles) = y_total
    /\ In (mkRow 20 "min_types" (Cmp y_total GREATER_EQUAL (number 3)))
          (rows (model k1))
    /\ In (mkRow 21 "max_types" (Cmp y_total LESS_EQUAL (number 5)))
          (rows (model k1))
    /\ forall a, feasible (model k1) a ->
         (3 <= List.length (switched_on a chips) <= 5)%nat
         /\ (List.length (made a chips) <= 5)%nat.
Proof.
  destruct (until_types_shape k) as [k1 [Hrun Hsh]].
  exists k1. split; [exact Hrun|].
  known_shape k1 Hsh. cbn [model rows].
  split; [reflexivity|]. split; [reflexivity|].
  split.
  { unfold MoreRealisticSpec.rows_types. rewrite !in_app_iff.
    right. right. left. reflexivity. }
  split.
  { unfold MoreRealisticSpec.rows_types. rewrite !in_app_iff.
    right. right. right. left. reflexivity. }
  intros a [Hdom Hsat]. cbn [model vars rows] in Hdom, Hsat.
  unfold MoreRealisticSpec.rows_types in Hsat.
  rewrite !satisfies_app in Hsat. destruct Hsat as [_ [Hafter Hty]].
  pose proof (after_demand_linked a Hafter) as Hlink.
  unfold satisfies in Hty.
  pose proof (Forall_inv Hty) as Hmin.
  pose proof (Forall_inv (Forall_inv_tail Hty)) as Hmax.
  cbn [body holds] in Hmin, Hmax.
  assert (Hsum := sum_indicators a y_ chips
                    (fun c Hc => y_binary a c Hdom Hc)).
  fold (switched_on a chips) in Hsum. fold y_total in Hsum.
  rewrite Hsum in Hmin, Hmax.
  change (eval a (number 3)) with (inject_Z (Z.of_nat 3)) in Hmin.
  change (eval a (number 5)) with (inject_Z (Z.of_nat 5)) in Hmax.
  apply inject_nat_le in Hmin. apply inject_nat_le in Hmax.
  split; [lia|].
  apply Nat.le_trans with (List.length (switched_on a chips)); [|exact Hmax].
  apply made_switched_on. intros c Hc.
  split; [apply (y_binary a c Hdom Hc) | apply linked_off, Hlink, Hc].
Qed.

(** X10.  The rows [min_types] and [max_types] count indicators, and the
    rows [x_c <= M * y_c] do not force a chip that is switched on to be
    made: whenever no amount on hand is negative and the set-up costs of
    the one, the five and the five hundred are within the budget of 280,
    the plan that switches these three on and makes no chip at all is
    feasible -- three types "used", none made. *)
Theorem min_types_counts_indicators (k : Kernel) :
  (forall i, In i ingredients -> 0 <= on_hand i) ->
  fixed_cost chips_data "one" + fixed_cost chips_data "five"
  + fixed_cost chips_data "five hundred" <= 280 ->
  exists k1 : Kernel,
    until_types k = (inr (handles, (20%nat, 21%nat)), k1)
    /\ feasible (model k1) Examples.idle
    /\ switched_on Examples.idle chips = ["one"; "five"; "five hundred"]
    /\ made Examples.idle chips = [].
Proof.
  intros Hq Hf.
  destruct (until_types_shape k) as [k1 [Hrun Hsh]].
  exists k1. split; [exact Hrun|].
  known_shape k1 Hsh. cbn [model].
  split; [|split; reflexivity].
  pose proof (Hq "clay" ltac:(simpl; tauto)).
  pose proof (Hq "lead" ltac:(simpl; tauto)).
  pose proof (Hq "silver" ltac:(simpl; tauto)).
  pose proof (Hq "gold" ltac:(simpl; tauto)).
  split.
  - intros v va Hv. cbn [vars] in Hv.
    do 14 (destruct v as [|v];
           [injection Hv as <-; unfold in_domain; cbn;
            splits; try lra; try (exists 0%Z; reflexivity);
            try (left; reflexivity); try (right; reflexivity) |]).
    destruct v; discriminate Hv.
  - cbn [rows]. unfold satisfies.
    repeat (apply Forall_cons || apply Forall_nil);
      cbv -[Qplus Qmult Qle Qeq Qopp fixed_cost cost value demand];
      try lra.
Qed.

(** ** Extra practice, one cell after the other *)

Lemma recreate_model_step (k : Kernel) :
  exists k1 : Kernel,
    recreate_model on_hand recipes k
    = (inr (p_x practice, p_ingredient_usage practice, total), k1)
    /\ shape (model k1) = (x_attrs, rows_recreated, 4%nat, (total, MAXIMIZE))
    /\ solves k1 = solves k.
Proof.
  eexists. split; [run_cells; reflexivity|].
  split; [vm_compute; reflexivity | reflexivity].
Qed.

Lemma add_value_balance_step (k : Kernel) :
  shape (model k) = (x_attrs, rows_recreated, 4%nat, (total, MAXIMIZE)) ->
  exists k1 : Kernel,
    add_value_balance chips_data (p_x practice) k
    = (inr (p_value_balance practice), k1)
    /\ shape (model k1)
       = (x_attrs, rows_value_balance, 5%nat, (total, MAXIMIZE))
    /\ solves k1
       = (solves k ++ [(x_attrs, rows_value_balance,
                        (total, MAXIMIZE))])%list.
Proof. intros H. known_shape k H. one_step. Qed.

Lemma remove_value_balance_step (k : Kernel) :
  shape (model k) = (x_attrs, rows_value_balance, 5%nat, (total, MAXIMIZE)) ->
  exists k1 : Kernel,
    with_model (remove [p_value_balance practice]) k = (inr tt, k1)
    /\ shape (model k1) = (x_attrs, rows_recreated, 5%nat, (total, MAXIMIZE)).
Proof. intros H. known_shape k H. model_step. Qed.

Lemma add_shares_step (k : Kernel) :
  shape (model k) = (x_attrs, rows_recreated, 5%nat, (total, MAXIMIZE)) ->
  exists k1 : Kernel,
    add_shares (p_x practice) total k
    = (inr (p_low_chip_ub practice, p_high_chip_lb practice), k1)
    /\ shape (model k1)
       = (x_attrs,
          (rows_recreated ++ rows_low_chip_ub ++ rows_high_chip_lb)%list,
          12%nat, (total, MAXIMIZE)).
Proof. intros H. known_shape k H. model_step. Qed.

Lemma add_max_25_step (k : Kernel) :
  shape (model k)
  = (x_attrs, (rows_recreated ++ rows_low_chip_ub ++ rows_high_chip_lb)%list,
     12%nat, (total, MAXIMIZE)) ->
  exists k1 : Kernel,
    add_max_25 (p_x practice) k = (inr (p_max_25 practice), k1)
    /\ shape (model k1)
       = (x_attrs,
          (rows_recreated ++ rows_low_chip_ub ++ rows_high_chip_lb
           ++ rows_max_25)%list,
          18%nat, (total, MAXIMIZE)).
Proof. intros H. known_shape k H. model_step. Qed.

Lemma add_percent30_step (k : Kernel) :
  shape (model k)
  = (x_attrs,
     (rows_recreated ++ rows_low_chip_ub ++ rows_high_chip_lb
      ++ rows_max_25)%list,
     18%nat, (total, MAXIMIZE)) ->
  exists k1 : Kernel,
    add_percent30 (p_x practice) total k = (inr (p_percent30 practice), k1)
    /\ shape (model k1)
       = (x_attrs,
          (rows_recreated ++ rows_low_chip_ub ++ rows_high_chip_lb
           ++ rows_max_25 ++ rows_percent30)%list,
          25%nat, (total, MAXIMIZE)).
Proof. intros H. known_shape k H. model_step. Qed.

Lemma remove_families_step (k : Kernel) :
  shape (model k)
  = (x_attrs,
     (rows_recreated ++ rows_low_chip_ub ++ rows_high_chip_lb
      ++ rows_max_25 ++ rows_percent30)%list,
     25%nat, (total, MAXIMIZE)) ->
  exists k1 : Kernel,
    with_model (remove (values (p_low_chip_ub practice)
                        ++ values (p_high_chip_lb practice)
                        ++ values (p_max_25 practice))) k
    = (inr tt, k1)
    /\ shape (model k1)
       = (x_attrs, (rows_recreated ++ rows_percent30)%list, 25%nat,
          (total, MAXIMIZE)).
Proof. intros H. known_shape k H. model_step. Qed.

Lemma practice_link_step (k : Kernel) :
  shape (model k)
  = (x_attrs, (rows_recreated ++ rows_percent30)%list, 25%nat,
     (total, MAXIMIZE)) ->
  exists k1 : Kernel,
    add_link_x_y x_cols k
    = (inr (y_cols, combine chips (seq 25 7)), k1)
    /\ shape (model k1)
       = ((x_attrs ++ y_attrs)%list,
          (rows_recreated ++ rows_percent30
           ++ family 25 "link_x_y" chips linked)%list,
          32%nat, (total, MAXIMIZE)).
Proof. intros H. known_shape k H. model_step. Qed.

Lemma logical_constraints_step (k : Kernel) :
  shape (model k)
  = ((x_attrs ++ y_attrs)%list,
     (rows_recreated ++ rows_percent30
      ++ family 25 "link_x_y" chips linked)%list,
     32%nat, (total, MAXIMIZE)) ->
  exists k1 : Kernel,
    logical_constraints y_cols k = (inr tt, k1)
    /\ shape (model k1)
       = ((x_attrs ++ y_attrs)%list, rows_logical, 37%nat,
          (total, MAXIMIZE)).
Proof. intros H. known_shape k H. model_step. Qed.

Lemma logistical_constraints_step (k : Kernel) :
  shape (model k)
  = ((x_attrs ++ y_attrs)%list, rows_logical, 37%nat, (total, MAXIMIZE)) ->
  exists k1 : Kernel,
    logistical_constraints y_cols k = (inr tt, k1)
    /\ shape (model k1)
       = ((x_attrs ++ y_attrs)%list, (rows_logical ++ rows_logistical)%list,
          42%nat, (total, MAXIMIZE)).
Proof. intros H. known_shape k H. model_step. Qed.

Lemma big_M_bounds_step (k : Kernel) :
  shape (model k)
  = ((x_attrs ++ y_attrs)%list, (rows_logical ++ rows_logistical)%list,
     42%nat, (total, MAXIMIZE)) ->
  exists k1 : Kernel,
    big_M_bounds x_cols y_cols k
    = (inr (combine high_chips (seq 42 3), combine high_chips (seq 45 3),
            combine low_chips (seq 52 4)), k1)
    /\ shape (model k1)
       = ((x_attrs ++ y_attrs)%list,
          (rows_logical ++ rows_logistical ++ rows_big_M)%list,
          56%nat, (total, MAXIMIZE)).
Proof. intros H. known_shape k H. model_step. Qed.

Lemma until_value_balance_shape (k : Kernel) :
  exists k0 k1 : Kernel,
    recreate_model on_hand recipes k
    = (inr (p_x practice, p_ingredient_usage practice, total), k0)
    /\ shape (model k0) = (x_attrs, rows_recreated, 4%nat, (total, MAXIMIZE))
    /\ until_value_balance on_hand chips_data recipes k
       = (inr (mkPractice (p_x practice) (p_ingredient_usage practice) total
                          (p_value_balance practice) [] [] [] []), k1)
    /\ shape (model k1)
       = (x_attrs, rows_value_balance, 5%nat, (total, MAXIMIZE))
    /\ solves k1
       = (solves k ++ [(x_attrs, rows_value_balance,
                        (total, MAXIMIZE))])%list.
Proof.
  destruct (recreate_model_step k) as [k0 [R0 [H0 S0]]].
  destruct (add_value_balance_step k0 H0) as [k1 [R1 [H1 S1]]].
  exists k0, k1. split; [exact R0|]. split; [exact H0|].
  split; [|split; [exact H1|]].
  - unfold until_value_balance.
    rewrite (cbind_ok _ _ _ _ _ R0). cbn [fst snd].
    rewrite (cbind_ok _ _ _ _ _ R1). reflexivity.
  - rewrite S1, S0. reflexivity.
Qed.

Lemma until_shares_shape (k : Kernel) :
  exists k1 : Kernel,
    until_shares on_hand chips_data recipes k
    = (inr (mkPractice (p_x practice) (p_ingredient_usage practice) total
                       (p_value_balance practice) (p_low_chip_ub practice)
                       (p_high_chip_lb practice) [] []), k1)
    /\ shape (model k1)
       = (x_attrs,
          (rows_recreated ++ rows_low_chip_ub ++ rows_high_chip_lb)%list,
          12%nat, (total, MAXIMIZE)).
Proof.
  destruct (until_value_balance_shape k) as [k0 [k1 [_ [_ [R1 [H1 _]]]]]].
  destruct (remove_value_balance_step k1 H1) as [k2 [R2 H2]].
  destruct (add_shares_step k2 H2) as [k3 [R3 H3]].
  exists k3. split; [|exact H3].
  unfold until_shares. rewrite (cbind_ok _ _ _ _ _ R1).
  unfold remove_value_balance.
  cbn [p_x p_total_chips p_value_balance p_ingredient_usage].
  rewrite (cbind_ok _ _ _ _ _ R2).
  rewrite (cbind_ok _ _ _ _ _ R3). reflexivity.
Qed.

Lemma until_max_25_shape (k : Kernel) :
  exists k1 : Kernel,
    until_max_25 on_hand chips_data recipes k
    = (inr (mkPractice (p_x practice) (p_ingredient_usage practice) total
                       (p_value_balance practice) (p_low_chip_ub practice)
                       (p_high_chip_lb practice) (p_max_25 practice) []), k1)
    /\ shape (model k1)
       = (x_attrs,
          (rows_recreated ++ rows_low_chip_ub ++ rows_high_chip_lb
           ++ rows_max_25)%list,
          18%nat, (total, MAXIMIZE)).
Proof.
  destruct (until_shares_shape k) as [k1 [R1 H1]].
  destruct (add_max_25_step k1 H1) as [k2 [R2 H2]].
  exists k2. split; [|exact H2].
  unfold until_max_25. rewrite (cbind_ok _ _ _ _ _ R1).
  cbn [p_x p_total_chips p_value_balance p_ingredient_usage p_low_chip_ub
       p_high_chip_lb].
  rewrite (cbind_ok _ _ _ _ _ R2). reflexivity.
Qed.

Lemma until_percent30_shape (k : Kernel) :
  exists k1 : Kernel,
    until_percent30 on_hand chips_data recipes k = (inr practice, k1)
    /\ shape (model k1)
       = (x_attrs,
          (rows_recreated ++ rows_low_chip_ub ++ rows_high_chip_lb
           ++ rows_max_25 ++ rows_percent30)%list,
          25%nat, (total, MAXIMIZE)).
Proof.
  destruct (until_max_25_shape k) as [k1 [R1 H1]].
  destruct (add_percent30_step k1 H1) as [k2 [R2 H2]].
  exists k2. split; [|exact H2].
  unfold until_percent30. rewrite (cbind_ok _ _ _ _ _ R1).
  cbn [p_x p_total_chips p_value_balance p_ingredient_usage p_low_chip_ub
       p_high_chip_lb p_max_25].
  rewrite (cbind_ok _ _ _ _ _ R2). reflexivity.
Qed.

Lemma until_cleanup_shape (k : Kernel) :
  exists k1 k2 : Kernel,
    until_percent30 on_hand chips_data recipes k = (inr practice, k1)
    /\ shape (model k1)
       = (x_attrs,
          (rows_recreated ++ rows_low_chip_ub ++ rows_high_chip_lb
           ++ rows_max_25 ++ rows_percent30)%list,
          25%nat, (total, MAXIMIZE))
    /\ remove_practice practice k1 = (inr tt, k2)
    /\ until_cleanup on_hand chips_data recipes k = (inr practice, k2)
    /\ shape (model k2)
       = (x_attrs, (rows_recreated ++ rows_percent30)%list, 25%nat,
          (total, MAXIMIZE)).
Proof.
  destruct (until_percent30_shape k) as [k1 [R1 H1]].
  destruct (remove_families_step k1 H1) as [k2 [R2 H2]].
  assert (R : remove_practice practice k1 = (inr tt, k2)).
  { unfold remove_practice. rewrite (cbind_ok _ _ _ _ _ R2). reflexivity. }
  exists k1, k2. split; [exact R1|]. split; [exact H1|].
  split; [exact R|]. split; [|exact H2].
  unfold until_cleanup. rewrite (cbind_ok _ _ _ _ _ R1).
  rewrite (cbind_ok _ _ _ _ _ R). reflexivity.
Qed.

(** The cells of the re-created model up to the logical constraints go
    through the states above. *)
Lemma until_logical_shape (k : Kernel) :
  exists k2 k4 : Kernel,
    until_cleanup on_hand chips_data recipes k = (inr practice, k2)
    /\ until_logical on_hand chips_data recipes k
       = (yl <~ add_link_x_y (p_x practice) ;;
          logical_constraints (fst yl) ;;;
          cret (p_x practice, fst yl)) k2
    /\ until_logical on_hand chips_data recipes k
       = (inr (x_cols, y_cols), k4)
    /\ shape (model k4)
       = ((x_attrs ++ y_attrs)%list, rows_logical, 37%nat,
          (total, MAXIMIZE)).
Proof.
  destruct (recreate_model_step k) as [k0 [R0 [H0 _]]].
  destruct (add_value_balance_step k0 H0) as [k1 [R1 [H1 _]]].
  destruct (remove_value_balance_step k1 H1) as [k2 [R2 H2]].
  destruct (add_shares_step k2 H2) as [k3 [R3 H3]].
  destruct (add_max_25_step k3 H3) as [k4 [R4 H4]].
  destruct (add_percent30_step k4 H4) as [k5 [R5 H5]].
  destruct (remove_families_step k5 H5) as [k6 [R6 H6]].
  destruct (practice_link_step k6 H6) as [k7 [R7 H7]].
  destruct (logical_constraints_step k7 H7) as [k8 [R8 H8]].
  destruct (until_cleanup_shape k) as [k5' [k6' [Rp [_ [Rr [Rc _]]]]]].
  assert (E : until_logical on_hand chips_data recipes k
              = (yl <~ add_link_x_y (p_x practice) ;;
                 logical_constraints (fst yl) ;;;
                 cret (p_x practice, fst yl)) k6).
  { unfold until_logical.
    rewrite (cbind_ok _ _ _ _ _ R0). cbn [fst snd].
    rewrite (cbind_ok _ _ _ _ _ R1).
    rewrite (cbind_ok _ _ _ _ _ R2).
    rewrite (cbind_ok _ _ _ _ _ R3). cbn [fst snd].
    rewrite (cbind_ok _ _ _ _ _ R4).
    rewrite (cbind_ok _ _ _ _ _ R5).
    rewrite (cbind_ok _ _ _ _ _ R6).
    rewrite (cbind_ok update _ k6 k6 tt eq_refl).
    reflexivity. }
  assert (Ek : k6' = k6).
  { unfold until_cleanup, until_percent30, until_max_25, until_shares,
      until_value_balance, remove_practice, remove_value_balance in Rc.
    chain_in R0 Rc. chain_in R1 Rc. chain_in R2 Rc. chain_in R3 Rc.
    chain_in R4 Rc. chain_in R5 Rc. chain_in R6 Rc.
    repeat rewrite ?cbind_cbind, ?cbind_cret in Rc.
    rewrite (cbind_ok update _ k6 k6 tt eq_refl) in Rc.
    repeat rewrite ?cbind_cbind, ?cbind_cret in Rc.
    unfold cret, ret in Rc. injection Rc as Rc. symmetry. exact Rc. }
  subst k6'.
  exists k6, k8. split; [exact Rc|]. split; [exact E|].
  split; [|exact H8].
  rewrite E. cbn [p_x practice].
  rewrite (cbind_ok _ _ _ _ _ R7). cbn [fst snd].
  rewrite (cbind_ok _ _ _ _ _ R8). reflexivity.
Qed.

Lemma until_logistical_shape (k : Kernel) :
  exists k1 : Kernel,
    until_logistical on_hand chips_data recipes k
    = (inr (x_cols, y_cols), k1)
    /\ shape (model k1)
       = ((x_attrs ++ y_attrs)%list, (rows_logical ++ rows_logistical)%list,
          42%nat, (total, MAXIMIZE)).
Proof.
  destruct (until_logical_shape k) as [_ [k1 [_ [_ [R1 H1]]]]].
  destruct (logistical_constraints_step k1 H1) as [k2 [R2 H2]].
  exists k2. split; [|exact H2].
  unfold until_logistical. rewrite (cbind_ok _ _ _ _ _ R1). cbn [fst snd].
  rewrite (cbind_ok _ _ _ _ _ R2). reflexivity.
Qed.

Lemma until_big_M_shape (k : Kernel) :
  exists k1 : Kernel,
    until_big_M on_hand chips_data recipes k
    = (inr (x_cols, y_cols,
            (combine high_chips (seq 42 3), combine high_chips (seq 45 3),
             combine low_chips (seq 52 4))), k1)
    /\ shape (model k1)
       = ((x_attrs ++ y_attrs)%list,
          (rows_logical ++ rows_logistical ++ rows_big_M)%list,
          56%nat, (total, MAXIMIZE)).
Proof.
  destruct (until_logistical_shape k) as [k1 [R1 H1]].
  destruct (big_M_bounds_step k1 H1) as [k2 [R2 H2]].
  exists k2. split; [|exact H2].
  unfold until_big_M. rewrite (cbind_ok _ _ _ _ _ R1). cbn [fst snd].
  rewrite (cbind_ok _ _ _ _ _ R2). reflexivity.
Qed.

Lemma holds_value_balance (a : assignment) :
  holds a value_balance
  <-> 2 * eval a (val high_chips) <= eval a (val low_chips).
Proof.
  unfold holds, MoreRealisticSpec.value_balance.
  rewrite eval_scale, literal_0_5. split; intros H; lra.
Qed.

(** X11.  [value_balance] is the row
    [Sum_h v_h * x_h <= 0.5 * Sum_l v_l * x_l] -- the high-value chips are
    worth at most half of what the low-value chips are worth, and 0.5 is a
    binary64 number, so the half is exact.  The model is solved once with
    the row in; [model.remove(value_balance)] then takes out that row and
    no other, so that the rows, the columns, the objective and the
    feasible plans are again those of the re-created model. *)
Theorem value_balance_round_trip (k : Kernel) :
  exists (p : Practice) (k0 k1 k2 : Kernel),
    recreate_model on_hand recipes k
    = (inr (p_x p, p_ingredient_usage p, p_total_chips p), k0)
    /\ until_value_balance on_hand chips_data recipes k = (inr p, k1)
    /\ remove_value_balance p k1 = (inr tt, k2)
    /\ rows (model k1)
       = (rows (model k0)
          ++ [mkRow (p_value_balance p) "value_balance" value_balance])%list
    /\ solves k1
       = (solves k ++ [(vars (model k1), rows (model k1),
                        (objective (model k1), sense (model k1)))])%list
    /\ (forall a, holds a value_balance
                  <-> 2 * eval a (val high_chips) <= eval a (val low_chips))
    /\ (forall a, feasible (model k1) a
                  <-> feasible (model k0) a /\ holds a value_balance)
    /\ rows (model k2) = rows (model k0)
    /\ vars (model k2) = vars (model k0)
    /\ objective (model k2) = objective (model k0)
    /\ sense (model k2) = sense (model k0)
    /\ (forall a, feasible (model k2) a <-> feasible (model k0) a).
Proof.
  destruct (until_value_balance_shape k) as [k0 [k1 [R0 [H0 [R1 [H1 S1]]]]]].
  destruct (remove_value_balance_step k1 H1) as [k2 [R2 H2]].
  destruct (shape_parts _ _ _ _ _ _ H0) as (V0 & W0 & _ & O0 & D0).
  destruct (shape_parts _ _ _ _ _ _ H1) as (V1 & W1 & _ & O1 & D1).
  destruct (shape_parts _ _ _ _ _ _ H2) as (V2 & W2 & _ & O2 & D2).
  exists (mkPractice (p_x practice) (p_ingredient_usage practice) total
                     (p_value_balance practice) [] [] [] []), k0, k1, k2.
  split; [exact R0|]. split; [exact R1|]. split; [exact R2|].
  split; [rewrite W1, W0; reflexivity|].
  split; [rewrite S1, V1, W1, O1, D1; reflexivity|].
  split; [exact holds_value_balance|].
  split.
  { intros a. unfold feasible. rewrite V1, W1, V0, W0.
    unfold MoreRealisticSpec.rows_value_balance. rewrite satisfies_app.
    unfold satisfies at 2. rewrite Forall_cons_iff, Forall_nil_iff.
    cbn [body]. tauto. }
  split; [rewrite W2, W0; reflexivity|].
  split; [rewrite V2, V0; reflexivity|].
  split; [rewrite O2, O0; reflexivity|].
  split; [rewrite D2, D0; reflexivity|].
  intros a. unfold feasible. rewrite V2, W2, V0, W0. reflexivity.
Qed.

Lemma x_plan (a : assignment) (c : string) :
  respects a x_attrs -> In c chips -> 0 <= a (x_ c) /\ is_integer (a (x_ c)).
Proof.
  intros Hdom Hc. apply (x_count a c []); [|exact Hc].
  rewrite app_nil_r. exact Hdom.
Qed.

Lemma total_not_negative (a : assignment) :
  (forall c, In c chips -> 0 <= a (x_ c)) -> 0 <= eval a total.
Proof.
  intros H. rewrite eval_total.
  pose proof (H "one" ltac:(simpl; tauto)).
  pose proof (H "five" ltac:(simpl; tauto)).
  pose proof (H "ten" ltac:(simpl; tauto)).
  pose proof (H "twenty-five" ltac:(simpl; tauto)).
  pose proof (H "one hundred" ltac:(simpl; tauto)).
  pose proof (H "five hundred" ltac:(simpl; tauto)).
  pose proof (H "thousand" ltac:(simpl; tauto)).
  cols. lra.
Qed.

Lemma positive_integer (q : Q) : is_integer q -> 0 < q -> 1 <= q.
Proof.
  intros [z Hz] Hq. rewrite Hz in *.
  change 0 with (inject_Z 0) in Hq. change 1 with (inject_Z 1).
  rewrite <- Zlt_Qlt in Hq. rewrite <- Zle_Qle. lia.
Qed.

(** X12.  [low_chip_ub] and [high_chip_lb] are one row per low-value chip,
    [x_l <= 0.20 * Sum_c x_c], and one per high-value chip,
    [x_h >= 0.05 * Sum_c x_c], the two factors being the binary64 numbers
    that the literals denote (the first within 1e-16 above a fifth, the
    second not below a twentieth).  So in every feasible plan no low-value
    chip is more than that share of the chips made, every high-value chip
    is at least a twentieth of them, and a plan that makes any chip makes
    at least one of each high-value type. *)
Theorem shares_of_the_total (k : Kernel) :
  exists (p : Practice) (k1 : Kernel),
    until_shares on_hand chips_data recipes k = (inr p, k1)
    /\ keys (p_low_chip_ub p) = low_chips
    /\ keys (p_high_chip_lb p) = high_chips
    /\ rows (model k1)
       = (rows_recreated ++ family 5 "low_chip_ub" low_chips low_ub
          ++ family 9 "high_chip_lb" high_chips high_lb)%list
    /\ 1 # 5 <= SF2Q (literal 20 100)
    /\ SF2Q (literal 20 100) <= (1 # 5) + (1 # 10000000000000000)
    /\ 1 # 20 <= SF2Q (literal 5 100)
    /\ forall a, feasible (model k1) a ->
         0 <= eval a total
         /\ (forall l, In l low_chips ->
                       a (x_ l) <= SF2Q (literal 20 100) * eval a total)
         /\ (forall h, In h high_chips ->
                       (1 # 20) * eval a total <= a (x_ h))
         /\ (0 < eval a total ->
             forall h, In h high_chips -> 1 <= a (x_ h)).
Proof.
  destruct (until_shares_shape k) as [k1 [R1 H1]].
  destruct (shape_parts _ _ _ _ _ _ H1) as (V1 & W1 & _).
  eexists. exists k1. split; [exact R1|].
  split; [reflexivity|]. split; [reflexivity|]. split; [exact W1|].
  assert (C05 : 1 # 20 <= SF2Q (literal 5 100)) by (vm_compute; discriminate).
  split; [vm_compute; discriminate|].
  split; [vm_compute; discriminate|].
  split; [exact C05|].
  intros a [Hdom Hsat]. rewrite V1 in Hdom. rewrite W1 in Hsat.
  rewrite !satisfies_app in Hsat. destruct Hsat as [_ [Hlow Hhigh]].
  unfold MoreRealisticSpec.rows_low_chip_ub in Hlow.
  unfold MoreRealisticSpec.rows_high_chip_lb in Hhigh.
  rewrite satisfies_family in Hlow, Hhigh.
  assert (HT : 0 <= eval a total).
  { apply total_not_negative. intros c Hc. apply (x_plan a c Hdom Hc). }
  assert (Hh : forall h, In h high_chips ->
                         (1 # 20) * eval a total <= a (x_ h)).
  { intros h Hin. specialize (Hhigh h Hin).
    unfold holds, high_lb in Hhigh.
    rewrite eval_scale, eval_of_var in Hhigh.
    apply Qle_trans with (SF2Q (literal 5 100) * eval a total);
      [|exact Hhigh].
    apply Qmult_le_compat_r; [exact C05 | exact HT]. }
  split; [exact HT|]. split.
  { intros l Hin. specialize (Hlow l Hin).
    unfold holds, low_ub in Hlow.
    rewrite eval_scale, eval_of_var in Hlow. exact Hlow. }
  split; [exact Hh|].
  intros Hpos h Hin. apply positive_integer.
  - apply (x_plan a h Hdom). destruct NoDup_chips as [_ [_ Hincl]].
    apply Hincl, Hin.
  - specialize (Hh h Hin). lra.
Qed.

Lemma holds_at_most_25 (a : assignment) (c : string) :
  holds a (at_most_25 c) <-> a (x_ c) <= a (x_ "twenty-five").
Proof.
  unfold holds, at_most_25. rewrite !eval_of_var. reflexivity.
Qed.

Lemma C_minus25_chips (c : string) :
  In c C_minus25 <-> In c chips /\ c <> "twenty-five".
Proof.
  unfold C_minus25. rewrite filter_In, negb_true_iff.
  destruct (String.eqb_spec c "twenty-five"); intuition congruence.
Qed.

(** X13.  [C_minus25] is every chip but the twenty-five, and [max_25] holds
    one row [x_{twenty-five} >= x_c] for each of these six: in every
    feasible plan no chip is made in greater number than the
    twenty-five. *)
Theorem twenty_five_is_the_most (k : Kernel) :
  exists (p : Practice) (k1 : Kernel),
    until_max_25 on_hand chips_data recipes k = (inr p, k1)
    /\ C_minus25
       = ["one"; "five"; "ten"; "one hundred"; "five hundred"; "thousand"]
    /\ (forall c, In c C_minus25 <-> In c chips /\ c <> "twenty-five")
    /\ keys (p_max_25 p) = C_minus25
    /\ rows (model k1)
       = (rows_recreated ++ rows_low_chip_ub ++ rows_high_chip_lb
          ++ family 12 "max_25" C_minus25 at_most_25)%list
    /\ (forall a, satisfies a (family 12 "max_25" C_minus25 at_most_25)
                  <-> forall c, In c chips ->
                                a (x_ c) <= a (x_ "twenty-five"))
    /\ forall a, feasible (model k1) a ->
         forall c, In c chips -> a (x_ c) <= a (x_ "twenty-five").
Proof.
  destruct (until_max_25_shape k) as [k1 [R1 H1]].
  destruct (shape_parts _ _ _ _ _ _ H1) as (V1 & W1 & _).
  assert (Hrows : forall a,
             satisfies a (family 12 "max_25" C_minus25 at_most_25)
             <-> forall c, In c chips -> a (x_ c) <= a (x_ "twenty-five")).
  { intros a. rewrite satisfies_family. split.
    - intros H c Hc. destruct (String.eqb_spec c "twenty-five") as [->|Hn].
      + apply Qle_refl.
      + apply holds_at_most_25, H, C_minus25_chips. tauto.
    - intros H c Hc. apply holds_at_most_25, H.
      apply C_minus25_chips in Hc. tauto. }
  eexists. exists k1. split; [exact R1|].
  split; [reflexivity|]. split; [exact C_minus25_chips|].
  split; [reflexivity|]. split; [exact W1|]. split; [exact Hrows|].
  intros a [_ Hsat]. rewrite W1 in Hsat.
  rewrite !satisfies_app in Hsat. destruct Hsat as [_ [_ [_ H25]]].
  apply Hrows, H25.
Qed.

(** X14.  [model.remove([low_chip_ub, high_chip_lb, max_25])] takes out
    the thirteen rows of the three families -- four, three and six -- and
    nothing else: the four ingredient rows and the seven rows of
    [percent30], added after them, stay in their order; the columns and the
    objective are untouched, and every plan that was feasible still is.
    The cells that follow, up to the logical constraints, start from this
    model. *)
Theorem practice_cleanup (k : Kernel) :
  exists k1 k2 : Kernel,
    until_percent30 on_hand chips_data recipes k = (inr practice, k1)
    /\ remove_practice practice k1 = (inr tt, k2)
    /\ until_cleanup on_hand chips_data recipes k = (inr practice, k2)
    /\ List.length (values (p_low_chip_ub practice)
                    ++ values (p_high_chip_lb practice)
                    ++ values (p_max_25 practice)) = 13%nat
    /\ rows (model k1)
       = (rows_recreated ++ rows_low_chip_ub ++ rows_high_chip_lb
          ++ rows_max_25 ++ rows_percent30)%list
    /\ rows (model k2) = (rows_recreated ++ rows_percent30)%list
    /\ map handle (rows_low_chip_ub ++ rows_high_chip_lb ++ rows_max_25)
       = (values (p_low_chip_ub practice)
          ++ values (p_high_chip_lb practice)
          ++ values (p_max_25 practice))%list
    /\ map ConstrName (rows (model k2))
       = ["ingredient_usage[clay]"; "ingredient_usage[lead]";
          "ingredient_usage[silver]"; "ingredient_usage[gold]";
          "percent30[one]"; "percent30[five]"; "percent30[ten]";
          "percent30[twenty-five]"; "percent30[one hundred]";
          "percent30[five hundred]"; "percent30[thousand]"]
    /\ vars (model k2) = vars (model k1)
    /\ objective (model k2) = objective (model k1)
    /\ sense (model k2) = sense (model k1)
    /\ (forall a, feasible (model k1) a -> feasible (model k2) a)
    /\ until_logical on_hand chips_data recipes k
       = (yl <~ add_link_x_y (p_x practice) ;;
          logical_constraints (fst yl) ;;;
          cret (p_x practice, fst yl)) k2.
Proof.
  destruct (until_cleanup_shape k) as [k1 [k2 [R1 [H1 [R2 [Rc H2]]]]]].
  destruct (until_logical_shape k) as [k2' [_ [Rc' [E _]]]].
  assert (Ek : k2' = k2) by congruence. subst k2'.
  destruct (shape_parts _ _ _ _ _ _ H1) as (V1 & W1 & _ & O1 & D1).
  destruct (shape_parts _ _ _ _ _ _ H2) as (V2 & W2 & _ & O2 & D2).
  exists k1, k2. split; [exact R1|]. split; [exact R2|]. split; [exact Rc|].
  split; [reflexivity|]. split; [exact W1|]. split; [exact W2|].
  split; [reflexivity|].
  split; [rewrite W2; vm_compute; reflexivity|].
  split; [rewrite V2, V1; reflexivity|].
  split; [rewrite O2, O1; reflexivity|].
  split; [rewrite D2, D1; reflexivity|].
  split; [|exact E].
  intros a. unfold feasible. rewrite V1, V2, W1, W2.
  rewrite !satisfies_app. tauto.
Qed.

Lemma inject_nat_eq (n m : nat) :
  inject_Z (Z.of_nat n) == inject_Z (Z.of_nat m) -> n = m.
Proof.
  intros H.
  assert (H1 : inject_Z (Z.of_nat n) <= inject_Z (Z.of_nat m))
    by (rewrite H; apply Qle_refl).
  assert (H2 : inject_Z (Z.of_nat m) <= inject_Z (Z.of_nat n))
    by (rewrite H; apply Qle_refl).
  apply inject_nat_le in H1. apply inject_nat_le in H2. lia.
Qed.

Lemma logical_rows (a : assignment) :
  satisfies a rows_logical ->
  (forall c, In c chips -> holds a (linked c))
  /\ eval a high_pair == 1
  /\ 2 <= eval a low_types /\ eval a low_types <= 3.
Proof.
  unfold MoreRealisticSpec.rows_logical. rewrite !satisfies_app.
  intros [_ [_ [Hlink Hlog]]].
  split; [apply (satisfies_family a "link_x_y" linked chips 25%nat), Hlink|].
  unfold satisfies in Hlog.
  pose proof (Forall_inv (Forall_inv_tail Hlog)) as Hex.
  pose proof (Forall_inv (Forall_inv_tail (Forall_inv_tail Hlog))) as Hmin.
  pose proof (Forall_inv (Forall_inv_tail (Forall_inv_tail
                            (Forall_inv_tail Hlog)))) as Hmax.
  cbn [body holds] in Hex, Hmin, Hmax.
  rewrite eval_number in Hex, Hmin, Hmax.
  split; [exact Hex|]. split; [exact Hmin | exact Hmax].
Qed.

(** X15.  The rows [min_low_value_types] and [max_low_value_types] bound
    [Sum_l y_l] over the four low-value chips by 2 and 3, and the range
    [== [2, 3]] of the last call says the same in one row.  With them every
    feasible plan switches on two or three low-value indicators, makes at
    most three low-value types, and -- one of the five hundred and the
    thousand being on, the one hundred free -- has three to five
    indicators on in all. *)
Theorem two_or_three_low_types (k : Kernel) :
  exists k1 : Kernel,
    until_logical on_hand chips_data recipes k = (inr (x_cols, y_cols), k1)
    /\ In (mkRow 34 "min_low_value_types"
                 (Cmp low_types GREATER_EQUAL (number 2))) (rows (model k1))
    /\ In (mkRow 35 "max_low_value_types"
                 (Cmp low_types LESS_EQUAL (number 3))) (rows (model k1))
    /\ In (mkRow 36 "max_low_value_types" (Range low_types 2 3))
          (rows (model k1))
    /\ (forall a, holds a (Range low_types 2 3)
                  <-> holds a (Cmp low_types GREATER_EQUAL (number 2))
                      /\ holds a (Cmp low_types LESS_EQUAL (number 3)))
    /\ forall a, feasible (model k1) a ->
         (List.length (switched_on a low_chips) = 2
          \/ List.length (switched_on a low_chips) = 3)%nat
         /\ (List.length (made a low_chips) <= 3)%nat
         /\ (3 <= List.length (switched_on a chips) <= 5)%nat.
Proof.
  destruct (until_logical_shape k) as [_ [k1 [_ [_ [R1 H1]]]]].
  destruct (shape_parts _ _ _ _ _ _ H1) as (V1 & W1 & _).
  exists k1. split; [exact R1|]. rewrite W1.
  split; [vm_compute; tauto|]. split; [vm_compute; tauto|].
  split; [vm_compute; tauto|].
  split.
  { intros a. unfold holds. rewrite !eval_number. reflexivity. }
  intros a [Hdom Hsat]. rewrite V1 in Hdom. rewrite W1 in Hsat.
  destruct (logical_rows a Hsat) as [Hlink [Hex [Hmin Hmax]]].
  assert (Hincl : forall c, In c low_chips -> In c chips)
    by (intros c Hc; simpl in *; tauto).
  assert (Hlow := sum_indicators a y_ low_chips
                    (fun c Hc => y_binary a c Hdom (Hincl c Hc))).
  fold (switched_on a low_chips) in Hlow. fold low_types in Hlow.
  rewrite Hlow in Hmin, Hmax.
  change 2 with (inject_Z (Z.of_nat 2)) in Hmin.
  change 3 with (inject_Z (Z.of_nat 3)) in Hmax.
  apply inject_nat_le in Hmin. apply inject_nat_le in Hmax.
  assert (Hhigh := sum_indicators a y_ high_chips
                     (fun c Hc => y_binary a c Hdom
                                    (proj2 (proj2 NoDup_chips) c Hc))).
  fold (switched_on a high_chips) in Hhigh.
  rewrite eval_quicksum in Hhigh. unfold sumQ in Hhigh.
  cbn [map fold_right high_chips] in Hhigh.
  rewrite !eval_of_var in Hhigh.
  unfold high_pair in Hex. rewrite eval_plus, !eval_of_var in Hex.
  assert (Hn : (1 <= List.length (switched_on a high_chips) <= 2)%nat).
  { destruct (y_binary a "one hundred" Hdom ltac:(simpl; tauto)) as [E|E].
    - assert (E1 : inject_Z (Z.of_nat (List.length
                                         (switched_on a high_chips)))
                   == inject_Z (Z.of_nat 1)).
      { rewrite <- Hhigh. change (inject_Z (Z.of_nat 1)) with 1. lra. }
      apply inject_nat_eq in E1. lia.
    - assert (E1 : inject_Z (Z.of_nat (List.length
                                         (switched_on a high_chips)))
                   == inject_Z (Z.of_nat 2)).
      { rewrite <- Hhigh. change (inject_Z (Z.of_nat 2)) with 2. lra. }
      apply inject_nat_eq in E1. lia. }
  split; [lia|]. split.
  { apply Nat.le_trans with (List.length (switched_on a low_chips));
      [|exact Hmax].
    apply made_switched_on. intros c Hc. split.
    - apply (y_binary a c Hdom (Hincl c Hc)).
    - apply linked_off, Hlink, Hincl, Hc. }
  assert (Hsplit : List.length (switched_on a chips)
                   = (List.length (switched_on a low_chips)
                      + List.length (switched_on a high_chips))%nat).
  { unfold switched_on.
    change chips with (low_chips ++ high_chips)%list.
    rewrite filter_app, length_app. reflexivity. }
  lia.
Qed.

Lemma holds_le_vars (a : assignment) (u v : Var) :
  holds a (Cmp (of_var u) LESS_EQUAL (of_var v)) <-> a u <= a v.
Proof. unfold holds. rewrite !eval_of_var. reflexivity. Qed.

Lemma implication_rows (a : assignment) :
  (a (y_ "one") == 0 \/ a (y_ "one") == 1) ->
  (a (y_ "five") == 0 \/ a (y_ "five") == 1) ->
  (a (y_ "ten") == 0 \/ a (y_ "ten") == 1) ->
  (holds a one_implies_five
   <-> (a (y_ "one") == 1 -> a (y_ "five") == 1))
  /\ (holds a one_implies_ten
      <-> (a (y_ "one") == 1 -> a (y_ "ten") == 1))
  /\ (holds a one_implies_both
      <-> holds a one_implies_five /\ holds a one_implies_ten)
  /\ (holds a one_implies_both
      <-> (a (y_ "one") == 1 -> a (y_ "five") == 1 /\ a (y_ "ten") == 1))
  /\ (holds a one_implies_either
      <-> (a (y_ "one") == 1 -> a (y_ "five") == 1 \/ a (y_ "ten") == 1)).
Proof.
  intros H1 H5 H10.
  unfold one_implies_five, one_implies_ten, one_implies_both,
    one_implies_either, holds.
  rewrite !eval_plus, !eval_of_var, !eval_times.
  destruct H1 as [E1|E1], H5 as [E5|E5], H10 as [E10|E10];
    rewrite ?E1, ?E5, ?E10;
    splits; (split; [intros; try split; try lra; try (intros; lra) | ]);
    try (intros; lra);
    try (intros [? ?]; lra);
    try (intros H; try (specialize (H ltac:(reflexivity))); 
         try destruct H; lra).
Qed.

(** X16.  The candidates for the conditional statements are five rows of
    their own, added after the logical ones under two names only.  On
    binary indicators [y_one <= y_five] says "if the one is switched on, so
    is the five"; the two rows [y_one <= y_five], [y_one <= y_ten] and the
    single row [2 * y_one <= y_five + y_ten] both say "then the five and
    the ten", and [y_one <= y_five + y_ten] says "then the five or the
    ten".  The single row is the weaker one once the indicators may take
    fractions.  The model that holds all five rows asks for the five and
    the ten whenever the one is on. *)
Theorem one_implies (k : Kernel) :
  exists k1 : Kernel,
    until_logistical on_hand chips_data recipes k
    = (inr (x_cols, y_cols), k1)
    /\ rows (model k1) = (rows_logical ++ rows_logistical)%list
    /\ map (fun r => (handle r, ConstrName r)) rows_logistical
       = [(37%nat, "one_implies_five"); (38%nat, "one_implies_five");
          (39%nat, "one_implies_ten"); (40%nat, "one_implies_ten");
          (41%nat, "one_implies_ten")]
    /\ map body rows_logistical
       = [one_implies_five; one_implies_five; one_implies_ten;
          one_implies_both; one_implies_either]
    /\ (forall a,
          (a (y_ "one") == 0 \/ a (y_ "one") == 1) ->
          (a (y_ "five") == 0 \/ a (y_ "five") == 1) ->
          (a (y_ "ten") == 0 \/ a (y_ "ten") == 1) ->
          (holds a one_implies_five
           <-> (a (y_ "one") == 1 -> a (y_ "five") == 1))
          /\ (holds a one_implies_ten
              <-> (a (y_ "one") == 1 -> a (y_ "ten") == 1))
          /\ (holds a one_implies_both
              <-> holds a one_implies_five /\ holds a one_implies_ten)
          /\ (holds a one_implies_both
              <-> (a (y_ "one") == 1 ->
                   a (y_ "five") == 1 /\ a (y_ "ten") == 1))
          /\ (holds a one_implies_either
              <-> (a (y_ "one") == 1 ->
                   a (y_ "five") == 1 \/ a (y_ "ten") == 1)))
    /\ (forall a, holds a one_implies_five -> holds a one_implies_ten ->
                  holds a one_implies_both)
    /\ (exists a, holds a one_implies_both /\ ~ holds a one_implies_ten)
    /\ forall a, feasible (model k1) a ->
         a (y_ "one") == 1 -> a (y_ "five") == 1 /\ a (y_ "ten") == 1.
Proof.
  destruct (until_logistical_shape k) as [k1 [R1 H1]].
  destruct (shape_parts _ _ _ _ _ _ H1) as (V1 & W1 & _).
  exists k1. split; [exact R1|]. split; [exact W1|].
  split; [reflexivity|]. split; [reflexivity|].
  split; [exact implication_rows|].
  split.
  { intros a. unfold one_implies_five, one_implies_ten, one_implies_both,
      holds.
    rewrite !eval_plus, !eval_of_var, !eval_times. intros; lra. }
  split.
  { exists (fun v => if Nat.eqb v (y_ "one") then 1 # 2
                     else if Nat.eqb v (y_ "five") then 1 else 0).
    unfold one_implies_ten, one_implies_both, holds.
    rewrite !eval_plus, !eval_of_var, !eval_times.
    split; vm_compute; [discriminate | intros H; apply H; reflexivity]. }
  intros a [Hdom Hsat] Hone. rewrite V1 in Hdom. rewrite W1 in Hsat.
  rewrite satisfies_app in Hsat. destruct Hsat as [_ Hsat].
  unfold satisfies in Hsat.
  pose proof (Forall_inv Hsat) as H5.
  pose proof (Forall_inv (Forall_inv_tail (Forall_inv_tail Hsat))) as H10.
  cbn [body] in H5, H10.
  destruct (implication_rows a
              (y_binary a "one" Hdom ltac:(simpl; tauto))
              (y_binary a "five" Hdom ltac:(simpl; tauto))
              (y_binary a "ten" Hdom ltac:(simpl; tauto)))
    as [I5 [I10 _]].
  split; [apply I5; assumption | apply I10; assumption].
Qed.

Lemma made_or_not (a : assignment) (lo hi : Q) (c : string) :
  (a (y_ c) == 0 \/ a (y_ c) == 1) ->
  0 <= a (x_ c) ->
  holds a (at_least lo c) -> holds a (at_most hi c) ->
  (a (y_ c) == 0 /\ a (x_ c) == 0)
  \/ (a (y_ c) == 1 /\ lo <= a (x_ c) <= hi).
Proof.
  unfold holds, at_least, at_most. rewrite !eval_of_var, !eval_times.
  intros [E|E] Hx Hlo Hhi; rewrite E in Hlo, Hhi.
  - left. split; [exact E | lra].
  - right. split; [exact E | split; lra].
Qed.

(** X17.  The cell "Using big M" adds four families: for every high-value
    chip [x_h >= 2 * y_h] and [x_h <= 30 * y_h], for every low-value chip
    [x_l >= 30 * y_l] and [x_l <= M * y_l] with [M = 500]; the last two
    share the name [min_low_value], and the Python name ends up bound to
    the last family.  In every feasible plan a high-value chip is either
    switched off and not made, or switched on and made between 2 and 30
    times; a low-value chip is either switched off and not made, or
    switched on and made between 30 and 500 times. *)
Theorem made_within_bounds (k : Kernel) :
  exists (b : dict Constr * dict Constr * dict Constr) (k1 : Kernel),
    until_big_M on_hand chips_data recipes k = (inr (x_cols, y_cols, b), k1)
    /\ M == 500
    /\ rows (model k1)
       = (rows_logical ++ rows_logistical
          ++ family 42 "min_high_value" high_chips (at_least 2)
          ++ family 45 "max_high_value" high_chips (at_most 30)
          ++ family 48 "min_low_value" low_chips (at_least 30)
          ++ family 52 "min_low_value" low_chips (at_most M))%list
    /\ b = (combine high_chips (seq 42 3), combine high_chips (seq 45 3),
            combine low_chips (seq 52 4))
    /\ forall a, feasible (model k1) a ->
         (forall h, In h high_chips ->
            (a (y_ h) == 0 /\ a (x_ h) == 0)
            \/ (a (y_ h) == 1 /\ 2 <= a (x_ h) <= 30))
         /\ (forall l, In l low_chips ->
               (a (y_ l) == 0 /\ a (x_ l) == 0)
               \/ (a (y_ l) == 1 /\ 30 <= a (x_ l) <= 500)).
Proof.
  destruct (until_big_M_shape k) as [k1 [R1 H1]].
  destruct (shape_parts _ _ _ _ _ _ H1) as (V1 & W1 & _).
  eexists. exists k1. split; [exact R1|]. split; [reflexivity|].
  split; [exact W1|]. split; [reflexivity|].
  intros a [Hdom Hsat]. rewrite V1 in Hdom. rewrite W1 in Hsat.
  unfold MoreRealisticSpec.rows_big_M in Hsat.
  rewrite !satisfies_app in Hsat.
  destruct Hsat as [_ [_ [Hh1 [Hh2 [Hl1 Hl2]]]]].
  rewrite satisfies_family in Hh1, Hh2, Hl1, Hl2.
  destruct NoDup_chips as [_ [_ Hincl]].
  split.
  - intros h Hin. apply made_or_not.
    + apply (y_binary a h Hdom), Hincl, Hin.
    + apply (x_count a h _ Hdom), Hincl, Hin.
    + apply Hh1, Hin.
    + apply Hh2, Hin.
  - intros l Hin.
    assert (Hc : In l chips) by (simpl in *; tauto).
    apply (made_or_not a 30 M).
    + apply (y_binary a l Hdom Hc).
    + apply (x_count a l _ Hdom Hc).
    + apply Hl1, Hin.
    + apply Hl2, Hin.
Qed.


Local Notation rows_stage1 := (rows_stage1 on_hand chips_data recipes).
Local Notation stage1_model := (stage1_model on_hand chips_data recipes).
Local Notation stage := (stage chips_data).


(** X19.  The second cell of the hierarchical procedure starts with
    [z = model.ObjVal].  On a model that holds no solution this raises, and
    the cell ends there: nothing is printed, no row is added, the objective
    stays, the solver is not called a second time.  So it is after a first
    stage for which the solver found nothing. *)
Theorem second_stage_needs_a_solution :
  (forall (st : Stage) (k1 : Kernel),
      solution (model k1) = None ->
      second_stage st k1 = (inl (AttributeError "ObjVal"), k1))
  /\ (forall k : Kernel,
        solver k stage1_model = None ->
        exists k1 : Kernel,
          first_stage on_hand chips_data recipes k = (inr stage, k1)
          /\ solution (model k1) = None
          /\ second_stage stage k1 = (inl (AttributeError "ObjVal"), k1)
          /\ (s <~ first_stage on_hand chips_data recipes ;;
              second_stage s) k
             = (inl (AttributeError "ObjVal"), k1)
          /\ solved k1 = (solved k ++ [stage1_model])%list
          /\ rows (model k1) = rows_stage1
          /\ objective (model k1) = total).
Proof.
  assert (H : forall (st : Stage) (k1 : Kernel),
             solution (model k1) = None ->
             second_stage st k1 = (inl (AttributeError "ObjVal"), k1)).
  { intros st k1 Hs. unfold second_stage.
    apply cbind_raise. unfold read_model, get_ObjVal. rewrite Hs.
    reflexivity. }
  split; [exact H|].
  intros k Hnone.
  destruct (first_stage_run on_hand chips_data recipes k)
    as [k1 [R1 [M1 [S1 _]]]].
  rewrite Hnone in M1.
  assert (Hs : solution (model k1) = None) by (rewrite M1; reflexivity).
  exists k1. split; [exact R1|]. split; [exact Hs|].
  split; [apply H, Hs|].
  split; [rewrite (cbind_ok _ _ _ _ _ R1); apply H, Hs|].
  split; [exact S1|].
  split; rewrite M1; reflexivity.
Qed.

(** Replaces the table entries of the second notebook by those of the
    first, where the tables agree. *)
Ltac first_notebook_data Hr Hq Hv :=
  repeat match goal with
         | |- context [recipes ?c ?i] =>
             let H := fresh in
             assert (H := Hr c i ltac:(simpl; tauto) ltac:(simpl; tauto));
             rewrite H; clear H
         | |- context [on_hand ?i] =>
             let H := fresh in
             assert (H := Hq i ltac:(simpl; tauto));
             rewrite H; clear H
         | |- context [value chips_data ?c] =>
             let H := fresh in
             assert (H := Hv c ltac:(simpl; tauto));
             rewrite H; clear H
         end;
  CasinoChipsFacts.entries.

Lemma usage_rows (a : assignment) :
  satisfies a rows_before_demand
  <-> (forall i, In i ingredients ->
         recipes "one" i * a 0%nat + recipes "five" i * a 1%nat
         + recipes "ten" i * a 2%nat + recipes "twenty-five" i * a 3%nat
         + recipes "one hundred" i * a 4%nat
         + recipes "five hundred" i * a 5%nat
         + recipes "thousand" i * a 6%nat <= on_hand i).
Proof.
  unfold MoreRealisticSpec.rows_before_demand. rewrite satisfies_family.
  assert (E : forall i,
    holds a (usage i)
    <-> recipes "one" i * a 0%nat + recipes "five" i * a 1%nat
        + recipes "ten" i * a 2%nat + recipes "twenty-five" i * a 3%nat
        + recipes "one hundred" i * a 4%nat
        + recipes "five hundred" i * a 5%nat
        + recipes "thousand" i * a 6%nat <= on_hand i).
  { intros i. unfold holds, MoreRealisticSpec.usage.
    rewrite eval_quicksum, eval_number. unfold sumQ.
    cbn [map fold_right chips]. rewrite !eval_times. cols.
    split; intros H; lra. }
  split; intros H i Hi; apply E, H, Hi.
Qed.

(** X20.  When the three tables read from the CSV files hold the data of
    the first notebook, the model that the cell "Original model" hands to
    the solver has the optimal value 42143, the objective value that the
    notebook records for this cell, and the plan it records -- 38 ones, 1
    five, 284 twenty-fives, 50 five hundreds, 10 thousands -- is feasible
    and attains it: no feasible plan is worth more. *)
Theorem original_model_optimum (k : Kernel) :
  (forall c i, In c chips -> In i ingredients ->
               recipes c i == CasinoChipsSpec.r_ c i) ->
  (forall i, In i ingredients -> on_hand i == CasinoChipsSpec.q_ i) ->
  (forall c, In c chips -> value chips_data c == CasinoChipsSpec.v_ c) ->
  exists (xi : dict Var * dict Constr) (k1 : Kernel),
    original_model on_hand chips_data recipes k = (inr xi, k1)
    /\ solves k1
       = (solves k ++ [(vars (model k1), rows (model k1),
                        (objective (model k1), sense (model k1)))])%list
    /\ sense (model k1) = MAXIMIZE
    /\ feasible (model k1) Examples.recorded_plan
    /\ eval Examples.recorded_plan (objective (model k1)) == 42143
    /\ forall a, feasible (model k1) a ->
                 eval a (objective (model k1)) <= 42143.
Proof.
  intros Hr Hq Hv.
  destruct (original_model_step k) as [k1 [R1 [H1 S1]]].
  destruct (shape_parts _ _ _ _ _ _ H1) as (V1 & W1 & _ & O1 & D1).
  eexists. exists k1. split; [exact R1|].
  split; [rewrite S1, V1, W1, O1, D1; reflexivity|].
  split; [exact D1|].
  unfold feasible. rewrite V1, W1, O1.
  assert (Hobj : forall a,
             eval a (val chips)
             == a 0%nat + 5 * a 1%nat + 10 * a 2%nat + 25 * a 3%nat
                + 100 * a 4%nat + 500 * a 5%nat + 1000 * a 6%nat).
  { intros a. rewrite (eval_val chips_data a).
    first_notebook_data Hr Hq Hv. lra. }
  split.
  { split.
    - intros v va Hva.
      do 7 (destruct v as [|v];
            [injection Hva as <-; apply in_domainb_sound;
             vm_compute; reflexivity |]).
      destruct v; discriminate Hva.
    - apply usage_rows. intros i Hi.
      each_of Hi; first_notebook_data Hr Hq Hv; vm_compute; discriminate. }
  split.
  { rewrite Hobj. vm_compute. reflexivity. }
  intros a [Hdom Hsat]. rewrite Hobj.
  pose proof (proj1 (usage_rows a) Hsat) as Hu.
  pose proof (Hu "clay" ltac:(simpl; tauto)) as U1.
  pose proof (Hu "lead" ltac:(simpl; tauto)) as U2.
  pose proof (Hu "silver" ltac:(simpl; tauto)) as U3.
  pose proof (Hu "gold" ltac:(simpl; tauto)) as U4.
  clear Hu Hsat.
  revert U1 U2 U3 U4. first_notebook_data Hr Hq Hv. intros U1 U2 U3 U4.
  apply CasinoChipsOptimum.chip_program_bound.
  - apply (CasinoChipsOptimum.chip_counts a x_attrs eq_refl Hdom).
  - lra.
  - lra.
  - lra.
  - lra.
Qed.

End Cells.

End MoreRealisticCells.

(** ** The other cells, on the example data *)

Module MoreRealisticExamples.
Import MoreRealistic MoreRealisticSpec MoreRealisticFacts ModelFacts.
Import MoreRealisticCells.


(** The columns of the seven chips. *)
Lemma sum_of_all_columns_witness :
  NoDup chips
  /\ total_chips_quicksum x_cols = inr (tupledict_sum x_cols)
  /\ terms (tupledict_sum x_cols)
     = [(1, 0%nat); (1, 1%nat); (1, 2%nat); (1, 3%nat); (1, 4%nat);
        (1, 5%nat); (1, 6%nat)].
Proof.
  split; [apply NoDup_chips|].
  destruct (sum_of_all_columns chips INTEGER "chips"
              (Model_new "Poker Chips") (proj1 NoDup_chips)) as [H1 [H2 _]].
  split; [exact H1 | exact H2].
Defined.

Lemma first_notebook_tables :
  (forall i, In i ingredients -> 0 <= CasinoChipsSpec.q_ i)
  /\ fixed_cost Examples.chips_data "one"
     + fixed_cost Examples.chips_data "five"
     + fixed_cost Examples.chips_data "five hundred" <= 280.
Proof.
  split.
  - intros i Hi. each_of Hi; vm_compute; discriminate.
  - vm_compute. discriminate.
Qed.

(** With the tables of the first notebook the idle plan is feasible. *)
Lemma min_types_counts_indicators_witness :
  (forall i, In i ingredients -> 0 <= CasinoChipsSpec.q_ i)
  /\ fixed_cost Examples.chips_data "one"
     + fixed_cost Examples.chips_data "five"
     + fixed_cost Examples.chips_data "five hundred" <= 280
  /\ exists k1 : Kernel,
       until_types CasinoChipsSpec.q_ Examples.chips_data CasinoChipsSpec.r_
                   (Examples.kernel Examples.no_solution)
       = (inr (handles, (20%nat, 21%nat)), k1)
       /\ feasible (model k1) Examples.idle.
Proof.
  destruct first_notebook_tables as [H1 H2].
  split; [exact H1|]. split; [exact H2|].
  destruct (min_types_counts_indicators CasinoChipsSpec.q_
              Examples.chips_data CasinoChipsSpec.r_
              (Examples.kernel Examples.no_solution) H1 H2)
    as [k1 [Hrun [Hf _]]].
  exists k1. split; [exact Hrun | exact Hf].
Defined.

(** Thirty of each of five types: a plan within the bounds of the cell
    "Using big M", the five hundred switched on and made thirty times. *)
Lemma made_within_bounds_witness :
  feasible (model (snd (until_big_M CasinoChipsSpec.q_ Examples.chips_data
                          CasinoChipsSpec.r_
                          (Examples.kernel Examples.no_solution))))
           Examples.thirty_each
  /\ Examples.thirty_each (y_ "five hundred") == 1
  /\ 2 <= Examples.thirty_each (x_ "five hundred") <= 30.
Proof.
  assert (F : feasible (model (snd (until_big_M CasinoChipsSpec.q_
                         Examples.chips_data CasinoChipsSpec.r_
                         (Examples.kernel Examples.no_solution))))
                       Examples.thirty_each)
    by (apply feasibleb_sound; vm_compute; reflexivity).
  split; [exact F|].
  destruct (made_within_bounds CasinoChipsSpec.q_ Examples.chips_data
              CasinoChipsSpec.r_ (Examples.kernel Examples.no_solution))
    as [b [k1 [Hrun [_ [_ [_ Hall]]]]]].
  rewrite Hrun in F. simpl snd in F.
  destruct (proj1 (Hall Examples.thirty_each F) "five hundred"
                  ltac:(simpl; tauto)) as [[E _]|H].
  - exfalso. vm_compute in E. discriminate E.
  - exact H.
Defined.

(** A solver that finds nothing: the second cell raises. *)
Lemma second_stage_needs_a_solution_witness :
  exists k1 : Kernel,
    first_stage CasinoChipsSpec.q_ Examples.chips_data CasinoChipsSpec.r_
                (Examples.kernel Examples.no_solution)
    = (inr (stage Examples.chips_data), k1)
    /\ second_stage (stage Examples.chips_data) k1
       = (inl (AttributeError "ObjVal"), k1).
Proof.
  destruct (proj2 (second_stage_needs_a_solution CasinoChipsSpec.q_
                     Examples.chips_data CasinoChipsSpec.r_)
                  (Examples.kernel Examples.no_solution) eq_refl)
    as [k1 [R1 [_ [R2 _]]]].
  exists k1. split; [exact R1 | exact R2].
Defined.

(** The tables of the first notebook themselves. *)
Lemma original_model_optimum_witness :
  exists k1 : Kernel,
    snd (original_model CasinoChipsSpec.q_ Examples.chips_data
           CasinoChipsSpec.r_ (Examples.kernel Examples.no_solution)) = k1
    /\ feasible (model k1) Examples.recorded_plan
    /\ forall a, feasible (model k1) a ->
                 eval a (objective (model k1)) <= 42143.
Proof.
  destruct (original_model_optimum CasinoChipsSpec.q_ Examples.chips_data
              CasinoChipsSpec.r_ (Examples.kernel Examples.no_solution)
              (fun c i _ _ => Qeq_refl _) (fun i _ => Qeq_refl _)
              (fun c _ => Qeq_refl _))
    as [xi [k1 [Hrun [_ [_ [Hf [_ Hopt]]]]]]].
  exists k1. split; [rewrite Hrun; reflexivity|].
  split; [exact Hf | exact Hopt].
Defined.

End MoreRealisticExamples.

(* ================================================================== *)
(** * The data cell: what it raises                                    *)
(* ================================================================== *)

Module DataFilesErrors.
Import DataFiles DataFilesFacts.

Lemma read_csv_missing (fs : FileSystem) (path : string)
  (cols : list string) :
  fs path = None -> read_csv fs path cols = inl (FileNotFoundError path).
Proof. intros H. unfold read_csv. rewrite H. reflexivity. Qed.

Lemma read_csv_empty (fs : FileSystem) (path : string) (f : CSV)
  (cols : list string) :
  fs path = Some f -> header f = [] ->
  read_csv fs path cols = inl (ValueError "No columns to parse from file").
Proof. intros H E. unfold read_csv. rewrite H, E. reflexivity. Qed.

Lemma read_csv_no_column (fs : FileSystem) (path : string) (f : CSV)
  (pre : list string) (ixs : list nat) (c : string) (post : list string) :
  fs path = Some f ->
  header f <> [] ->
  Forall2 (fun c i => position c (header f) = Some i) pre ixs ->
  position c (header f) = None ->
  read_csv fs path (pre ++ c :: post) = inl (ValueError c).
Proof.
  intros Hf Hh Hpre Hc. unfold read_csv. rewrite Hf.
  destruct (header f) as [|c0 hd] eqn:E; [congruence|].
  assert (E' : for_in (pre ++ c :: post)
                (fun c1 => match position c1 (c0 :: hd) with
                           | Some i => ret i
                           | None => raise (ValueError c1)
                           end) = inl (ValueError c)).
  { induction Hpre as [|c1 i pre ixs H0 _ IH]; cbn [app for_in].
    - rewrite Hc. reflexivity.
    - rewrite H0. cbn [bind ret]. rewrite IH. reflexivity. }
  rewrite E'. reflexivity.
Qed.

(** The index that the cell reads off the table of a file with one index
    column: no index at all when the table is a single value, the names of
    the other columns when the file has a single record, and the index
    column of the file otherwise. *)
Lemma index_of_table (as_text : string -> bool) (f : CSV) (i : nat) :
  well_formed f = true ->
  (i < List.length (header f))%nat ->
  index_to_list as_text
    (squeeze (mkDataFrame (map (fun r => [field i r]) (records f))
                          (without i (header f))
                          (map (without i) (records f))))
  = match records f with
    | [r] =>
        if (List.length (header f) =? 2)%nat
        then inl (AttributeError (if as_text (field 0 (without i r))
                                  then "to_list" else "index"))
        else inr (without i (header f))
    | _ => inr (map (field i) (records f))
    end.
Proof.
  intros Hw Hi.
  pose proof (length_without i (header f) Hi) as Lw.
  unfold squeeze. cbn [index columns data].
  destruct (records f) as [|r [|r' rs]] eqn:Hr; cbn [map hd].
  - destruct (without i (header f)) as [|c [|c' cs]]; reflexivity.
  - destruct (Nat.eqb_spec (List.length (header f)) 2) as [E|E].
    + destruct (without i (header f)) as [|c [|c' cs]];
        [simpl in Lw; lia | reflexivity | simpl in Lw; lia].
    + destruct (without i (header f)) as [|c [|c' cs]];
        [reflexivity | simpl in Lw; lia |].
      cbn [index_to_list s_index map field nth]. rewrite map_map.
      cbn [field nth]. rewrite map_id. reflexivity.
  - destruct (without i (header f)) as [|c [|c' cs]];
      cbn [index_to_list s_index index map]; rewrite ?map_map; reflexivity.
Qed.

(** X21.  What the statements that read the data raise, once the imports
    of their cell are through, and what they read off a file of a single
    record.  [read_csv] raises [FileNotFoundError] with its path for a file
    that is not there, [ValueError] for a file with no line, and
    [ValueError] with the first index column that the header of a well
    formed file does not name.  The cell reads the three files in the order
    it names them and stops at the first that fails, with what [read_csv]
    raised.  With the three files read: when the amounts are a single
    record of one amount, [on_hand] is that amount and [on_hand.index]
    raises [AttributeError]; so for [chips_data] when the chip data are a
    single record of one column; in every other case the cell binds the
    five names, and of a file with a single record it takes the names of
    the columns besides the index for the ingredients, or the chips, where
    a file of several records gives its index column. *)
Theorem load_failures (as_text : string -> bool) (fs : FileSystem) :
  (forall path cols,
      fs path = None ->
      read_csv fs path cols = inl (FileNotFoundError path))
  /\ (forall path cols f,
        fs path = Some f -> header f = [] ->
        read_csv fs path cols
        = inl (ValueError "No columns to parse from file"))
  /\ (forall path f pre ixs c post,
        fs path = Some f -> header f <> [] -> well_formed f = true ->
        NoDup (pre ++ c :: post) ->
        Forall2 (fun c i => position c (header f) = Some i) pre ixs ->
        position c (header f) = None ->
        read_csv fs path (pre ++ c :: post) = inl (ValueError c))
  /\ (forall e,
        read_csv fs "data_files/ing_amounts.csv" ["ingredient"] = inl e ->
        load as_text fs = inl e)
  /\ (forall df1 e,
        read_csv fs "data_files/ing_amounts.csv" ["ingredient"] = inr df1 ->
        read_csv fs "data_files/chips_data.csv" ["chips"] = inl e ->
        load as_text fs = inl e)
  /\ (forall df1 df2 e,
        read_csv fs "data_files/ing_amounts.csv" ["ingredient"] = inr df1 ->
        read_csv fs "data_files/chips_data.csv" ["chips"] = inr df2 ->
        read_csv fs "data_files/recipes.csv" ["chips"; "ingredients"] = inl e ->
        load as_text fs = inl e)
  /\ (forall f1 f2 f3 i1 i2,
        data_files fs f1 f2 f3 i1 i2 ->
        (forall r,
            records f1 = [r] -> List.length (header f1) = 2%nat ->
            load as_text fs
            = inl (AttributeError (if as_text (field 0 (without i1 r))
                                   then "to_list" else "index")))
        /\ (forall r,
              single_value f1 = false ->
              records f2 = [r] -> List.length (header f2) = 2%nat ->
              load as_text fs
              = inl (AttributeError (if as_text (field 0 (without i2 r))
                                     then "to_list" else "index")))
        /\ (single_value f1 = false -> single_value f2 = false ->
            exists t : Tables,
              load as_text fs = inr t
              /\ ingredients t
                 = (if (List.length (records f1) =? 1)%nat
                    then without i1 (header f1)
                    else map (field i1) (records f1))
              /\ chips t
                 = (if (List.length (records f2) =? 1)%nat
                    then without i2 (header f2)
                    else map (field i2) (records f2)))).
Proof.
  split; [intros path cols H; apply read_csv_missing, H|].
  split; [intros path cols f H E; apply (read_csv_empty fs path f cols H E)|].
  split; [intros path f pre ixs c post H Hh _ _ Hp Hc;
          apply (read_csv_no_column fs path f pre ixs c post H Hh Hp Hc)|].
  split; [intros e E; unfold load; rewrite E; reflexivity|].
  split; [intros df1 e E1 E2; unfold load; rewrite E1; cbn [bind];
          rewrite E2; reflexivity|].
  split; [intros df1 df2 e E1 E2 E3; unfold load; rewrite E1; cbn [bind];
          rewrite E2; cbn [bind]; rewrite E3; reflexivity|].
  intros f1 f2 f3 i1 i2 [H1 [H2 [H3 [W1 [W2 [W3 [P1 [P2 [P3 P4]]]]]]]]].
  destruct (position_first _ _ _ P1) as [B1 _].
  destruct (position_first _ _ _ P2) as [B2 _].
  destruct (position "chips" (header f3)) as [i3|] eqn:Q3; [|congruence].
  destruct (position "ingredients" (header f3)) as [i4|] eqn:Q4;
    [|congruence].
  assert (E3 := read_csv_ok fs _ ["chips"; "ingredients"] f3 [i3; i4] H3
                  (position_header _ _ _ Q3)
                  ltac:(repeat constructor; assumption)).
  assert (Hload : load as_text fs
                  = (ingredients <- match records f1 with
                       | [r] =>
                           if (List.length (header f1) =? 2)%nat
                           then inl (AttributeError
                                       (if as_text (field 0 (without i1 r))
                                        then "to_list" else "index"))
                           else inr (without i1 (header f1))
                       | _ => inr (map (field i1) (records f1))
                       end ;;
                     chips <- match records f2 with
                       | [r] =>
                           if (List.length (header f2) =? 2)%nat
                           then inl (AttributeError
                                       (if as_text (field 0 (without i2 r))
                                        then "to_list" else "index"))
                           else inr (without i2 (header f2))
                       | _ => inr (map (field i2) (records f2))
                       end ;;
                     ret (mkTables
                            (squeeze (mkDataFrame
                                        (map (fun r => [field i1 r])
                                             (records f1))
                                        (without i1 (header f1))
                                        (map (without i1) (records f1))))
                            (squeeze (mkDataFrame
                                        (map (fun r => [field i2 r])
                                             (records f2))
                                        (without i2 (header f2))
                                        (map (without i2) (records f2))))
                            (squeeze (mkDataFrame
                               (map (fun r => map (fun i => field i r)
                                                  [i3; i4]) (records f3))
                               (map (fun j => field j (header f3))
                                    (others (List.length (header f3))
                                            [i3; i4]))
                               (map (fun r => map (fun j => field j r)
                                       (others (List.length (header f3))
                                               [i3; i4]))
                                    (records f3))))
                            ingredients chips))).
  { unfold load.
    rewrite (read_csv_one fs _ "ingredient" f1 i1 H1 W1 P1). cbn [bind].
    rewrite (read_csv_one fs _ "chips" f2 i2 H2 W2 P2). cbn [bind].
    rewrite E3. cbn [bind].
    rewrite (index_of_table as_text f1 i1 W1 B1),
            (index_of_table as_text f2 i2 W2 B2).
    reflexivity. }
  split; [|split].
  - intros r Hr Hl. rewrite Hload, Hr, Hl. reflexivity.
  - intros r S1 Hr Hl. rewrite Hload, Hr, Hl. unfold single_value in S1.
    destruct (records f1) as [|r1 [|r1' rs1]]; try reflexivity.
    cbn [List.length Nat.eqb andb] in S1. rewrite S1. reflexivity.
  - intros S1 S2. rewrite Hload. unfold single_value in S1, S2.
    destruct (records f1) as [|r1 [|r1' rs1]];
      destruct (records f2) as [|r2 [|r2' rs2]];
      cbn [List.length Nat.eqb andb] in S1, S2 |- *;
      rewrite ?S1, ?S2; cbn [bind ret];
      (eexists; split; [reflexivity|]; split; reflexivity).
Qed.

(** No file at all; the example files with a single amount; and the
    example files with the data of a single chip. *)
Lemma load_failures_witness :
  load Examples.numbers (fun _ => None)
  = inl (FileNotFoundError "data_files/ing_amounts.csv")
  /\ load Examples.numbers
          (Examples.with_file "data_files/ing_amounts.csv"
                              Examples.one_amount_csv Examples.files)
     = inl (AttributeError "index")
  /\ exists t : Tables,
       load Examples.numbers
            (Examples.with_file "data_files/chips_data.csv"
                                Examples.one_chip_csv Examples.files)
       = inr t
       /\ ingredients t = ["clay"; "lead"; "silver"; "gold"]
       /\ chips t = ["value"; "demand"; "cost"; "fixed_cost"].
Proof.
  split; [|split].
  - destruct (load_failures Examples.numbers (fun _ => None))
      as [A [_ [_ [B _]]]].
    apply B. apply A. reflexivity.
  - destruct (load_failures Examples.numbers
                (Examples.with_file "data_files/ing_amounts.csv"
                                    Examples.one_amount_csv Examples.files))
      as [_ [_ [_ [_ [_ [_ C]]]]]].
    assert (D : data_files
                  (Examples.with_file "data_files/ing_amounts.csv"
                                      Examples.one_amount_csv Examples.files)
                  Examples.one_amount_csv Examples.chips_data_csv
                  Examples.recipes_csv 0 0).
    { unfold data_files. repeat split; try reflexivity; discriminate. }
    exact (proj1 (C _ _ _ _ _ D) ["clay"; "5000"] eq_refl eq_refl).
  - destruct (load_failures Examples.numbers
                (Examples.with_file "data_files/chips_data.csv"
                                    Examples.one_chip_csv Examples.files))
      as [_ [_ [_ [_ [_ [_ C]]]]]].
    assert (D : data_files
                  (Examples.with_file "data_files/chips_data.csv"
                                      Examples.one_chip_csv Examples.files)
                  Examples.ing_amounts_csv Examples.one_chip_csv
                  Examples.recipes_csv 0 0).
    { unfold data_files. repeat split; try reflexivity; discriminate. }
    exact (proj2 (proj2 (C _ _ _ _ _ D)) eq_refl eq_refl).
Defined.

End DataFilesErrors.
